(** * Asset search query builder and asset-files migration

  A verification development for the persistence layer of the media
  server: the predicate helper [OptionalBetween], the Kysely query
  builders ([hasPeople], [withStack], [searchAssetBuilder], ...) and the
  migration [AddAssetFilesTable1723859965844].

  The builders are embedded as functions that produce the operation-node
  tree Kysely builds; a small relational evaluator gives these trees their
  meaning over tables of rows. *)

From Stdlib Require Import String Ascii DecimalString List Bool ZArith Lia Arith.
Import ListNotations.
Local Open Scope string_scope.
Local Open Scope list_scope.

Set Implicit Arguments.

(* ===================================================================== *)
(** ** JavaScript truthiness *)
(* ===================================================================== *)

Module Js.

(** [ToBoolean] of a present value.  An optional property holds [None]
    when it is [undefined]. *)
Class Truthy (T : Type) : Type := truthy : T -> bool.

(** A Date is an object: always truthy.  It is kept as milliseconds since
    the epoch. *)
Record Date : Type := mkDate { getTime : Z }.

(** A Buffer is an object as well. *)
Record Buffer : Type := mkBuffer { bytes : list Byte.byte }.

#[export] Instance truthy_bool : Truthy bool := fun b => b.
#[export] Instance truthy_string : Truthy string :=
  fun s => negb (String.eqb s "").
(** Numbers: [0] is falsy (the model has no NaN). *)
#[export] Instance truthy_number : Truthy Z := fun n => negb (Z.eqb n 0).
#[export] Instance truthy_Date : Truthy Date := fun _ => true.
#[export] Instance truthy_Buffer : Truthy Buffer := fun _ => true.
(** Arrays are objects: the empty array is truthy. *)
#[export] Instance truthy_array {A : Type} : Truthy (list A) := fun _ => true.

(** [!!x] for an optional property. *)
Definition toBoolean {T : Type} `{Truthy T} (x : option T) : bool :=
  match x with
  | Some v => truthy v
  | None => false
  end.

(** The value of [x] when the test [if (x)] succeeds. *)
Definition whenTruthy {T : Type} `{Truthy T} (x : option T) : option T :=
  match x with
  | Some v => if truthy v then Some v else None
  | None => None
  end.

End Js.
Import Js.

Notation "'!!' x" := (toBoolean x) (at level 35, right associativity).

(* ===================================================================== *)
(** ** TypeORM find operators *)
(* ===================================================================== *)

Module TypeOrm.

(** The three find operators [OptionalBetween] can return. *)
Inductive FindOperator (T : Type) : Type :=
| Between (from to : T)
| MoreThanOrEqual (from : T)
| LessThanOrEqual (to : T).

Arguments Between {T} from to.
Arguments MoreThanOrEqual {T} from.
Arguments LessThanOrEqual {T} to.

(** An ordered column type. *)
Class Ordered (T : Type) : Type := leb : T -> T -> bool.

#[export] Instance ordered_number : Ordered Z := Z.leb.
#[export] Instance ordered_Date : Ordered Date :=
  fun a b => Z.leb (getTime a) (getTime b).

(** [BETWEEN a AND b], [>= a] and [<= b]. *)
Definition matches {T : Type} `{Ordered T} (op : FindOperator T) (v : T) : bool :=
  match op with
  | Between a b => leb a v && leb v b
  | MoreThanOrEqual a => leb a v
  | LessThanOrEqual b => leb v b
  end.

(** A where-condition that is [undefined] puts no constraint on the
    column. *)
Definition satisfies {T : Type} `{Ordered T}
    (cond : option (FindOperator T)) (v : T) : bool :=
  match cond with
  | Some op => matches op v
  | None => true
  end.

End TypeOrm.
Import TypeOrm.

(** [OptionalBetween(from, to)]: the tests [from && to], [from] and [to]
  are truthiness tests. *)
Definition OptionalBetween {T : Type} `{Truthy T}
  (from to : option T) : option (FindOperator T) :=
match whenTruthy from, whenTruthy to with
| Some f, Some t => Some (Between f t)
| Some f, None => Some (MoreThanOrEqual f)
| None, Some t => Some (LessThanOrEqual t)
| None, None => None
end.

(* ===================================================================== *)
(** ** Kysely operation nodes and query builders *)
(* ===================================================================== *)

Module Kysely.

(** Values of the store: SQL scalars and JSON documents. *)
#[warnings="-register-all"]
Inductive Value : Type :=
| VNull
| VBool (b : bool)
| VText (s : string)
| VTime (t : Z)
| VInt (n : Z)
| VBytes (b : list Byte.byte)
| VArray (items : list Value)
| VObject (fields : list (string * Value)).

Definition Row : Type := list (string * Value).

(** A column reference such as ['assets.id'] or ['personId']. *)
Record ColumnRef : Type := mkRef { refTable : option string; refColumn : string }.

(** Text before and after the first occurrence of a separator character. *)
Fixpoint splitAt (sep : Ascii.ascii) (s : string) : option (string * string) :=
  match s with
  | EmptyString => None
  | String c rest =>
      if Ascii.eqb c sep then Some ("", rest)
      else match splitAt sep rest with
           | Some (a, b) => Some (String c a, b)
           | None => None
           end
  end.

(** Kysely parses a reference string ['table.column'] or ['column']. *)
Definition parseRef (s : string) : ColumnRef :=
  match splitAt "."%char s with
  | Some (t, c) => mkRef (Some t) c
  | None => mkRef None s
  end.

(** A table expression ['assets'] or ['assets as stacked']. *)
Record TableRef : Type := mkTable { tableName : string; tableAlias : string }.

Definition parseTable (s : string) : TableRef :=
  match splitAt " "%char s with
  | Some (t, rest) =>
      match splitAt " "%char rest with
      | Some ("as", a) => mkTable t a
      | _ => mkTable s s
      end
  | None => mkTable s s
  end.

Inductive Operator : Type := Eq | Ne | Le | Ge | Is | IsNot | ILike.

Inductive JoinType : Type := InnerJoin | LeftJoin.

(** Every join of these builders is an equi-join on column references. *)
Record JoinNode : Type := mkJoin {
  joinType : JoinType;
  joinTable : TableRef;
  joinOn : list (ColumnRef * ColumnRef) }.

Inductive Selection (E : Type) : Type :=
| SelectAll (table : option string)
| SelectRef (column : ColumnRef)
| SelectAs (e : E) (alias : string).

Arguments SelectAll {E} table.
Arguments SelectRef {E} column.
Arguments SelectAs {E} e alias.

(** The select-query node, over the type [E] of operation nodes. *)
Record SelectQueryNode (E : Type) : Type := mkSelect {
  with_ : list (string * E);
  from : TableRef;
  joins : list JoinNode;
  where_ : list E;
  groupBy : list ColumnRef;
  having : list E;
  selections : list (Selection E) }.

(** Operation nodes.  Raw [sql] templates of the builders are kept in
    structured form: [Cast] for [${x}::type], [FunctionCall] for
    [name(args)]. *)
#[warnings="-register-all"]
Inductive OperationNode : Type :=
| Reference (c : ColumnRef)
| ValueN (v : Value)
| TableN (t : string)
| Cast (e : OperationNode) (type : string)
| BinaryOperation (l : OperationNode) (op : Operator) (r : OperationNode)
| OrN (es : list OperationNode)
| NotN (e : OperationNode)
| ExistsN (e : OperationNode)
| FunctionCall (name : string) (args : list OperationNode)
| CaseN (when_ then_ else_ : OperationNode)
| SelectQuery (q : SelectQueryNode OperationNode).

Definition Expression : Type := OperationNode.

Inductive KyselyPlugin : Type := DeduplicateJoinsPlugin.

(** A database handle or query creator: the installed plugins and the
    common table expressions declared so far. *)
Record Kysely : Type := mkKysely {
  dbPlugins : list KyselyPlugin;
  dbWith : list (string * OperationNode) }.

Record SelectQueryBuilder : Type := mkBuilder {
  node : SelectQueryNode OperationNode;
  plugins : list KyselyPlugin }.

(** The expression builder handed to callbacks; it creates subqueries. *)
Definition ExpressionBuilder : Type := Kysely.
Definition eb : ExpressionBuilder := mkKysely [] [].

Definition withPlugin (p : KyselyPlugin) (db : Kysely) : Kysely :=
  mkKysely (dbPlugins db ++ [p]) (dbWith db).

Definition selectFrom (table : string) (db : Kysely) : SelectQueryBuilder :=
  mkBuilder (mkSelect (dbWith db) (parseTable table) [] [] [] [] []) (dbPlugins db).

Definition toOperationNode (qb : SelectQueryBuilder) : OperationNode :=
  SelectQuery (node qb).

Definition with' (name : string) (expression : Kysely -> SelectQueryBuilder)
    (db : Kysely) : Kysely :=
  mkKysely (dbPlugins db) (dbWith db ++ [(name, toOperationNode (expression eb))]).

Definition updNode (f : SelectQueryNode OperationNode -> SelectQueryNode OperationNode)
    (qb : SelectQueryBuilder) : SelectQueryBuilder :=
  mkBuilder (f (node qb)) (plugins qb).

Definition addJoin (j : JoinNode) : SelectQueryBuilder -> SelectQueryBuilder :=
  updNode (fun n => mkSelect (with_ n) (from n) (joins n ++ [j]) (where_ n)
                      (groupBy n) (having n) (selections n)).

Definition addWhere (e : Expression) : SelectQueryBuilder -> SelectQueryBuilder :=
  updNode (fun n => mkSelect (with_ n) (from n) (joins n) (where_ n ++ [e])
                      (groupBy n) (having n) (selections n)).

Definition addSelection (s : Selection OperationNode) : SelectQueryBuilder -> SelectQueryBuilder :=
  updNode (fun n => mkSelect (with_ n) (from n) (joins n) (where_ n)
                      (groupBy n) (having n) (selections n ++ [s])).

Definition leftJoin (table k1 k2 : string) : SelectQueryBuilder -> SelectQueryBuilder :=
  addJoin (mkJoin LeftJoin (parseTable table) [(parseRef k1, parseRef k2)]).

Definition innerJoin (table k1 k2 : string) : SelectQueryBuilder -> SelectQueryBuilder :=
  addJoin (mkJoin InnerJoin (parseTable table) [(parseRef k1, parseRef k2)]).

(** [innerJoin(table, (join) => join.onRef(..).onRef(..))]. *)
Definition innerJoinOn (table : string) (on : list (string * string))
    : SelectQueryBuilder -> SelectQueryBuilder :=
  addJoin (mkJoin InnerJoin (parseTable table)
             (map (fun p => (parseRef (fst p), parseRef (snd p))) on)).

(** [where(lhs, op, rhs)]: the left side is a reference, the right side a
    value (bound as a parameter) or an expression. *)
Definition where' (lhs : string) (op : Operator) (rhs : Expression)
    : SelectQueryBuilder -> SelectQueryBuilder :=
  addWhere (BinaryOperation (Reference (parseRef lhs)) op rhs).

(** [where(expression, op, rhs)] with an expression on the left. *)
Definition whereLhs (lhs : Expression) (op : Operator) (rhs : Expression)
    : SelectQueryBuilder -> SelectQueryBuilder :=
  addWhere (BinaryOperation lhs op rhs).

(** [whereRef(lhs, op, rhs)]: both sides are references. *)
Definition whereRef (lhs : string) (op : Operator) (rhs : string)
    : SelectQueryBuilder -> SelectQueryBuilder :=
  addWhere (BinaryOperation (Reference (parseRef lhs)) op (Reference (parseRef rhs))).

(** [where((eb) => expression)]. *)
Definition whereExpr (e : Expression) : SelectQueryBuilder -> SelectQueryBuilder :=
  addWhere e.

Definition select (column : string) : SelectQueryBuilder -> SelectQueryBuilder :=
  addSelection (SelectRef (parseRef column)).

Definition selectAll : SelectQueryBuilder -> SelectQueryBuilder :=
  addSelection (SelectAll None).

Definition selectAllOf (table : string) : SelectQueryBuilder -> SelectQueryBuilder :=
  addSelection (SelectAll (Some table)).

Definition groupBy' (column : string) : SelectQueryBuilder -> SelectQueryBuilder :=
  updNode (fun n => mkSelect (with_ n) (from n) (joins n) (where_ n)
                      (groupBy n ++ [parseRef column]) (having n) (selections n)).

Definition having' (lhs : Expression) (op : Operator) (rhs : Expression)
    : SelectQueryBuilder -> SelectQueryBuilder :=
  updNode (fun n => mkSelect (with_ n) (from n) (joins n) (where_ n)
                      (groupBy n) (having n ++ [BinaryOperation lhs op rhs]) (selections n)).

(** [$if(condition, func)]. *)
Definition if' (condition : bool) (func : SelectQueryBuilder -> SelectQueryBuilder)
    (qb : SelectQueryBuilder) : SelectQueryBuilder :=
  if condition then func qb else qb.

(** [eb.fn(name, args)], [eb.fn.count(column)], [eb.fn.toJson(table)]. *)
Definition fn (name : string) (args : list Expression) : Expression :=
  FunctionCall name args.
Definition fn_count (column : string) : Expression :=
  FunctionCall "count" [Reference (parseRef column)].
Definition fn_toJson (table : string) : Expression :=
  FunctionCall "to_json" [TableN table].

(** [eb(lhs, op, rhs)] and [eb.ref(column)]. *)
Definition eb_cmp (lhs : string) (op : Operator) (rhs : Expression) : Expression :=
  BinaryOperation (Reference (parseRef lhs)) op rhs.
Definition eb_ref (column : string) : Expression := Reference (parseRef column).

(** An expression with its alias: [expression.as(alias)]. *)
Definition AliasedExpression : Type := (Expression * string)%type.
Definition as' (alias : string) (e : Expression) : AliasedExpression := (e, alias).
Definition asQuery (alias : string) (qb : SelectQueryBuilder) : AliasedExpression :=
  (toOperationNode qb, alias).

(** [select((eb) => aliased expression)]. *)
Definition selectExpr (ae : AliasedExpression)
    : SelectQueryBuilder -> SelectQueryBuilder :=
  addSelection (SelectAs (fst ae) (snd ae)).

(** [jsonArrayFrom] and [jsonObjectFrom] of [kysely/helpers/postgres]:
    [(select coalesce(json_agg(agg), '[]') from (q) as agg)] and
    [(select to_json(obj) from (q) as obj)]. *)
Definition jsonArrayFrom (q : SelectQueryBuilder) : Expression :=
  FunctionCall "jsonArrayFrom" [toOperationNode q].
Definition jsonObjectFrom (q : SelectQueryBuilder) : Expression :=
  FunctionCall "jsonObjectFrom" [toOperationNode q].

End Kysely.
Import Kysely.

(** Method chaining: [qb |> f] is [qb.f]. *)
Notation "x |> f" := (f x) (at level 45, left associativity, only parsing).

(* ===================================================================== *)
(** ** Search options *)
(* ===================================================================== *)

(** The options bag of the builder.  Its properties are kept in three
    families by type (dates, strings, booleans), so that [options.city] is
    [strings options city]; a property that is [undefined] is [None]. *)
Module Options.

Inductive DateField : Type :=
| createdBefore | createdAfter | updatedBefore | updatedAfter
| trashedBefore | trashedAfter | takenBefore | takenAfter.

Inductive StringField : Type :=
| city | country | lensModel | make | model | state
| deviceAssetId | deviceId | id | libraryId
| encodedVideoPath | originalPath | previewPath | thumbnailPath
| originalFileName | type.

Inductive BooleanField : Type :=
| isFavorite | isOffline | isVisible | isArchived | isEncoded | isMotion
| isNotInAlbum | withExif | withFaces | withPeople | withArchived | withDeleted.

(** Modelled from the spec: the interface [AssetSearchBuilderOptions] of
    [src/interfaces/search.interface], which is not among the sources.  It
    is "a bag of independently optional filters": the time ranges
    (created, updated, trashed, taken) are dates, the location, camera,
    identifier, path and type filters are strings, the flags are booleans,
    the checksum is a buffer, and [userIds] and [personIds] are lists of
    ids.  The properties are those [searchAssetBuilder] reads. *)
Record AssetSearchBuilderOptions : Type := mkOptions {
  dates : DateField -> option Date;
  strings : StringField -> option string;
  booleans : BooleanField -> option bool;
  checksum : option Buffer;
  userIds : option (list string);
  personIds : option (list string) }.

Definition BooleanField_eqb (a b : BooleanField) : bool :=
  match a, b with
  | isFavorite, isFavorite | isOffline, isOffline | isVisible, isVisible
  | isArchived, isArchived | isEncoded, isEncoded | isMotion, isMotion
  | isNotInAlbum, isNotInAlbum | withExif, withExif | withFaces, withFaces
  | withPeople, withPeople | withArchived, withArchived
  | withDeleted, withDeleted => true
  | _, _ => false
  end.

Definition StringField_eqb (a b : StringField) : bool :=
  match a, b with
  | city, city | country, country | lensModel, lensModel | make, make
  | model, model | state, state | deviceAssetId, deviceAssetId
  | deviceId, deviceId | id, id | libraryId, libraryId
  | encodedVideoPath, encodedVideoPath | originalPath, originalPath
  | previewPath, previewPath | thumbnailPath, thumbnailPath
  | originalFileName, originalFileName | type, type => true
  | _, _ => false
  end.

(** Property assignment [options.f = v]. *)
Definition setBoolean (f : BooleanField) (v : option bool)
    (o : AssetSearchBuilderOptions) : AssetSearchBuilderOptions :=
  mkOptions (dates o) (strings o)
    (fun g => if BooleanField_eqb g f then v else booleans o g)
    (checksum o) (userIds o) (personIds o).

Definition setString (f : StringField) (v : option string)
    (o : AssetSearchBuilderOptions) : AssetSearchBuilderOptions :=
  mkOptions (dates o)
    (fun g => if StringField_eqb g f then v else strings o g)
    (booleans o) (checksum o) (userIds o) (personIds o).

(** The empty bag [{}]. *)
Definition noOptions : AssetSearchBuilderOptions :=
  mkOptions (fun _ => None) (fun _ => None) (fun _ => None) None None None.

(** The non-null assertion [x!] followed by binding [x] as a parameter. *)
Definition dateParam (x : option Date) : Expression :=
  match x with Some d => ValueN (VTime (getTime d)) | None => ValueN VNull end.
Definition stringParam (x : option string) : Expression :=
  match x with Some s => ValueN (VText s) | None => ValueN VNull end.
Definition booleanParam (x : option bool) : Expression :=
  match x with Some b => ValueN (VBool b) | None => ValueN VNull end.
Definition bufferParam (x : option Buffer) : Expression :=
  match x with Some b => ValueN (VBytes (bytes b)) | None => ValueN VNull end.

(** [x!] for a string or an array handed to a template. *)
Definition stringOf (x : option string) : string :=
  match x with Some s => s | None => "undefined" end.
Definition arrayOf (x : option (list string)) : list string :=
  match x with Some l => l | None => [] end.

End Options.
Import Options.

(* ===================================================================== *)
(** ** The builders of the search repository *)
(* ===================================================================== *)

(** [sql`${id}::uuid`]. *)
Definition asUuid (id : string) : Expression :=
  Cast (ValueN (VText id)) "uuid".

(** [sql`any(${`{${ids}}`}::uuid[])`]: the ids are joined with commas
    inside braces and the text is cast to a uuid array. *)
Definition anyUuid (ids : list string) : Expression :=
  FunctionCall "any" [Cast (ValueN (VText ("{" ++ String.concat "," ids ++ "}"))) "uuid[]"].

Definition withExif (qb : SelectQueryBuilder) : SelectQueryBuilder :=
  qb
  |> leftJoin "exif" "assets.id" "exif.assetId"
  |> selectExpr (fn "jsonb_strip_nulls" [fn "to_jsonb" [TableN "exif"]] |> as' "exifInfo").

Definition withFaces (eb : ExpressionBuilder) : AliasedExpression :=
  jsonArrayFrom
    (eb |> selectFrom "asset_faces" |> selectAll
        |> whereRef "asset_faces.assetId" Eq "assets.id")
  |> as' "faces".

Definition withFacesAndPeople (eb : ExpressionBuilder) : AliasedExpression :=
  eb
  |> selectFrom "asset_faces"
  |> leftJoin "person" "person.id" "asset_faces.personId"
  |> whereRef "asset_faces.assetId" Eq "assets.id"
  |> selectExpr
       (fn "jsonb_agg"
          [CaseN (eb_cmp "person.id" IsNot (ValueN VNull))
             (fn "jsonb_insert"
                [fn "to_jsonb" [TableN "asset_faces"];
                 Cast (ValueN (VText "{person}")) "text[]";
                 fn "to_jsonb" [TableN "person"]])
             (fn "to_jsonb" [TableN "asset_faces"])]
        |> as' "faces")
  |> asQuery "faces".

Definition hasPeopleCte (db : Kysely) (personIds : list string) : Kysely :=
  db |> with' "valid" (fun qb =>
    qb
    |> selectFrom "asset_faces"
    |> select "assetId"
    |> where' "personId" Eq (anyUuid personIds)
    |> groupBy' "assetId"
    |> having' (fn_count "personId") Ge (ValueN (VInt (Z.of_nat (length personIds))))).

Definition hasPeople (db : Kysely) (personIds : option (list string)) : SelectQueryBuilder :=
  match personIds with
  | Some ids =>
      if Nat.ltb 0 (length ids)
      then hasPeopleCte db ids
           |> selectFrom "assets"
           |> innerJoin "valid" "valid.assetId" "assets.id"
      else db |> selectFrom "assets"
  | None => db |> selectFrom "assets"
  end.

Definition withOwner (eb : ExpressionBuilder) : AliasedExpression :=
  jsonObjectFrom
    (eb |> selectFrom "users" |> selectAll |> whereRef "users.id" Eq "assets.ownerId")
  |> as' "owner".

Definition withLibrary (eb : ExpressionBuilder) : AliasedExpression :=
  jsonObjectFrom
    (eb |> selectFrom "libraries" |> selectAll
        |> whereRef "libraries.id" Eq "assets.libraryId")
  |> as' "library".

Definition withStack (qb : SelectQueryBuilder) (assets : bool) (withDeleted : option bool)
    : SelectQueryBuilder :=
  qb
  |> leftJoin "asset_stack" "asset_stack.primaryAssetId" "assets.id"
  |> selectExpr (fn_toJson "asset_stack" |> as' "stack")
  |> whereExpr
       (OrN [eb_cmp "asset_stack.primaryAssetId" Eq (eb_ref "assets.id");
             eb_cmp "assets.stackId" Is (ValueN VNull)])
  |> if' assets (fun qb =>
       qb |> selectExpr
         (eb
          |> selectFrom "assets as stacked"
          |> selectExpr
               (fn "json_agg" [fn "jsonb_strip_nulls" [fn "to_jsonb" [TableN "stacked"]]]
                |> as' "stackedAssets")
          |> whereRef "asset_stack.id" Eq "assets.stackId"
          |> whereRef "asset_stack.primaryAssetId" Ne "assets.id"
          |> if' (negb (!! withDeleted))
               (fun qb => qb |> where' "stacked.deletedAt" Is (ValueN VNull))
          |> asQuery "stackedAssets")).

Definition withAlbums (qb : SelectQueryBuilder) (albumId : option string) : SelectQueryBuilder :=
  qb
  |> selectExpr
       (jsonArrayFrom
          (eb
           |> selectFrom "albums"
           |> selectAll
           |> innerJoinOn "albums_assets_assets"
                [("albums.id", "albums_assets_assets.albumsId");
                 ("assets.id", "albums_assets_assets.assetsId")]
           |> whereRef "albums.id" Eq "albums_assets_assets.albumsId"
           |> if' (!! albumId)
                (fun qb => qb |> where' "albums.id" Eq (asUuid (stringOf albumId))))
        |> as' "albums")
  |> if' (!! albumId) (fun qb =>
       qb |> whereExpr
         (ExistsN
            (eb
             |> selectFrom "albums_assets_assets"
             |> whereRef "albums_assets_assets.assetsId" Eq "assets.id"
             |> where' "albums_assets_assets.albumsId" Eq (asUuid (stringOf albumId))
             |> toOperationNode))).

Definition joinDeduplicationPlugin : KyselyPlugin := DeduplicateJoinsPlugin.

(** [options.isArchived ??= v]: assigns when the property is nullish. *)
Definition nullishAssign (f : BooleanField) (v : option bool)
    (options : AssetSearchBuilderOptions) : AssetSearchBuilderOptions :=
  match booleans options f with
  | None => setBoolean f v options
  | Some _ => options
  end.

(** [options.withDeleted ||= v]: assigns when the property is falsy. *)
Definition orAssign (f : BooleanField) (v : bool)
    (options : AssetSearchBuilderOptions) : AssetSearchBuilderOptions :=
  if !! (booleans options f) then options else setBoolean f (Some v) options.

(** The first two statements of [searchAssetBuilder]: they write the
    defaults into the options object the caller passed. *)
Definition applyDefaults (options : AssetSearchBuilderOptions) : AssetSearchBuilderOptions :=
  let options :=
    nullishAssign isArchived
      (if !! (booleans options withArchived) then None else Some false) options in
  orAssign withDeleted
    (!! (dates options trashedAfter) || !! (dates options trashedBefore)) options.

(** The chain of [searchAssetBuilder] over the options as they are after
    the defaults were written. *)
Definition searchAssetChain (kysely : Kysely) (options : AssetSearchBuilderOptions)
    : SelectQueryBuilder :=
  hasPeople (kysely |> withPlugin joinDeduplicationPlugin) (personIds options)
  |> selectAllOf "assets"
  |> if' (!! (dates options createdBefore)) (fun qb =>
       qb |> where' "assets.createdAt" Le (dateParam (dates options createdBefore)))
  |> if' (!! (dates options createdAfter)) (fun qb =>
       qb |> where' "assets.createdAt" Ge (dateParam (dates options createdAfter)))
  |> if' (!! (dates options updatedBefore)) (fun qb =>
       qb |> where' "assets.updatedAt" Le (dateParam (dates options updatedBefore)))
  |> if' (!! (dates options updatedAfter)) (fun qb =>
       qb |> where' "assets.updatedAt" Ge (dateParam (dates options updatedAfter)))
  |> if' (!! (dates options trashedBefore)) (fun qb =>
       qb |> where' "assets.deletedAt" Le (dateParam (dates options trashedBefore)))
  |> if' (!! (dates options trashedAfter)) (fun qb =>
       qb |> where' "assets.deletedAt" Ge (dateParam (dates options trashedAfter)))
  |> if' (!! (dates options takenBefore)) (fun qb =>
       qb |> where' "assets.fileCreatedAt" Le (dateParam (dates options takenBefore)))
  |> if' (!! (dates options takenAfter)) (fun qb =>
       qb |> where' "assets.fileCreatedAt" Ge (dateParam (dates options takenAfter)))
  |> if' (!! (strings options city)) (fun qb =>
       qb |> leftJoin "exif" "assets.id" "exif.assetId"
          |> where' "exif.city" Eq (stringParam (strings options city)))
  |> if' (!! (strings options country)) (fun qb =>
       qb |> leftJoin "exif" "assets.id" "exif.assetId"
          |> where' "exif.country" Eq (stringParam (strings options country)))
  |> if' (!! (strings options lensModel)) (fun qb =>
       qb |> leftJoin "exif" "assets.id" "exif.assetId"
          |> where' "exif.lensModel" Eq (stringParam (strings options lensModel)))
  |> if' (!! (strings options make)) (fun qb =>
       qb |> leftJoin "exif" "assets.id" "exif.assetId"
          |> where' "exif.make" Eq (stringParam (strings options make)))
  |> if' (!! (strings options model)) (fun qb =>
       qb |> leftJoin "exif" "assets.id" "exif.assetId"
          |> where' "exif.model" Eq (stringParam (strings options model)))
  |> if' (!! (strings options state)) (fun qb =>
       qb |> leftJoin "exif" "assets.id" "exif.assetId"
          |> where' "exif.state" Eq (stringParam (strings options state)))
  |> if' (!! (checksum options)) (fun qb =>
       qb |> where' "assets.checksum" Eq (bufferParam (checksum options)))
  |> if' (!! (strings options deviceAssetId)) (fun qb =>
       qb |> where' "assets.deviceAssetId" Eq (asUuid (stringOf (strings options deviceAssetId))))
  |> if' (!! (strings options deviceId)) (fun qb =>
       qb |> where' "assets.deviceId" Eq (asUuid (stringOf (strings options deviceId))))
  |> if' (!! (strings options id)) (fun qb =>
       qb |> where' "assets.id" Eq (asUuid (stringOf (strings options id))))
  |> if' (!! (strings options libraryId)) (fun qb =>
       qb |> where' "assets.libraryId" Eq (asUuid (stringOf (strings options libraryId))))
  |> if' (!! (userIds options)) (fun qb =>
       qb |> where' "assets.ownerId" Eq (anyUuid (arrayOf (userIds options))))
  |> if' (!! (strings options encodedVideoPath)) (fun qb =>
       qb |> where' "assets.encodedVideoPath" Eq (stringParam (strings options encodedVideoPath)))
  |> if' (!! (strings options originalPath)) (fun qb =>
       qb |> where' "assets.originalPath" Eq (stringParam (strings options originalPath)))
  |> if' (!! (strings options previewPath)) (fun qb =>
       qb |> where' "assets.previewPath" Eq (stringParam (strings options previewPath)))
  |> if' (!! (strings options thumbnailPath)) (fun qb =>
       qb |> where' "assets.thumbnailPath" Eq (stringParam (strings options thumbnailPath)))
  |> if' (!! (strings options originalFileName)) (fun qb =>
       qb |> whereLhs (fn "f_unaccent" [eb_ref "assets.originalFileName"]) ILike
               (fn "f_unaccent" [stringParam (strings options originalFileName)]))
  |> if' (!! (booleans options isFavorite)) (fun qb =>
       qb |> where' "assets.isFavorite" Eq (booleanParam (booleans options isFavorite)))
  |> if' (!! (booleans options isOffline)) (fun qb =>
       qb |> where' "assets.isOffline" Eq (booleanParam (booleans options isOffline)))
  |> if' (!! (booleans options isVisible)) (fun qb =>
       qb |> where' "assets.isVisible" Eq (booleanParam (booleans options isVisible)))
  |> if' (!! (strings options type)) (fun qb =>
       qb |> where' "assets.type" Eq (stringParam (strings options type)))
  |> if' (!! (booleans options isArchived)) (fun qb =>
       qb |> where' "assets.isArchived" Eq (booleanParam (booleans options isArchived)))
  |> if' (!! (booleans options isEncoded)) (fun qb =>
       qb |> where' "assets.encodedVideoPath" IsNot (ValueN VNull))
  |> if' (!! (booleans options isMotion)) (fun qb =>
       qb |> where' "assets.livePhotoVideoId" IsNot (ValueN VNull))
  |> if' (!! (booleans options isNotInAlbum)) (fun qb =>
       qb |> whereExpr
         (NotN (ExistsN
            (eb
             |> selectFrom "albums_assets_assets"
             |> where' "assetsId" Eq (ValueN (VText "assets.id"))
             |> toOperationNode))))
  |> if' (!! (booleans options Options.withExif)) (fun qb => withExif qb)
  |> if' (!! (booleans options Options.withFaces) || !! (booleans options withPeople)
          || !! (personIds options))
       (fun qb => qb |> selectExpr (withFacesAndPeople eb))
  |> if' (negb (!! (booleans options withDeleted))) (fun qb =>
       qb |> where' "assets.deletedAt" Is (ValueN VNull)).

(** [searchAssetBuilder(kysely, options)]: the options object as the call
    leaves it, and the query builder it returns. *)
Definition searchAssetBuilder (kysely : Kysely) (options : AssetSearchBuilderOptions)
    : AssetSearchBuilderOptions * SelectQueryBuilder :=
  let options := applyDefaults options in
  (options, searchAssetChain kysely options).

(* ===================================================================== *)
(** ** The join-deduplication plugin *)
(* ===================================================================== *)

Module Plugin.

Definition option_eqb {A : Type} (eqb : A -> A -> bool) (a b : option A) : bool :=
  match a, b with
  | Some x, Some y => eqb x y
  | None, None => true
  | _, _ => false
  end.

Definition ColumnRef_eqb (a b : ColumnRef) : bool :=
  option_eqb String.eqb (refTable a) (refTable b)
  && String.eqb (refColumn a) (refColumn b).

Definition TableRef_eqb (a b : TableRef) : bool :=
  String.eqb (tableName a) (tableName b) && String.eqb (tableAlias a) (tableAlias b).

Definition JoinType_eqb (a b : JoinType) : bool :=
  match a, b with
  | InnerJoin, InnerJoin | LeftJoin, LeftJoin => true
  | _, _ => false
  end.

Fixpoint on_eqb (a b : list (ColumnRef * ColumnRef)) : bool :=
  match a, b with
  | [], [] => true
  | (a1, a2) :: a', (b1, b2) :: b' =>
      ColumnRef_eqb a1 b1 && ColumnRef_eqb a2 b2 && on_eqb a' b'
  | _, _ => false
  end.

(** Kysely's [compare] of two join nodes: structural equality. *)
Definition compare (a b : JoinNode) : bool :=
  JoinType_eqb (joinType a) (joinType b)
  && TableRef_eqb (joinTable a) (joinTable b)
  && on_eqb (joinOn a) (joinOn b).

(** The loop of [deduplicateJoins]: [joins[i]] is pushed unless it compares
    equal to some [joins[j]] with [j < i]; [seen] holds [joins[0..i-1]]. *)
Fixpoint deduplicateJoinsFrom (seen rest : list JoinNode) : list JoinNode :=
  match rest with
  | [] => []
  | j :: rest' =>
      let out := deduplicateJoinsFrom (seen ++ [j]) rest' in
      if existsb (compare j) seen then out else j :: out
  end.

Definition deduplicateJoins (joins : list JoinNode) : list JoinNode :=
  deduplicateJoinsFrom [] joins.

(** The transformer visits the whole tree and rewrites the joins of every
    select query it meets. *)
Fixpoint transformNode (e : OperationNode) : OperationNode :=
  match e with
  | Reference c => Reference c
  | ValueN v => ValueN v
  | TableN t => TableN t
  | Cast e' t => Cast (transformNode e') t
  | BinaryOperation l op r => BinaryOperation (transformNode l) op (transformNode r)
  | OrN es => OrN (map transformNode es)
  | NotN e' => NotN (transformNode e')
  | ExistsN e' => ExistsN (transformNode e')
  | FunctionCall name args => FunctionCall name (map transformNode args)
  | CaseN w t f => CaseN (transformNode w) (transformNode t) (transformNode f)
  | SelectQuery q =>
      SelectQuery
        (mkSelect
           (map (fun c => (fst c, transformNode (snd c))) (with_ q))
           (from q)
           (deduplicateJoins (joins q))
           (map transformNode (where_ q))
           (groupBy q)
           (map transformNode (having q))
           (map (fun s => match s with
                          | SelectAll t => SelectAll t
                          | SelectRef c => SelectRef c
                          | SelectAs e' a => SelectAs (transformNode e') a
                          end) (selections q)))
  end.

Definition transformQuery (p : KyselyPlugin) (n : OperationNode) : OperationNode :=
  match p with
  | DeduplicateJoinsPlugin => transformNode n
  end.

End Plugin.

(** [qb.compile()]: the plugins of the builder transform its node before
    the query is handed to the store. *)
Definition compile (qb : SelectQueryBuilder) : OperationNode :=
  fold_left (fun n p => Plugin.transformQuery p n) (plugins qb) (toOperationNode qb).

(** The joins of a compiled query. *)
Definition joinsOf (n : OperationNode) : list JoinNode :=
  match n with
  | SelectQuery q => joins q
  | _ => []
  end.

Definition wheresOf (n : OperationNode) : list OperationNode :=
  match n with
  | SelectQuery q => where_ q
  | _ => []
  end.

(** How many joins of a list go to a given table. *)
Definition countJoinsTo (table : string) (js : list JoinNode) : nat :=
  length (filter (fun j => String.eqb (tableName (joinTable j)) table) js).

(* ===================================================================== *)
(** ** The store: evaluating a query over tables *)
(* ===================================================================== *)

(** The relational meaning of the operation nodes the builders produce:
    tables are lists of rows, conditions follow SQL's three-valued logic
    ([VNull] is "unknown"), [None] is an error of the store.  Identifiers
    of type uuid are kept as text and a cast to uuid does not check their
    syntax. *)
Module Store.

Record Table : Type := mkRows { columns : list string; rows : list Row }.

Definition Database : Type := list (string * Table).

(** A table of the FROM clause bound to one of its rows; [bindRow] is
    [None] for the null-extended side of a left join. *)
Record Binding : Type := mkBinding {
  bindAlias : string;
  bindColumns : list string;
  bindRow : option Row }.

(** The tables in scope, innermost query first. *)
Definition Scope : Type := list Binding.

Fixpoint assoc {A : Type} (k : string) (l : list (string * A)) : option A :=
  match l with
  | [] => None
  | (k', v) :: rest => if String.eqb k k' then Some v else assoc k rest
  end.

Definition hasColumn (c : string) (b : Binding) : bool :=
  existsb (String.eqb c) (bindColumns b).

Definition field (b : Binding) (c : string) : option Value :=
  if hasColumn c b then
    match bindRow b with
    | Some r => match assoc c r with Some v => Some v | None => Some VNull end
    | None => Some VNull
    end
  else None.

(** Name resolution: a qualified reference takes the innermost table of
    that name or alias, an unqualified one the innermost table that has the
    column. *)
Fixpoint resolve (sc : Scope) (c : ColumnRef) : option Value :=
  match sc with
  | [] => None
  | b :: rest =>
      match refTable c with
      | Some t =>
          if String.eqb t (bindAlias b) then field b (refColumn c) else resolve rest c
      | None =>
          if hasColumn (refColumn c) b then field b (refColumn c) else resolve rest c
      end
  end.

Fixpoint findBinding (sc : Scope) (t : string) : option Binding :=
  match sc with
  | [] => None
  | b :: rest => if String.eqb t (bindAlias b) then Some b else findBinding rest t
  end.

Definition bind {A B : Type} (x : option A) (k : A -> option B) : option B :=
  match x with
  | Some a => k a
  | None => None
  end.

Notation "x <- e ;; k" := (bind e (fun x => k))
  (at level 61, e at next level, right associativity).

Fixpoint mapM {A B : Type} (f : A -> option B) (l : list A) : option (list B) :=
  match l with
  | [] => Some []
  | a :: rest =>
      match f a with
      | Some b => match mapM f rest with Some bs => Some (b :: bs) | None => None end
      | None => None
      end
  end.

Fixpoint filterM {A : Type} (f : A -> option bool) (l : list A) : option (list A) :=
  match l with
  | [] => Some []
  | a :: rest =>
      match f a with
      | Some keep =>
          match filterM f rest with
          | Some r => Some (if keep then a :: r else r)
          | None => None
          end
      | None => None
      end
  end.

(** Equality of scalars; two NULLs are equal here (used for grouping). *)
Definition scalar_eqb (a b : Value) : bool :=
  match a, b with
  | VNull, VNull => true
  | VBool x, VBool y => Bool.eqb x y
  | VText x, VText y => String.eqb x y
  | VTime x, VTime y => Z.eqb x y
  | VInt x, VInt y => Z.eqb x y
  | VBytes x, VBytes y => if list_eq_dec Byte.byte_eq_dec x y then true else false
  | _, _ => false
  end.

Definition scalar_leb (a b : Value) : option bool :=
  match a, b with
  | VTime x, VTime y => Some (Z.leb x y)
  | VInt x, VInt y => Some (Z.leb x y)
  | _, _ => None
  end.

Definition isNull (v : Value) : bool :=
  match v with VNull => true | _ => false end.

(** A row passes a condition only when the condition is true. *)
Definition isTrue (v : Value) : bool :=
  match v with VBool true => true | _ => false end.

Definition sameKind (a b : Value) : bool :=
  match a, b with
  | VBool _, VBool _ | VText _, VText _ | VTime _, VTime _
  | VInt _, VInt _ | VBytes _, VBytes _ => true
  | _, _ => false
  end.

(** Comparison operators: unknown when an operand is NULL, except for
    [is] and [is not]. *)
Definition applyOperator (op : Operator) (a b : Value) : option Value :=
  match op with
  | Is =>
      match b with
      | VNull | VBool _ => Some (VBool (scalar_eqb a b))
      | _ => None
      end
  | IsNot =>
      match b with
      | VNull | VBool _ => Some (VBool (negb (scalar_eqb a b)))
      | _ => None
      end
  | Eq =>
      if isNull a || isNull b then Some VNull
      else if sameKind a b then Some (VBool (scalar_eqb a b)) else None
  | Ne =>
      if isNull a || isNull b then Some VNull
      else if sameKind a b then Some (VBool (negb (scalar_eqb a b))) else None
  | Le =>
      if isNull a || isNull b then Some VNull
      else match scalar_leb a b with Some r => Some (VBool r) | None => None end
  | Ge =>
      if isNull a || isNull b then Some VNull
      else match scalar_leb b a with Some r => Some (VBool r) | None => None end
  | ILike => None
  end.

(** [a op any(items)]. *)
Definition applyAny (op : Operator) (a : Value) (items : list Value) : option Value :=
  if isNull a then Some VNull
  else
    match mapM (applyOperator op a) items with
    | Some rs => Some (VBool (existsb isTrue rs))
    | None => None
    end.

(** SQL's [or] over three truth values. *)
Definition or3 (vs : list Value) : Value :=
  if existsb isTrue vs then VBool true
  else if existsb isNull vs then VNull else VBool false.

Definition not3 (v : Value) : option Value :=
  match v with
  | VBool b => Some (VBool (negb b))
  | VNull => Some VNull
  | _ => None
  end.

(** Splitting a comma-separated text. *)
Fixpoint splitCommas (fuel : nat) (s : string) : list string :=
  match fuel with
  | O => [s]
  | S fuel' =>
      match splitAt ","%char s with
      | Some (a, rest) => a :: splitCommas fuel' rest
      | None => [s]
      end
  end.

Fixpoint dropLast (s : string) : string :=
  match s with
  | EmptyString => EmptyString
  | String c EmptyString => EmptyString
  | String c rest => String c (dropLast rest)
  end.

(** The array literal ['{a,b,c}']. *)
Definition parseArrayLiteral (s : string) : option (list Value) :=
  match s with
  | String "{"%char body =>
      let inner := dropLast body in
      if String.eqb body (inner ++ "}") then
        Some (if String.eqb inner "" then []
              else map VText (splitCommas (String.length inner) inner))
      else None
  | _ => None
  end.

Definition castTo (type : string) (v : Value) : option Value :=
  if isNull v then Some VNull
  else if String.eqb type "uuid" then
    match v with VText s => Some (VText s) | _ => None end
  else if String.eqb type "uuid[]" || String.eqb type "text[]" then
    match v with
    | VText s => match parseArrayLiteral s with Some l => Some (VArray l) | None => None end
    | _ => None
    end
  else None.

(** [jsonb_strip_nulls]: object fields holding null are removed, at every
    depth. *)
Fixpoint stripNulls (v : Value) : Value :=
  match v with
  | VObject fields =>
      VObject (flat_map (fun kv => if isNull (snd kv) then []
                                   else [(fst kv, stripNulls (snd kv))]) fields)
  | VArray items => VArray (map stripNulls items)
  | _ => v
  end.

(** [jsonb_insert(target, '{key}', value)] into an object. *)
Definition jsonbInsert (target path value : Value) : option Value :=
  match target, path with
  | VNull, _ => Some VNull
  | VObject fields, VArray [VText key] =>
      match assoc key fields with
      | Some _ => None
      | None => Some (VObject (fields ++ [(key, value)]))
      end
  | _, _ => None
  end.

Definition isAggregate (name : string) : bool :=
  String.eqb name "count" || String.eqb name "json_agg" || String.eqb name "jsonb_agg".

(** Whether an expression calls an aggregate outside of its subqueries. *)
Fixpoint hasAggregate (e : OperationNode) : bool :=
  match e with
  | Reference _ | ValueN _ | TableN _ | SelectQuery _ | ExistsN _ => false
  | Cast e' _ => hasAggregate e'
  | BinaryOperation l _ r => hasAggregate l || hasAggregate r
  | OrN es => existsb hasAggregate es
  | NotN e' => hasAggregate e'
  | FunctionCall name args => isAggregate name || existsb hasAggregate args
  | CaseN w t f => hasAggregate w || hasAggregate t || hasAggregate f
  end.

Definition selectionAggregates (s : Selection OperationNode) : bool :=
  match s with
  | SelectAs e _ => hasAggregate e
  | _ => false
  end.

(** Rows grouped by key, in order of first appearance. *)
Fixpoint addToGroup (key : list Value) (r : Scope)
    (groups : list (list Value * list Scope)) : list (list Value * list Scope) :=
  match groups with
  | [] => [(key, [r])]
  | (k, members) :: rest =>
      if (Nat.eqb (length k) (length key)
          && forallb (fun p => scalar_eqb (fst p) (snd p)) (combine k key))%bool
      then (k, members ++ [r]) :: rest
      else (k, members) :: addToGroup key r rest
  end.

Definition groupScopes (keyOf : Scope -> option (list Value)) (scopes : list Scope)
    : option (list (list Scope)) :=
  keyed <- mapM (fun sc => k <- keyOf sc ;; Some (k, sc)) scopes ;;
  Some (map snd (fold_left (fun groups kr => addToGroup (fst kr) (snd kr) groups) keyed [])).

Definition bindingOf (t : TableRef) (tbl : Table) (r : option Row) : Binding :=
  mkBinding (tableAlias t) (columns tbl) r.

(** One join step over the rows built so far. *)
Definition joinStep (db : Database) (outer : Scope) (j : JoinNode)
    (locals : list Scope) : option (list Scope) :=
  tbl <- assoc (tableName (joinTable j)) db ;;
  expanded <- mapM (fun loc =>
    matching <- filterM (fun r =>
      let sc := loc ++ [bindingOf (joinTable j) tbl (Some r)] ++ outer in
      conds <- mapM (fun on =>
                 a <- resolve sc (fst on) ;;
                 b <- resolve sc (snd on) ;;
                 applyOperator Eq a b) (joinOn j) ;;
      Some (forallb isTrue conds)) (rows tbl) ;;
    Some match matching, joinType j with
         | [], LeftJoin => [loc ++ [bindingOf (joinTable j) tbl None]]
         | _, _ => map (fun r => loc ++ [bindingOf (joinTable j) tbl (Some r)]) matching
         end) locals ;;
  Some (concat expanded).

Fixpoint joinAll (db : Database) (outer : Scope) (js : list JoinNode)
    (locals : list Scope) : option (list Scope) :=
  match js with
  | [] => Some locals
  | j :: rest => next <- joinStep db outer j locals ;; joinAll db outer rest next
  end.

Definition bindingFields (b : Binding) : option Row :=
  mapM (fun c => v <- field b c ;; Some (c, v)) (bindColumns b).

Section Select.

(** The evaluators of the expressions and of the subqueries of a select
    query; [execSelect] is closed over them below. *)
Variable evalIn : Database -> Scope -> list Scope -> OperationNode -> option Value.
Variable runIn : Database -> Scope -> OperationNode -> option Table.

Definition selectionFields (db : Database) (outer local : Scope) (grp : list Scope)
    (s : Selection OperationNode) : option Row :=
  match s with
  | SelectAll None => fs <- mapM bindingFields local ;; Some (concat fs)
  | SelectAll (Some t) => b <- findBinding local t ;; bindingFields b
  | SelectRef c => v <- resolve (local ++ outer) c ;; Some [(refColumn c, v)]
  | SelectAs e alias => v <- evalIn db (local ++ outer) grp e ;; Some [(alias, v)]
  end.

Definition outputRow (db : Database) (outer local : Scope) (grp : list Scope)
    (q : SelectQueryNode OperationNode) : option Row :=
  fs <- mapM (selectionFields db outer local grp) (selections q) ;;
  Some (concat fs).

Definition selectionNames (shape : Scope) (s : Selection OperationNode) : option (list string) :=
  match s with
  | SelectAll None => Some (concat (map bindColumns shape))
  | SelectAll (Some t) => b <- findBinding shape t ;; Some (bindColumns b)
  | SelectRef c => Some [refColumn c]
  | SelectAs _ alias => Some [alias]
  end.

Fixpoint declare (db : Database) (ctes : list (string * OperationNode)) : option Database :=
  match ctes with
  | [] => Some db
  | (name, e) :: rest =>
      tbl <- runIn db [] e ;;
      declare ((name, tbl) :: db) rest
  end.

Definition execSelect (db : Database) (outer : Scope)
    (q : SelectQueryNode OperationNode) : option Table :=
  db <- declare db (with_ q) ;;
  base <- assoc (tableName (from q)) db ;;
  shape <- mapM (fun t => tbl <- assoc (tableName t) db ;; Some (bindingOf t tbl None))
             (from q :: map joinTable (joins q)) ;;
  names <- mapM (selectionNames shape) (selections q) ;;
  joined <- joinAll db outer (joins q)
              (map (fun r => [bindingOf (from q) base (Some r)]) (rows base)) ;;
  kept <- filterM (fun local =>
            conds <- mapM (evalIn db (local ++ outer) [local ++ outer]) (where_ q) ;;
            Some (forallb isTrue conds)) joined ;;
  out <-
    (if (match groupBy q with [] => false | _ => true end)
        || (match having q with [] => false | _ => true end)
        || existsb selectionAggregates (selections q)
     then
       groups <- match groupBy q with
                 | [] => Some [kept]
                 | keys => groupScopes (fun local => mapM (resolve (local ++ outer)) keys) kept
                 end ;;
       passing <- filterM (fun g =>
                    let local := hd [] g in
                    let grp := map (fun l => l ++ outer) g in
                    conds <- mapM (evalIn db (local ++ outer) grp) (having q) ;;
                    Some (forallb isTrue conds)) groups ;;
       mapM (fun g => outputRow db outer (hd [] g) (map (fun l => l ++ outer) g) q) passing
     else
       mapM (fun local => outputRow db outer local [local ++ outer] q) kept) ;;
  Some (mkRows (concat names) out).

End Select.

(** The value of an expression in scope [sc]; [grp] holds the rows of the
    current group for the aggregates.  [run] gives the rows of a
    subquery. *)
Fixpoint eval (db : Database) (sc : Scope) (grp : list Scope) (e : OperationNode)
    {struct e} : option Value :=
  match e with
  | Reference c => resolve sc c
  | ValueN v => Some v
  | TableN t =>
      b <- findBinding sc t ;;
      match bindRow b with
      | Some _ => r <- bindingFields b ;; Some (VObject r)
      | None => Some VNull
      end
  | Cast e' ty => v <- eval db sc grp e' ;; castTo ty v
  | BinaryOperation l op r =>
      a <- eval db sc grp l ;;
      match r with
      | FunctionCall name [arr] =>
          if String.eqb name "any" then
            items <- eval db sc grp arr ;;
            match items with
            | VArray l' => applyAny op a l'
            | VNull => Some VNull
            | _ => None
            end
          else b <- eval db sc grp r ;; applyOperator op a b
      | _ => b <- eval db sc grp r ;; applyOperator op a b
      end
  | OrN es => vs <- mapM (eval db sc grp) es ;; Some (or3 vs)
  | NotN e' => v <- eval db sc grp e' ;; not3 v
  | ExistsN e' =>
      t <- run db sc e' ;;
      Some (VBool (match rows t with [] => false | _ => true end))
  | FunctionCall name args =>
      match args with
      | [a] =>
          if String.eqb name "count" then
            vs <- mapM (fun g => eval db g [g] a) grp ;;
            Some (VInt (Z.of_nat (length (filter (fun v => negb (isNull v)) vs))))
          else if String.eqb name "json_agg" || String.eqb name "jsonb_agg" then
            vs <- mapM (fun g => eval db g [g] a) grp ;;
            Some (match vs with [] => VNull | _ => VArray vs end)
          else if String.eqb name "to_json" || String.eqb name "to_jsonb" then
            eval db sc grp a
          else if String.eqb name "jsonb_strip_nulls" then
            v <- eval db sc grp a ;; Some (stripNulls v)
          else if String.eqb name "jsonArrayFrom" then
            t <- run db sc a ;; Some (VArray (map VObject (rows t)))
          else if String.eqb name "jsonObjectFrom" then
            t <- run db sc a ;;
            Some (match rows t with [] => VNull | r :: _ => VObject r end)
          else None
      | [a; b; c] =>
          if String.eqb name "jsonb_insert" then
            target <- eval db sc grp a ;;
            path <- eval db sc grp b ;;
            value <- eval db sc grp c ;;
            jsonbInsert target path value
          else None
      | _ => None
      end
  | CaseN w t f =>
      c <- eval db sc grp w ;;
      if isTrue c then eval db sc grp t else eval db sc grp f
  | SelectQuery q =>
      t <- execSelect eval run db sc q ;;
      match rows t with
      | [] => Some VNull
      | [(_, v) :: _] => Some v
      | _ => None
      end
  end
with run (db : Database) (outer : Scope) (e : OperationNode) {struct e} : option Table :=
  match e with
  | SelectQuery q => execSelect eval run db outer q
  | _ => None
  end.

(** Running a compiled query on a database. *)
Definition execute (db : Database) (qb : SelectQueryBuilder) : option Table :=
  run db [] (compile qb).

End Store.

(* ===================================================================== *)
(** ** The migration AddAssetFilesTable1723859965844 *)
(* ===================================================================== *)

(** Every statement of [up] and [down] is a function on the part of the
    database the migration touches: the [assets] table, the [asset_files]
    table (absent before [up] and after [down]), and the names of the
    index and the constraint it creates.  A statement the store rejects
    gives [None]; the migration runs in one transaction, so the first
    rejected statement aborts it. *)
Module Migration.
Import Store.

Record Db : Type := mkDb {
  assets : Table;
  asset_files : option Table;
  indexes : list string;
  constraints : list string;
  (** how many uuids [uuid_generate_v4()] has handed out *)
  uuidsDrawn : nat }.

Definition valueOf (c : string) (r : Row) : Value :=
  match assoc c r with
  | Some v => v
  | None => VNull
  end.

Definition hasCol (c : string) (t : Table) : bool :=
  existsb (String.eqb c) (columns t).

Definition dropCol (c : string) (r : Row) : Row :=
  filter (fun kv => negb (String.eqb (fst kv) c)) r.

Definition addCol (c : string) (v : Value) (r : Row) : Row := r ++ [(c, v)].

Definition setCol (c : string) (v : Value) (r : Row) : Row :=
  map (fun kv => if String.eqb (fst kv) c then (fst kv, v) else kv) r.

(** The key of the unique index [UQ_assetId_type]. *)
Definition fileKey (f : Row) : Value * Value := (valueOf "assetId" f, valueOf "type" f).

Definition sameKey (a b : Value * Value) : bool :=
  scalar_eqb (fst a) (fst b) && scalar_eqb (snd a) (snd b).

Fixpoint uniqueKeys (keys : list (Value * Value)) : bool :=
  match keys with
  | [] => true
  | k :: rest => negb (existsb (sameKey k) rest) && uniqueKeys rest
  end.

Definition assetFilesColumns : list string :=
  ["id"; "assetId"; "createdAt"; "updatedAt"; "deletedAt"; "type"; "path"].

(** A condition holds for a row when it is true, not when it is unknown
    or ill-typed. *)
Definition sqlTrue (v : option Value) : bool :=
  match v with
  | Some v => isTrue v
  | None => false
  end.

(** A path that is neither null nor empty. *)
Definition hasPathB (column : string) (a : Row) : bool :=
  match valueOf column a with
  | VText s => negb (String.eqb s "")
  | _ => false
  end.

Section Engine.

(** What the store supplies: the uuids of [uuid_generate_v4()], the time
    of [now()], and the column an identifier written without quotes
    names. *)
Variable uuid_generate_v4 : nat -> string.
Variable now : Z.
Variable unquoted : string -> string.

(** [CREATE TABLE "asset_files" (...)]. *)
Definition createAssetFiles (db : Db) : option Db :=
  match asset_files db with
  | Some _ => None
  | None =>
      Some (mkDb (assets db) (Some (mkRows assetFilesColumns []))
              (indexes db) (constraints db) (uuidsDrawn db))
  end.

(** [CREATE UNIQUE INDEX name ON "asset_files" ("assetId", "type")]. *)
Definition createUniqueIndex (name : string) (db : Db) : option Db :=
  files <- asset_files db ;;
  if existsb (String.eqb name) (indexes db) then None
  else if uniqueKeys (map fileKey (rows files)) then
    Some (mkDb (assets db) (asset_files db) (name :: indexes db)
            (constraints db) (uuidsDrawn db))
  else None.

(** [ALTER TABLE "asset_files" ADD CONSTRAINT name FOREIGN KEY ("assetId")
    REFERENCES "assets"("id") ON DELETE CASCADE ON UPDATE CASCADE]. *)
Definition addForeignKey (name : string) (db : Db) : option Db :=
  files <- asset_files db ;;
  if existsb (String.eqb name) (constraints db) then None
  else if forallb (fun f => existsb (fun a => scalar_eqb (valueOf "id" a) (valueOf "assetId" f))
                              (rows (assets db))) (rows files) then
    Some (mkDb (assets db) (asset_files db) (indexes db)
            (name :: constraints db) (uuidsDrawn db))
  else None.

(** The row of [asset_files] made from an asset: [id], [createdAt] and
    [updatedAt] take their column defaults, [deletedAt] is null. *)
Definition fileRow (type column : string) (n : nat) (asset : Row) : Row :=
  [("id", VText (uuid_generate_v4 n));
   ("assetId", valueOf "id" asset);
   ("createdAt", VTime now);
   ("updatedAt", VTime now);
   ("deletedAt", VNull);
   ("type", VText type);
   ("path", valueOf column asset)].

(** The condition [column IS NOT NULL AND column != '']. *)
Definition hasPath (column : string) (asset : Row) : option bool :=
  a <- applyOperator IsNot (valueOf column asset) VNull ;;
  b <- applyOperator Ne (valueOf column asset) (VText "") ;;
  Some (isTrue a && isTrue b).

Fixpoint fileRows (type column : string) (n : nat) (selected : list Row) : list Row :=
  match selected with
  | [] => []
  | a :: rest => fileRow type column n a :: fileRows type column (S n) rest
  end.

(** [INSERT INTO "asset_files" ("assetId", "type", "path")
     SELECT "id", type, column FROM "assets"
     WHERE column IS NOT NULL AND column != '']. *)
Definition insertPaths (type column : string) (db : Db) : option Db :=
  files <- asset_files db ;;
  if hasCol column (assets db) && hasCol "id" (assets db) then
    selected <- filterM (hasPath column) (rows (assets db)) ;;
    let inserted := fileRows type column (uuidsDrawn db) selected in
    let all := rows files ++ inserted in
    if forallb (fun f => negb (isNull (valueOf "assetId" f))) inserted
       && uniqueKeys (map fileKey all)
    then Some (mkDb (assets db) (Some (mkRows (columns files) all))
                 (indexes db) (constraints db) (uuidsDrawn db + length selected))
    else None
  else None.

(** [ALTER TABLE "assets" DROP COLUMN column]. *)
Definition dropColumn (column : string) (db : Db) : option Db :=
  if hasCol column (assets db) then
    Some (mkDb (mkRows (filter (fun c => negb (String.eqb c column)) (columns (assets db)))
                  (map (dropCol column) (rows (assets db))))
            (asset_files db) (indexes db) (constraints db) (uuidsDrawn db))
  else None.

(** [ALTER TABLE "assets" ADD column character varying [DEFAULT default]]. *)
Definition addColumn (column : string) (default : Value) (db : Db) : option Db :=
  if hasCol column (assets db) then None
  else
    Some (mkDb (mkRows (columns (assets db) ++ [column])
                  (map (addCol column default) (rows (assets db))))
            (asset_files db) (indexes db) (constraints db) (uuidsDrawn db)).

(** The join condition ["assets".id = "asset_files".assetId AND
    "asset_files".type = type]; the identifiers [id], [assetId] and [type]
    are written without quotes. *)
Definition fileOf (type : string) (asset file : Row) : bool :=
  sqlTrue (applyOperator Eq (valueOf (unquoted "id") asset)
             (valueOf (unquoted "assetId") file))
  && sqlTrue (applyOperator Eq (valueOf (unquoted "type") file) (VText type)).

(** [UPDATE "assets" SET column = "asset_files".path FROM "asset_files"
     WHERE "assets".id = "asset_files".assetId AND "asset_files".type = type].
    The store rejects the statement when an identifier names no column.
    An asset with several matching files takes the first. *)
Definition restorePaths (column type : string) (db : Db) : option Db :=
  files <- asset_files db ;;
  if hasCol column (assets db)
     && hasCol (unquoted "id") (assets db)
     && existsb (String.eqb (unquoted "assetId")) (columns files)
     && existsb (String.eqb (unquoted "type")) (columns files)
     && existsb (String.eqb (unquoted "path")) (columns files)
  then
    Some (mkDb
            (mkRows (columns (assets db))
               (map (fun a =>
                  match find (fileOf type a) (rows files) with
                  | Some f => setCol column (valueOf (unquoted "path") f) a
                  | None => a
                  end) (rows (assets db))))
            (asset_files db) (indexes db) (constraints db) (uuidsDrawn db))
  else None.

(** [ALTER TABLE "asset_files" DROP CONSTRAINT name]. *)
Definition dropConstraint (name : string) (db : Db) : option Db :=
  if existsb (String.eqb name) (constraints db) then
    Some (mkDb (assets db) (asset_files db) (indexes db)
            (filter (fun c => negb (String.eqb c name)) (constraints db)) (uuidsDrawn db))
  else None.

(** [DROP TABLE "asset_files"]; its index goes with it. *)
Definition dropAssetFiles (db : Db) : option Db :=
  match asset_files db with
  | Some _ => Some (mkDb (assets db) None [] (constraints db) (uuidsDrawn db))
  | None => None
  end.

Definition up (db : Db) : option Db :=
  db <- createAssetFiles db ;;
  db <- createUniqueIndex "UQ_assetId_type" db ;;
  db <- addForeignKey "FK_e3e103a5f1d8bc8402999286040" db ;;
  (* preview path migration *)
  db <- insertPaths "preview" "previewPath" db ;;
  db <- dropColumn "previewPath" db ;;
  (* thumbnail path migration *)
  db <- insertPaths "thumbnail" "thumbnailPath" db ;;
  dropColumn "thumbnailPath" db.

Definition down (db : Db) : option Db :=
  (* undo preview path migration *)
  db <- addColumn "previewPath" VNull db ;;
  db <- restorePaths "previewPath" "preview" db ;;
  (* undo thumbnail path migration *)
  db <- addColumn "thumbnailPath" (VText "") db ;;
  db <- restorePaths "thumbnailPath" "thumbnail" db ;;
  db <- dropConstraint "FK_e3e103a5f1d8bc8402999286040" db ;;
  dropAssetFiles db.

Definition upThenDown (db : Db) : option Db :=
  db <- up db ;; down db.

End Engine.

(** The asset with a given id, and its value in a column. *)
Definition findAsset (id : string) (db : Db) : option Row :=
  find (fun a => scalar_eqb (valueOf "id" a) (VText id)) (rows (assets db)).


(** An [assets] table as the migration finds it: [id] is a non-null
    primary key of type uuid, [previewPath] and [thumbnailPath] are
    nullable text columns, and the migration has not run yet. *)
Definition isText (v : Value) : bool :=
  match v with VText _ => true | _ => false end.

Definition textOrNull (v : Value) : bool :=
  match v with VText _ | VNull => true | _ => false end.

Definition legacyRow (a : Row) : bool :=
  isText (valueOf "id" a)
  && textOrNull (valueOf "previewPath" a)
  && textOrNull (valueOf "thumbnailPath" a).

Fixpoint distinctIds (l : list Row) : bool :=
  match l with
  | [] => true
  | a :: rest =>
      negb (existsb (fun b => scalar_eqb (valueOf "id" a) (valueOf "id" b)) rest)
      && distinctIds rest
  end.

Definition legacy (db : Db) : bool :=
  hasCol "id" (assets db)
  && hasCol "previewPath" (assets db)
  && hasCol "thumbnailPath" (assets db)
  && forallb legacyRow (rows (assets db))
  && distinctIds (rows (assets db))
  && match asset_files db with None => true | Some _ => false end
  && negb (existsb (String.eqb "UQ_assetId_type") (indexes db))
  && negb (existsb (String.eqb "FK_e3e103a5f1d8bc8402999286040") (constraints db)).

(** A store that folds unquoted identifiers to lower case. *)
Definition lowerChar (c : ascii) : ascii :=
  let n := nat_of_ascii c in
  if (Nat.leb 65 n && Nat.leb n 90)%bool then ascii_of_nat (n + 32) else c.

Fixpoint lowerCase (s : string) : string :=
  match s with
  | EmptyString => EmptyString
  | String c rest => String (lowerChar c) (lowerCase rest)
  end.

End Migration.

(* ===================================================================== *)
(** ** Conditions and measures used in the statements *)
(* ===================================================================== *)

(** The condition [assets.deletedAt is null]. *)
Definition deletedAtIsNull : OperationNode :=
  BinaryOperation (Reference (mkRef (Some "assets") "deletedAt")) Is (ValueN VNull).

(** The condition [assets.isArchived = false]. *)
Definition isArchivedIsFalse : OperationNode :=
  BinaryOperation (Reference (mkRef (Some "assets") "isArchived")) Eq (ValueN (VBool false)).

(** The subquery of the [isNotInAlbum] filter as the builder writes it:
    its condition compares [assetsId] with the text ['assets.id'], a bound
    value, not with the column of the outer query. *)
Definition notInAlbumCondition : OperationNode :=
  NotN (ExistsN (SelectQuery
    (mkSelect [] (mkTable "albums_assets_assets" "albums_assets_assets") []
       [BinaryOperation (Reference (mkRef None "assetsId")) Eq (ValueN (VText "assets.id"))]
       [] [] []))).

(** The filters that need the EXIF relation. *)
Definition exifFields : list StringField := [city; country; lensModel; make; model; state].

(** How many EXIF filters an options bag provides. *)
Definition exifFilters (options : AssetSearchBuilderOptions) : nat :=
  length (filter (fun f => !! (strings options f)) exifFields).

(** The join every EXIF filter asks for. *)
Definition exifJoin : JoinNode :=
  mkJoin LeftJoin (mkTable "exif" "exif")
    [(mkRef (Some "assets") "id", mkRef (Some "exif") "assetId")].

(** The ids of the rows of a result. *)
Definition idsOf (result : option Store.Table) : option (list Value) :=
  match result with
  | Some t => Some (map (Migration.valueOf "id") (Store.rows t))
  | None => None
  end.

(** The value of one column of the row with a given id. *)
Definition cellOf (column id : string) (result : option Store.Table) : option Value :=
  match result with
  | Some t =>
      match find (fun r => Store.scalar_eqb (Migration.valueOf "id" r) (VText id)) (Store.rows t) with
      | Some r => Store.assoc column r
      | None => None
      end
  | None => None
  end.

(* ===================================================================== *)
(** ** A small library to run the queries on *)
(* ===================================================================== *)

Module Sample.
Import Store.

(** Identifiers are uuids; [uuid "07"] is the seventh of them. *)
Definition uuid (n : string) : string := "00000000-0000-4000-8000-0000000000" ++ n.

Definition assetsColumns : list string :=
  ["id"; "ownerId"; "isArchived"; "deletedAt"; "stackId"].

Definition asset (id : string) (isArchived : bool) (deletedAt stackId : Value) : Row :=
  [("id", VText id); ("ownerId", VText (uuid "99")); ("isArchived", VBool isArchived);
   ("deletedAt", deletedAt); ("stackId", stackId)].

Definition face (id assetId : string) (personId : Value) : Row :=
  [("id", VText id); ("assetId", VText assetId); ("personId", personId)].

(** A handle with no plugin and no common table expression. *)
Definition kysely : Kysely := mkKysely [] [].

(** Two live assets, one of them archived. *)
Definition plainAsset : string := uuid "01".
Definition archivedAsset : string := uuid "02".

Definition archiveDb : Database :=
  [("assets", mkRows assetsColumns
      [asset plainAsset false VNull VNull;
       asset archivedAsset true VNull VNull])].

(** Two live assets, one of them in an album. *)
Definition albumAsset : string := uuid "03".
Definition looseAsset : string := uuid "04".
Definition album : string := uuid "05".

Definition albumDb : Database :=
  [("assets", mkRows assetsColumns
      [asset albumAsset false VNull VNull;
       asset looseAsset false VNull VNull]);
   ("albums", mkRows ["id"; "albumName"] [[("id", VText album); ("albumName", VText "Trip")]]);
   ("albums_assets_assets", mkRows ["albumsId"; "assetsId"]
      [[("albumsId", VText album); ("assetsId", VText albumAsset)]])].

(** Two people; one asset shows the first of them twice, the other shows
    both. *)
Definition person1 : string := uuid "11".
Definition person2 : string := uuid "12".
Definition twiceAsset : string := uuid "06".
Definition bothAsset : string := uuid "07".

Definition facesDb : Database :=
  [("assets", mkRows assetsColumns
      [asset twiceAsset false VNull VNull;
       asset bothAsset false VNull VNull]);
   ("asset_faces", mkRows ["id"; "assetId"; "personId"]
      [face (uuid "21") twiceAsset (VText person1);
       face (uuid "22") twiceAsset (VText person1);
       face (uuid "23") bothAsset (VText person1);
       face (uuid "24") bothAsset (VText person2)])].

(** A stack of three assets: the primary and two siblings, one of which
    is in the trash. *)
Definition stack : string := uuid "30".
Definition primaryAsset : string := uuid "31".
Definition siblingAsset : string := uuid "32".
Definition trashedSibling : string := uuid "33".

Definition stackDb : Database :=
  [("assets", mkRows assetsColumns
      [asset primaryAsset false VNull (VText stack);
       asset siblingAsset false VNull (VText stack);
       asset trashedSibling false (VTime 1723859965844) (VText stack)]);
   ("asset_stack", mkRows ["id"; "primaryAssetId"]
      [[("id", VText stack); ("primaryAssetId", VText primaryAsset)]])].

(** A library from before the migration: one asset with both paths, one
    whose preview path is the empty string, one without paths. *)
Definition pathsAsset : string := uuid "41".
Definition emptyPreviewAsset : string := uuid "42".
Definition noPathsAsset : string := uuid "43".

Definition legacyAsset (id : string) (previewPath thumbnailPath : Value) : Row :=
  [("id", VText id); ("ownerId", VText (uuid "99"));
   ("previewPath", previewPath); ("thumbnailPath", thumbnailPath)].

Definition legacyDb : Migration.Db :=
  Migration.mkDb
    (mkRows ["id"; "ownerId"; "previewPath"; "thumbnailPath"]
       [legacyAsset pathsAsset (VText "upload/thumbs/41/preview.jpeg")
          (VText "upload/thumbs/41/thumbnail.webp");
        legacyAsset emptyPreviewAsset (VText "") VNull;
        legacyAsset noPathsAsset VNull (VText "")])
    None [] [] 0.

(** The uuids the store hands out, and its clock. *)
Definition uuids (n : nat) : string :=
  uuid ("5" ++ NilEmpty.string_of_uint (Nat.to_uint n)).
Definition clock : Z := 1723859965844.

(** A store that takes an unquoted identifier as it is written. *)
Definition asWritten (identifier : string) : string := identifier.

(** The options [{ city, country }] and [{ isNotInAlbum: true }]. *)
Definition cityAndCountry : AssetSearchBuilderOptions :=
  setString country (Some "Norway") (setString city (Some "Oslo") noOptions).

Definition notInAlbum : AssetSearchBuilderOptions :=
  setBoolean isNotInAlbum (Some true) noOptions.

End Sample.

(* ===================================================================== *)
(** ** The upsert helpers *)
(* ===================================================================== *)

(** [getUpsertColumns] and [mapUpsertColumns] build plain JavaScript
    objects.  An object is modelled by its own properties; a property
    can hold [undefined], which is [None].  The members every object
    inherits from [Object.prototype] are not modelled: reading or
    assigning a key of that name does something else in JavaScript, and
    the statements about these helpers take keys that are [plainKey]s.
    The statements are about what an object holds under a key; the
    order of its properties plays no role in them. *)
Module Upsert.

Definition JsObject (V : Type) : Type := list (string * option V).

Definition objectPrototype : list string :=
  ["__proto__"; "constructor"; "hasOwnProperty"; "isPrototypeOf";
   "propertyIsEnumerable"; "toLocaleString"; "toString"; "valueOf";
   "__defineGetter__"; "__defineSetter__"; "__lookupGetter__"; "__lookupSetter__"].

Definition plainKey (key : string) : bool :=
  negb (existsb (String.eqb key) objectPrototype).

(** [Object.keys(o)]. *)
Definition keys {V : Type} (o : JsObject V) : list string := map fst o.

(** [Object.hasOwn(o, key)]. *)
Definition hasOwn {V : Type} (o : JsObject V) (key : string) : bool :=
  existsb (String.eqb key) (keys o).

(** [o[key]]: [undefined] when [o] has no such property. *)
Definition get {V : Type} (o : JsObject V) (key : string) : option V :=
  match find (fun kv => String.eqb key (fst kv)) o with
  | Some kv => snd kv
  | None => None
  end.

(** [o[key] = v]. *)
Fixpoint set {V : Type} (o : JsObject V) (key : string) (v : option V) : JsObject V :=
  match o with
  | [] => [(key, v)]
  | (k, w) :: rest =>
      if String.eqb k key then (k, v) :: rest else (k, w) :: set rest key v
  end.

(** [Object.fromEntries(entries)]. *)
Definition fromEntries {V : Type} (entries : list (string * V)) : JsObject V :=
  fold_left (fun o kv => set o (fst kv) (Some (snd kv))) entries [].

(** A raw [sql] template: its text fragments and the nodes between
    them. *)
Inductive RawBuilder : Type :=
| sql (fragments : list string) (parameters : list OperationNode).

(** [sql.ref(column)]. *)
Definition sql_ref (column : string) : OperationNode := Reference (parseRef column).

(** What [db.introspection.getTables()] resolves to, as far as
    [getUpsertColumns] reads it. *)
Record ColumnMetadata : Type := mkColumnMetadata { column_name : string }.

Record TableMetadata : Type := mkTableMetadata {
  table_name : string;
  table_columns : list ColumnMetadata }.

(** [getUpsertColumns(tableName, pk, db)], given the tables the
    introspection of [db] resolves to.  When no table has the name,
    [table] is [undefined] and reading [table.columns] throws: [None]. *)
Definition getUpsertColumns (tableName pk : string) (tables : list TableMetadata)
    : option (JsObject RawBuilder) :=
  match find (fun table => String.eqb (table_name table) tableName) tables with
  | Some table =>
      Some (fromEntries
              (map (fun column => (column, sql ["excluded."; ""] [sql_ref column]))
                 (filter (fun column => negb (String.eqb column pk))
                    (map column_name (table_columns table)))))
  | None => None
  end.

Definition mapUpsertColumns {V W : Type} (columns : JsObject V) (entry : JsObject W)
    : JsObject V :=
  fold_left (fun obj key => set obj key (get columns key)) (keys entry) [].

(** Whether a table has a column of a given name. *)
Definition hasColumnNamed (table : TableMetadata) (column : string) : bool :=
  existsb (String.eqb column) (map column_name (table_columns table)).

End Upsert.

Module UpsertSample.
Import Upsert.

(** The tables of a library, and one row to upsert. *)
Definition tables : list TableMetadata :=
  [mkTableMetadata "assets" [mkColumnMetadata "id"; mkColumnMetadata "ownerId"];
   mkTableMetadata "exif"
     [mkColumnMetadata "assetId"; mkColumnMetadata "city"; mkColumnMetadata "country"]].

Definition exifEntry : JsObject Value :=
  [("assetId", Some (VText (Sample.uuid "01"))); ("city", Some (VText "Oslo"));
   ("rating", Some (VInt 5))].

End UpsertSample.

(* ===================================================================== *)
(** ** More conditions and measures used in the statements *)
(* ===================================================================== *)

(** The selection of [withExif] and of [withFacesAndPeople]. *)
Definition exifInfoSelection : Selection OperationNode :=
  SelectAs (fn "jsonb_strip_nulls" [fn "to_jsonb" [TableN "exif"]]) "exifInfo".

Definition facesSelection : Selection OperationNode :=
  SelectAs (fst (withFacesAndPeople eb)) (snd (withFacesAndPeople eb)).

(** What the plugin does to one selection. *)
Definition transformSelection (s : Selection OperationNode) : Selection OperationNode :=
  match s with
  | SelectAll t => SelectAll t
  | SelectRef c => SelectRef c
  | SelectAs e a => SelectAs (Plugin.transformNode e) a
  end.

(** The column and the direction of each date filter. *)
Definition dateColumn (f : DateField) : string :=
  match f with
  | createdBefore | createdAfter => "createdAt"
  | updatedBefore | updatedAfter => "updatedAt"
  | trashedBefore | trashedAfter => "deletedAt"
  | takenBefore | takenAfter => "fileCreatedAt"
  end.

Definition isBefore (f : DateField) : bool :=
  match f with
  | createdBefore | updatedBefore | trashedBefore | takenBefore => true
  | _ => false
  end.

(** The boolean filters that compare a column with the flag, and the two
    that ask for a column to be present. *)
Definition flagColumn (f : BooleanField) : option string :=
  match f with
  | isFavorite => Some "isFavorite"
  | isOffline => Some "isOffline"
  | isVisible => Some "isVisible"
  | isArchived => Some "isArchived"
  | _ => None
  end.

Definition presenceColumn (f : BooleanField) : option string :=
  match f with
  | isEncoded => Some "encodedVideoPath"
  | isMotion => Some "livePhotoVideoId"
  | _ => None
  end.


(** An id that can stand in an array literal: not empty, no comma. *)
Definition plainId (s : string) : bool :=
  negb (String.eqb s "")
  && match splitAt ","%char s with None => true | Some _ => false end.

(** The join of the people filter. *)
Definition validJoin : JoinNode :=
  mkJoin InnerJoin (mkTable "valid" "valid")
    [(mkRef (Some "valid") "assetId", mkRef (Some "assets") "id")].

(** Whether the people filter applies: [personIds] is a non-empty
    array. *)
Definition filtersPeople (options : AssetSearchBuilderOptions) : bool :=
  match personIds options with
  | Some ids => Nat.ltb 0 (length ids)
  | None => false
  end.

(** Whether the EXIF relation is needed: an EXIF filter is given or
    [withExif] is requested. *)
Definition needsExif (options : AssetSearchBuilderOptions) : bool :=
  existsb (fun f => !! (strings options f)) exifFields
  || !! (booleans options Options.withExif).

(** The selections of a compiled query. *)
Definition selectionsOf (n : OperationNode) : list (Selection OperationNode) :=
  match n with
  | SelectQuery q => selections q
  | _ => []
  end.

Module RoundTrip.
Import Store Migration.


(** The file of an asset and a type. *)
Definition isFileOf (type id : string) (f : Row) : bool :=
  scalar_eqb (valueOf "assetId" f) (VText id) && scalar_eqb (valueOf "type" f) (VText type).

(** The path [asset_files] holds for an asset and a file type. *)
Definition filePath (type id : string) (db : Db) : option Value :=
  match asset_files db with
  | Some files =>
      option_map (valueOf "path")
        (find (isFileOf type id) (rows files))
  | None => None
  end.

(** A path that [up] moves: neither null nor empty. *)
Definition moved (v : Value) : option Value :=
  match v with
  | VText s => if String.eqb s "" then None else Some v
  | _ => None
  end.

End RoundTrip.


(** A row as the store returns it: every column of the table, null
    where the row holds no value. *)
Definition fieldsOf (tbl : Store.Table) (r : Row) : Row :=
  map (fun c => (c, Migration.valueOf c r)) (Store.columns tbl).

(** The rows of a table whose column [k] equals a value. *)
Definition related (k : string) (x : Value) (tbl : Store.Table) : list Row :=
  filter (fun u => Migration.sqlTrue (Store.applyOperator Eq (Migration.valueOf k u) x))
    (Store.rows tbl).

(* ===================================================================== *)
(** ** A library with the columns the filters read *)
(* ===================================================================== *)

(** A library with the columns the filters read: a photo and a video of
    two users, and a photo in the trash. *)
Module Gallery.
Import Store.

Definition libraryColumns : list string :=
  ["id"; "ownerId"; "type"; "createdAt"; "deletedAt"; "isFavorite"; "encodedVideoPath"].

Definition libraryAsset (id ownerId type : string) (createdAt : Z) (deletedAt : Value)
    (isFavorite : bool) (encodedVideoPath : Value) : Row :=
  [("id", VText id); ("ownerId", VText ownerId); ("type", VText type);
   ("createdAt", VTime createdAt); ("deletedAt", deletedAt);
   ("isFavorite", VBool isFavorite); ("encodedVideoPath", encodedVideoPath)].

Definition alice : string := Sample.uuid "71".
Definition bob : string := Sample.uuid "72".
Definition photo : string := Sample.uuid "61".
Definition video : string := Sample.uuid "62".
Definition trashedPhoto : string := Sample.uuid "63".

Definition db : Database :=
  [("assets", mkRows libraryColumns
      [libraryAsset photo alice "IMAGE" 1700000000000 VNull true VNull;
       libraryAsset video bob "VIDEO" 1710000000000 VNull false (VText "encoded-video/62.mp4");
       libraryAsset trashedPhoto alice "IMAGE" 1690000000000 (VTime 1720000000000) true VNull])].

(** The table a query gives, empty when the store rejects the query. *)
Definition resultOf (result : option Table) : Table :=
  match result with
  | Some t => t
  | None => mkRows [] []
  end.

Definition search (options : AssetSearchBuilderOptions) : Table :=
  resultOf (execute db (snd (searchAssetBuilder Sample.kysely options))).

(** The options [{ isFavorite: true }], [{ isEncoded: true }],
    [{ type: 'VIDEO' }], [{ createdAfter }], [{ userIds: [alice] }] and
    [{ userIds: [] }]. *)
Definition favorites : AssetSearchBuilderOptions :=
  setBoolean isFavorite (Some true) noOptions.

Definition encoded : AssetSearchBuilderOptions :=
  setBoolean isEncoded (Some true) noOptions.


Definition since : Date := mkDate 1705000000000.

Definition recent : AssetSearchBuilderOptions :=
  mkOptions (fun f => match f with createdAfter => Some since | _ => None end)
    (fun _ => None) (fun _ => None) None None None.


Definition ofNobody : AssetSearchBuilderOptions :=
  mkOptions (fun _ => None) (fun _ => None) (fun _ => None) None (Some []) None.








(** A library with owners, a library record, a face, EXIF data and a
    stack of two assets. *)
Definition home : string := Sample.uuid "81".
Definition burst : string := Sample.uuid "82".
Definition first : string := Sample.uuid "64".
Definition second : string := Sample.uuid "65".
Definition third : string := Sample.uuid "66".

Definition relationsDb : Database :=
  [("assets", mkRows ["id"; "ownerId"; "libraryId"; "stackId"; "deletedAt"]
      [[("id", VText first); ("ownerId", VText alice); ("libraryId", VText home);
        ("stackId", VNull); ("deletedAt", VNull)];
       [("id", VText second); ("ownerId", VText bob); ("libraryId", VNull);
        ("stackId", VText burst); ("deletedAt", VNull)];
       [("id", VText third); ("ownerId", VText alice); ("libraryId", VNull);
        ("stackId", VText burst); ("deletedAt", VNull)]]);
   ("users", mkRows ["id"; "name"]
      [[("id", VText alice); ("name", VText "Alice")];
       [("id", VText bob); ("name", VText "Bob")]]);
   ("libraries", mkRows ["id"; "name"] [[("id", VText home); ("name", VText "Home")]]);
   ("asset_faces", mkRows ["id"; "assetId"; "personId"]
      [Sample.face (Sample.uuid "25") first (VText Sample.person1)]);
   ("exif", mkRows ["assetId"; "city"; "make"]
      [[("assetId", VText first); ("city", VText "Oslo"); ("make", VNull)]]);
   ("asset_stack", mkRows ["id"; "primaryAssetId"]
      [[("id", VText burst); ("primaryAssetId", VText second)]])].

Definition allAssets : SelectQueryBuilder :=
  Sample.kysely |> selectFrom "assets" |> selectAllOf "assets".

Definition relation (qb : SelectQueryBuilder) : Table :=
  resultOf (execute relationsDb qb).

End Gallery.

(* ===================================================================== *)
(** ** OptionalBetween *)
(* ===================================================================== *)

Section OptionalBetweenFacts.

Context {T : Type} `{Truthy T} `{Ordered T}.

(** X29.  With truthy bounds the helper is the optional range the name promises. *)
Lemma OptionalBetween_truthy_bounds (a b v : T) :
  truthy a = true -> truthy b = true ->
  satisfies (OptionalBetween (@None T) None) v = true
  /\ satisfies (OptionalBetween (Some a) None) v = leb a v
  /\ satisfies (OptionalBetween None (Some b)) v = leb v b
  /\ satisfies (OptionalBetween (Some a) (Some b)) v = (leb a v && leb v b).
Proof.
  intros Ha Hb. unfold OptionalBetween, whenTruthy.
  rewrite Ha, Hb. repeat split; reflexivity.
Qed.

(** A bound that is present but falsy is treated as if it were absent. *)
Lemma OptionalBetween_falsy_from (a : T) (to : option T) :
  truthy a = false -> OptionalBetween (Some a) to = OptionalBetween None to.
Proof.
  intros Ha. unfold OptionalBetween. simpl. rewrite Ha. reflexivity.
Qed.

End OptionalBetweenFacts.

Lemma OptionalBetween_truthy_bounds_witness :
  truthy 1%Z = true /\ truthy 5%Z = true
  /\ (satisfies (OptionalBetween (@None Z) None) 3%Z = true
      /\ satisfies (OptionalBetween (Some 1%Z) None) 3%Z = leb 1%Z 3%Z
      /\ satisfies (OptionalBetween None (Some 5%Z)) 3%Z = leb 3%Z 5%Z
      /\ satisfies (OptionalBetween (Some 1%Z) (Some 5%Z)) 3%Z
         = (leb 1%Z 3%Z && leb 3%Z 5%Z)).
Proof.
  split; [reflexivity|]. split; [reflexivity|].
  apply (@OptionalBetween_truthy_bounds Z _ _ 1%Z 5%Z 3%Z); reflexivity.
Defined.

(** C3.  On numbers the bound [0] is falsy: [OptionalBetween(0, undefined)]
    returns no operator at all, so [-1] passes where "exactly the values
    >= 0" was promised, and [OptionalBetween(0, 5)] returns
    [LessThanOrEqual(5)], which lets [-1] through although it is outside
    the closed interval [0, 5]. *)
Theorem OptionalBetween_drops_zero_bound :
  OptionalBetween (Some 0%Z) None = None
  /\ satisfies (OptionalBetween (Some 0%Z) None) (-1)%Z = true
  /\ leb 0%Z (-1)%Z = false
  /\ OptionalBetween (Some 0%Z) (Some 5%Z) = Some (LessThanOrEqual 5%Z)
  /\ satisfies (OptionalBetween (Some 0%Z) (Some 5%Z)) (-1)%Z = true.
Proof. repeat split. Qed.

(** X30.  On dates, which are always truthy, every bound that is given counts. *)
Lemma OptionalBetween_dates (from to : option Date) (v : Date) :
  satisfies (OptionalBetween from to) v
  = (match from with Some a => leb a v | None => true end
     && match to with Some b => leb v b | None => true end)%bool.
Proof.
  destruct from as [a|], to as [b|]; simpl; try reflexivity.
  now rewrite andb_true_r.
Qed.

(* ===================================================================== *)
(** ** What searchAssetBuilder does to its options *)
(* ===================================================================== *)

Ltac reduce_options :=
  cbn [fst snd toBoolean truthy truthy_bool booleans dates strings checksum
       userIds personIds BooleanField_eqb StringField_eqb].

(** The defaults only touch [isArchived] and [withDeleted]. *)
Lemma applyDefaults_spec (options : AssetSearchBuilderOptions) :
  dates (applyDefaults options) = dates options
  /\ strings (applyDefaults options) = strings options
  /\ checksum (applyDefaults options) = checksum options
  /\ userIds (applyDefaults options) = userIds options
  /\ personIds (applyDefaults options) = personIds options
  /\ (forall f, booleans (applyDefaults options) f =
        match f with
        | isArchived =>
            match booleans options isArchived with
            | Some b => Some b
            | None => if !! (booleans options withArchived) then None else Some false
            end
        | withDeleted =>
            if !! (booleans options withDeleted) then booleans options withDeleted
            else Some (!! (dates options trashedAfter) || !! (dates options trashedBefore))
        | _ => booleans options f
        end).
Proof.
  unfold applyDefaults, nullishAssign, orAssign, setBoolean.
  destruct (booleans options isArchived) as [a|] eqn:Ha; reduce_options;
    destruct (booleans options withDeleted) as [[|]|] eqn:Hd; reduce_options;
    repeat split; try reflexivity;
    intros f; destruct f; reduce_options; rewrite ?Ha, ?Hd; reflexivity.
Qed.

(** C9 (as stated, refuted).  Called on the empty bag, the builder leaves
    [isArchived] and [withDeleted] set to [false] in the caller's object:
    the options are not the same after the call. *)
Lemma searchAssetBuilder_writes_defaults :
  booleans noOptions isArchived = None
  /\ booleans (fst (searchAssetBuilder (mkKysely [] []) noOptions)) isArchived = Some false
  /\ booleans noOptions withDeleted = None
  /\ booleans (fst (searchAssetBuilder (mkKysely [] []) noOptions)) withDeleted = Some false.
Proof. repeat split. Qed.

(** C9 (amended).  The call changes no property of the options other than
    [isArchived] and [withDeleted].  [isArchived], when it was unset, is
    left [undefined] if [withArchived] is truthy and becomes [false]
    otherwise; [withDeleted], when it was falsy, becomes whether one of
    the trash-date bounds is given. *)
Theorem searchAssetBuilder_options_frame (kysely : Kysely) (options : AssetSearchBuilderOptions) :
  let after := fst (searchAssetBuilder kysely options) in
  (forall f, dates after f = dates options f)
  /\ (forall f, strings after f = strings options f)
  /\ checksum after = checksum options
  /\ userIds after = userIds options
  /\ personIds after = personIds options
  /\ (forall f, booleans after f =
        match f with
        | isArchived =>
            match booleans options isArchived with
            | Some b => Some b
            | None => if !! (booleans options withArchived) then None else Some false
            end
        | withDeleted =>
            if !! (booleans options withDeleted) then booleans options withDeleted
            else Some (!! (dates options trashedAfter) || !! (dates options trashedBefore))
        | _ => booleans options f
        end).
Proof.
  cbn [fst searchAssetBuilder].
  destruct (applyDefaults_spec options) as (Hd & Hs & Hc & Hu & Hp & Hb).
  rewrite Hd, Hs. repeat split; auto.
Qed.

(* ===================================================================== *)
(** ** Falsy scalar filters *)
(* ===================================================================== *)

Lemma whenTruthy_toBoolean {T : Type} `{Truthy T} (x y : option T) :
  whenTruthy x = whenTruthy y -> !! x = !! y.
Proof.
  destruct x as [a|], y as [b|]; simpl; trivial;
    try destruct (truthy a) eqn:Ha; try destruct (truthy b) eqn:Hb;
    intros E; try discriminate E; try reflexivity.
Qed.

Lemma whenTruthy_eq {T : Type} `{Truthy T} (x y : option T) :
  whenTruthy x = whenTruthy y -> !! x = true -> x = y.
Proof.
  destruct x as [a|], y as [b|]; simpl; try discriminate;
    intros E Ha; rewrite Ha in E.
  - destruct (truthy b); [assumption | discriminate E].
  - discriminate E.
Qed.

Lemma if'_congr (c1 c2 : bool) (f1 f2 : SelectQueryBuilder -> SelectQueryBuilder)
    (q1 q2 : SelectQueryBuilder) :
  q1 = q2 -> c1 = c2 -> (c1 = true -> forall q, f1 q = f2 q) ->
  if' c1 f1 q1 = if' c2 f2 q2.
Proof.
  intros -> <- Hf. unfold if'. destruct c1; [apply Hf|]; reflexivity.
Qed.

(** Two option bags that agree on every property that is truthy in one of
    them give the same chain. *)
Lemma searchAssetChain_ext (kysely : Kysely) (o1 o2 : AssetSearchBuilderOptions) :
  (forall f, dates o1 f = dates o2 f) ->
  (forall f, whenTruthy (strings o1 f) = whenTruthy (strings o2 f)) ->
  (forall f, whenTruthy (booleans o1 f) = whenTruthy (booleans o2 f)) ->
  checksum o1 = checksum o2 -> userIds o1 = userIds o2 -> personIds o1 = personIds o2 ->
  searchAssetChain kysely o1 = searchAssetChain kysely o2.
Proof.
  intros Hd Hs Hb Hc Hu Hp. unfold searchAssetChain.
  rewrite !Hd, Hc, Hu, Hp.
  repeat (apply if'_congr;
    [ | first [ reflexivity
              | apply whenTruthy_toBoolean; solve [apply Hs | apply Hb]
              | rewrite (whenTruthy_toBoolean _ _ (Hb Options.withFaces)),
                        (whenTruthy_toBoolean _ _ (Hb withPeople)); reflexivity
              | rewrite (whenTruthy_toBoolean _ _ (Hb withDeleted)); reflexivity ]
      | intros Hq q;
        first [ reflexivity
              | rewrite (whenTruthy_eq _ _ (Hs _) Hq); reflexivity
              | rewrite (whenTruthy_eq _ _ (Hb _) Hq); reflexivity ] ]).
  reflexivity.
Qed.

(** C7.  A boolean property set to [false] and a string property set to
    the empty string give the query the builder gives when the property is
    absent. *)
Theorem searchAssetBuilder_skips_falsy (kysely : Kysely) (options : AssetSearchBuilderOptions) :
  (forall f : BooleanField,
      snd (searchAssetBuilder kysely (setBoolean f (Some false) options))
      = snd (searchAssetBuilder kysely (setBoolean f None options)))
  /\ (forall f : StringField,
      snd (searchAssetBuilder kysely (setString f (Some "") options))
      = snd (searchAssetBuilder kysely (setString f None options))).
Proof.
  split; intros f; cbn [snd searchAssetBuilder].
  - destruct (applyDefaults_spec (setBoolean f (Some false) options))
      as (Hd1 & Hs1 & Hc1 & Hu1 & Hp1 & Hb1).
    destruct (applyDefaults_spec (setBoolean f None options))
      as (Hd2 & Hs2 & Hc2 & Hu2 & Hp2 & Hb2).
    apply searchAssetChain_ext; try intros g;
      rewrite ?Hd1, ?Hd2, ?Hs1, ?Hs2, ?Hc1, ?Hc2, ?Hu1, ?Hu2, ?Hp1, ?Hp2, ?Hb1, ?Hb2;
      try reflexivity.
    destruct f, g; unfold setBoolean; reduce_options;
      destruct (booleans options isArchived) as [[|]|];
      destruct (booleans options withArchived) as [[|]|];
      destruct (booleans options withDeleted) as [[|]|];
      reflexivity.
  - destruct (applyDefaults_spec (setString f (Some "") options))
      as (Hd1 & Hs1 & Hc1 & Hu1 & Hp1 & Hb1).
    destruct (applyDefaults_spec (setString f None options))
      as (Hd2 & Hs2 & Hc2 & Hu2 & Hp2 & Hb2).
    apply searchAssetChain_ext; try intros g;
      rewrite ?Hd1, ?Hd2, ?Hs1, ?Hs2, ?Hc1, ?Hc2, ?Hu1, ?Hu2, ?Hp1, ?Hp2, ?Hb1, ?Hb2;
      try reflexivity.
    destruct f, g; reflexivity.
Qed.

(* ===================================================================== *)
(** ** The conditions and joins of the chain *)
(* ===================================================================== *)

Section ThroughIf.

Variable c : bool.
Variable f : SelectQueryBuilder -> SelectQueryBuilder.
Variable qb : SelectQueryBuilder.

Lemma where_if'_add (ws : list OperationNode) :
  (forall q, where_ (node (f q)) = where_ (node q) ++ ws) ->
  where_ (node (if' c f qb)) = where_ (node qb) ++ (if c then ws else []).
Proof.
  intros Hf. unfold if'. destruct c; [apply Hf | now rewrite app_nil_r].
Qed.

Lemma where_if'_keep :
  (forall q, where_ (node (f q)) = where_ (node q)) ->
  where_ (node (if' c f qb)) = where_ (node qb).
Proof.
  intros Hf. unfold if'. destruct c; [apply Hf | reflexivity].
Qed.

Lemma joins_if'_add (js : list JoinNode) :
  (forall q, joins (node (f q)) = joins (node q) ++ js) ->
  joins (node (if' c f qb)) = joins (node qb) ++ (if c then js else []).
Proof.
  intros Hf. unfold if'. destruct c; [apply Hf | now rewrite app_nil_r].
Qed.

Lemma joins_if'_keep :
  (forall q, joins (node (f q)) = joins (node q)) ->
  joins (node (if' c f qb)) = joins (node qb).
Proof.
  intros Hf. unfold if'. destruct c; [apply Hf | reflexivity].
Qed.

Lemma plugins_if' :
  (forall q, plugins (f q) = plugins q) ->
  plugins (if' c f qb) = plugins qb.
Proof.
  intros Hf. unfold if'. destruct c; [apply Hf | reflexivity].
Qed.

Lemma Forall_where_if'_add (P : OperationNode -> Prop) (ws : list OperationNode) :
  (forall q, where_ (node (f q)) = where_ (node q) ++ ws) ->
  (c = true -> Forall P ws) -> Forall P (where_ (node qb)) ->
  Forall P (where_ (node (if' c f qb))).
Proof.
  intros Hf Hws Hqb. rewrite (where_if'_add ws Hf).
  apply Forall_app. split; [assumption | destruct c; [auto | constructor]].
Qed.

Lemma Forall_where_if'_keep (P : OperationNode -> Prop) :
  (forall q, where_ (node (f q)) = where_ (node q)) ->
  Forall P (where_ (node qb)) ->
  Forall P (where_ (node (if' c f qb))).
Proof.
  intros Hf Hqb. now rewrite (where_if'_keep Hf).
Qed.

End ThroughIf.

(** The base of the chain has no condition of its own: the people filter
    is a join with the common table expression. *)
Lemma hasPeople_where (db : Kysely) (ids : option (list string)) :
  where_ (node (hasPeople db ids)) = [].
Proof.
  unfold hasPeople. destruct ids as [l|]; [destruct (Nat.ltb 0 (length l))|]; reflexivity.
Qed.

Lemma hasPeople_plugins (db : Kysely) (ids : option (list string)) :
  plugins (hasPeople db ids) = dbPlugins db.
Proof.
  unfold hasPeople. destruct ids as [l|]; [destruct (Nat.ltb 0 (length l))|]; reflexivity.
Qed.

Lemma selectAllOf_where (table : string) (qb : SelectQueryBuilder) :
  where_ (node (selectAllOf table qb)) = where_ (node qb).
Proof. reflexivity. Qed.

(** Walks down the chain, one [$if] at a time, proving [P] of every
    condition it adds with [tac]. *)
Ltac chain_wheres tac :=
  repeat first
    [ eapply Forall_where_if'_add;
        [ intros ?; reflexivity | intros ?; repeat constructor; tac | ]
    | eapply Forall_where_if'_keep; [ intros ?; reflexivity | ] ];
  rewrite selectAllOf_where, hasPeople_where; constructor.

Ltac differs :=
  cbn;
  first [ discriminate
        | match goal with
          | H : !! ?x = true |- _ => destruct x as [[|]|]; cbn in *; discriminate
          end ].

(** The conditions of the chain: those before the last step are not the
    soft-delete condition, and none is [isArchived = false]. *)
Lemma searchAssetChain_where (kysely : Kysely) (options : AssetSearchBuilderOptions) :
  exists before,
    where_ (node (searchAssetChain kysely options))
    = before
      ++ (if negb (!! (booleans options withDeleted)) then [deletedAtIsNull] else [])
    /\ Forall (fun e => e <> deletedAtIsNull) before
    /\ Forall (fun e => e <> isArchivedIsFalse) before.
Proof.
  unfold searchAssetChain.
  erewrite where_if'_add by (intros ?; reflexivity).
  eexists. split; [reflexivity|]. split.
  - chain_wheres ltac:(unfold deletedAtIsNull; differs).
  - chain_wheres ltac:(unfold isArchivedIsFalse; differs).
Qed.

(** No condition of the chain carries a join: the plugin leaves each of
    them as it is. *)
Lemma searchAssetChain_where_fixed (kysely : Kysely) (options : AssetSearchBuilderOptions) :
  Forall (fun e => Plugin.transformNode e = e)
    (where_ (node (searchAssetChain kysely options))).
Proof.
  unfold searchAssetChain.
  chain_wheres ltac:(unfold booleanParam, stringParam, dateParam, bufferParam; cbn;
    repeat match goal with
           | |- context [match ?x with _ => _ end] => destruct x
           end; reflexivity).
Qed.

Lemma wheresOf_transformNode (n : OperationNode) :
  wheresOf (Plugin.transformNode n) = map Plugin.transformNode (wheresOf n).
Proof. destruct n; reflexivity. Qed.

Lemma joinsOf_transformNode (n : OperationNode) :
  joinsOf (Plugin.transformNode n) = Plugin.deduplicateJoins (joinsOf n).
Proof. destruct n; reflexivity. Qed.

Lemma map_fixed {A : Type} (g : A -> A) (l : list A) :
  Forall (fun a => g a = a) l -> map g l = l.
Proof.
  induction 1 as [|a l Ha _ IH]; simpl; [reflexivity | now rewrite Ha, IH].
Qed.

Lemma wheresOf_plugins (ps : list KyselyPlugin) (n : OperationNode) :
  Forall (fun e => Plugin.transformNode e = e) (wheresOf n) ->
  wheresOf (fold_left (fun n p => Plugin.transformQuery p n) ps n) = wheresOf n.
Proof.
  revert n. induction ps as [|p ps IH]; intros n Hn; simpl; [reflexivity|].
  destruct p; simpl.
  assert (E : wheresOf (Plugin.transformNode n) = wheresOf n)
    by (rewrite wheresOf_transformNode; now apply map_fixed).
  rewrite IH; [exact E | now rewrite E].
Qed.

Lemma joinsOf_plugins (ps : list KyselyPlugin) (n : OperationNode) :
  joinsOf (fold_left (fun n p => Plugin.transformQuery p n) ps n)
  = Nat.iter (length ps) Plugin.deduplicateJoins (joinsOf n).
Proof.
  revert n. induction ps as [|p ps IH]; intros n; simpl; [reflexivity|].
  destruct p; simpl. rewrite IH, joinsOf_transformNode.
  clear IH. induction (length ps) as [|m IHm]; simpl; [reflexivity | now rewrite IHm].
Qed.

(** The compiled search query has the conditions the chain added. *)
Lemma compile_searchAssetChain_where (kysely : Kysely) (options : AssetSearchBuilderOptions) :
  wheresOf (compile (searchAssetChain kysely options))
  = where_ (node (searchAssetChain kysely options)).
Proof.
  unfold compile. rewrite wheresOf_plugins; [reflexivity|].
  apply searchAssetChain_where_fixed.
Qed.

Lemma In_singleton_if {A : Type} (b : bool) (x y : A) :
  In x (if b then [y] else []) <-> b = true /\ x = y.
Proof.
  destruct b; simpl; split.
  - intros [E|[]]. now subst.
  - intros [_ ->]. now left.
  - intros [].
  - intros [E _]. discriminate E.
Qed.

Lemma Forall_differs_not_In {A : Type} (x : A) (l : list A) :
  Forall (fun e => e <> x) l -> ~ In x l.
Proof.
  intros Hl Hin. rewrite Forall_forall in Hl. exact (Hl x Hin eq_refl).
Qed.

(* ===================================================================== *)
(** ** Soft-deleted and archived assets *)
(* ===================================================================== *)

(** C5.  The compiled query carries the condition [assets.deletedAt is
    null] exactly when neither [trashedAfter] nor [trashedBefore] is given
    and [withDeleted] is not truthy; a trash-date bound alone removes the
    condition. *)
Theorem searchAssetBuilder_excludes_deleted_iff
    (kysely : Kysely) (options : AssetSearchBuilderOptions) :
  In deletedAtIsNull (wheresOf (compile (snd (searchAssetBuilder kysely options))))
  <-> (dates options trashedAfter = None
       /\ dates options trashedBefore = None
       /\ !! (booleans options withDeleted) = false).
Proof.
  cbn [snd searchAssetBuilder].
  rewrite compile_searchAssetChain_where.
  destruct (searchAssetChain_where kysely (applyDefaults options)) as (before & -> & Hb & _).
  destruct (applyDefaults_spec options) as (_ & _ & _ & _ & _ & Hd).
  rewrite (Hd withDeleted), in_app_iff, In_singleton_if.
  apply Forall_differs_not_In in Hb.
  destruct (booleans options withDeleted) as [[|]|];
    destruct (dates options trashedAfter) as [a|];
    destruct (dates options trashedBefore) as [b|]; cbn;
    intuition (try discriminate; auto).
Qed.

(** With the defaults alone, or with any options that leave [isArchived]
    unset, no condition of the compiled query is [assets.isArchived =
    false]: the default written by the first statement is dropped by the
    truthiness test of the filter. *)
Lemma searchAssetBuilder_never_isArchived_false
    (kysely : Kysely) (options : AssetSearchBuilderOptions) :
  ~ In isArchivedIsFalse (wheresOf (compile (snd (searchAssetBuilder kysely options)))).
Proof.
  cbn [snd searchAssetBuilder].
  rewrite compile_searchAssetChain_where.
  destruct (searchAssetChain_where kysely (applyDefaults options)) as (before & -> & _ & Ha).
  apply Forall_differs_not_In in Ha.
  rewrite in_app_iff, In_singleton_if. intros [H|[_ H]]; [auto | discriminate H].
Qed.

(** C1.  No options bag ever puts [assets.isArchived = false] into the
    compiled query, and the query built from the empty bag returns the
    archived asset of the sample library along with the plain one. *)
Theorem searchAssetBuilder_default_returns_archived :
  (forall kysely options,
      ~ In isArchivedIsFalse (wheresOf (compile (snd (searchAssetBuilder kysely options)))))
  /\ booleans noOptions isArchived = None
  /\ !! (booleans noOptions withArchived) = false
  /\ wheresOf (compile (snd (searchAssetBuilder Sample.kysely noOptions))) = [deletedAtIsNull]
  /\ idsOf (Store.execute Sample.archiveDb (snd (searchAssetBuilder Sample.kysely noOptions)))
     = Some [VText Sample.plainAsset; VText Sample.archivedAsset]
  /\ cellOf "isArchived" Sample.archivedAsset
       (Store.execute Sample.archiveDb (snd (searchAssetBuilder Sample.kysely noOptions)))
     = Some (VBool true).
Proof.
  split; [exact searchAssetBuilder_never_isArchived_false|].
  repeat split; vm_compute; reflexivity.
Qed.

(* ===================================================================== *)
(** ** Assets that are in no album *)
(* ===================================================================== *)

Lemma In_where_if' (c : bool) (f : SelectQueryBuilder -> SelectQueryBuilder)
    (qb : SelectQueryBuilder) (e : OperationNode) :
  (forall q, incl (where_ (node q)) (where_ (node (f q)))) ->
  In e (where_ (node qb)) -> In e (where_ (node (if' c f qb))).
Proof.
  intros Hf He. unfold if'. destruct c; [now apply Hf | assumption].
Qed.

(** Whatever else the options hold, a truthy [isNotInAlbum] puts this one
    condition into the compiled query: a comparison with a constant, the
    same for every asset. *)
Lemma searchAssetBuilder_isNotInAlbum_condition
    (kysely : Kysely) (options : AssetSearchBuilderOptions) :
  !! (booleans options isNotInAlbum) = true ->
  In notInAlbumCondition (wheresOf (compile (snd (searchAssetBuilder kysely options)))).
Proof.
  intros Hn. cbn [snd searchAssetBuilder].
  rewrite compile_searchAssetChain_where.
  destruct (applyDefaults_spec options) as (_ & _ & _ & _ & _ & Hb).
  pose proof (Hb isNotInAlbum) as Hb'. cbn in Hb'.
  unfold searchAssetChain.
  do 3 (apply In_where_if';
        [intros q e He; cbn; rewrite ?in_app_iff; auto|]).
  rewrite Hb', Hn. cbn. apply in_or_app. right. now left.
Qed.

(** C10.  With [isNotInAlbum] set the compiled query carries the condition
    above, and on the sample library it returns the asset that is in an
    album together with the one that is in none. *)
Theorem searchAssetBuilder_isNotInAlbum_keeps_album_assets :
  wheresOf (compile (snd (searchAssetBuilder Sample.kysely Sample.notInAlbum)))
  = [notInAlbumCondition; deletedAtIsNull]
  /\ idsOf (Store.execute Sample.albumDb (snd (searchAssetBuilder Sample.kysely Sample.notInAlbum)))
     = Some [VText Sample.albumAsset; VText Sample.looseAsset]
  /\ idsOf (Store.execute Sample.albumDb
              (withAlbums (Sample.kysely |> selectFrom "assets" |> selectAllOf "assets")
                 (Some Sample.album)))
     = Some [VText Sample.albumAsset].
Proof. repeat split; vm_compute; reflexivity. Qed.

(* ===================================================================== *)
(** ** The people filter *)
(* ===================================================================== *)

(** C2.  Asked for the two people of the sample library, the filter keeps
    the asset that shows the first person twice and the second person not
    at all: its two face records count as two.  Asked for the second
    person alone it keeps the asset that shows both; asked for the second
    person under an id given twice it keeps nothing. *)
Theorem hasPeople_counts_faces_not_people :
  idsOf (Store.execute Sample.facesDb
           (hasPeople Sample.kysely (Some [Sample.person1; Sample.person2])
            |> selectAllOf "assets"))
  = Some [VText Sample.twiceAsset; VText Sample.bothAsset]
  /\ idsOf (Store.execute Sample.facesDb
              (hasPeople Sample.kysely (Some [Sample.person2]) |> selectAllOf "assets"))
     = Some [VText Sample.bothAsset]
  /\ idsOf (Store.execute Sample.facesDb
              (hasPeople Sample.kysely (Some [Sample.person2; Sample.person2])
               |> selectAllOf "assets"))
     = Some [].
Proof. repeat split; vm_compute; reflexivity. Qed.

(* ===================================================================== *)
(** ** Stacked assets *)
(* ===================================================================== *)

(** C4.  On the sample stack, [withStack] with [assets: true] returns the
    primary asset with its stack and with [stackedAssets] null, whether or
    not deleted assets are requested: the conditions of the subquery speak
    of the outer asset and its stack, never of the stacked rows. *)
Theorem withStack_stackedAssets_is_null :
  let base := Sample.kysely |> selectFrom "assets" |> selectAllOf "assets" in
  idsOf (Store.execute Sample.stackDb (withStack base true None))
  = Some [VText Sample.primaryAsset]
  /\ cellOf "stack" Sample.primaryAsset (Store.execute Sample.stackDb (withStack base true None))
     = Some (VObject [("id", VText Sample.stack); ("primaryAssetId", VText Sample.primaryAsset)])
  /\ cellOf "stackedAssets" Sample.primaryAsset
       (Store.execute Sample.stackDb (withStack base true None))
     = Some VNull
  /\ cellOf "stackedAssets" Sample.primaryAsset
       (Store.execute Sample.stackDb (withStack base true (Some true)))
     = Some VNull.
Proof. repeat split; vm_compute; reflexivity. Qed.

(* ===================================================================== *)
(** ** One join to the EXIF relation *)
(* ===================================================================== *)

Lemma ColumnRef_eqb_eq (a b : ColumnRef) : Plugin.ColumnRef_eqb a b = true <-> a = b.
Proof.
  destruct a as [ta ca], b as [tb cb]. unfold Plugin.ColumnRef_eqb; simpl.
  rewrite andb_true_iff, String.eqb_eq.
  assert (Ht : Plugin.option_eqb String.eqb ta tb = true <-> ta = tb).
  { destruct ta as [x|], tb as [y|]; simpl; rewrite ?String.eqb_eq;
      split; congruence. }
  rewrite Ht. split.
  - intros [-> ->]. reflexivity.
  - intros E. injection E as -> ->. auto.
Qed.

Lemma on_eqb_eq (a b : list (ColumnRef * ColumnRef)) : Plugin.on_eqb a b = true <-> a = b.
Proof.
  revert b. induction a as [|[a1 a2] a IH]; intros [|[b1 b2] b]; simpl;
    try (split; [discriminate | discriminate]); [split; reflexivity|].
  rewrite !andb_true_iff, !ColumnRef_eqb_eq, IH. split.
  - intros [[-> ->] ->]. reflexivity.
  - intros E. injection E as -> -> ->. auto.
Qed.

(** [compare] decides equality of join nodes. *)
Lemma compare_eq (a b : JoinNode) : Plugin.compare a b = true <-> a = b.
Proof.
  destruct a as [ka [na aa] oa], b as [kb [nb ab] ob]. unfold Plugin.compare; simpl.
  unfold Plugin.TableRef_eqb; simpl.
  rewrite !andb_true_iff, !String.eqb_eq, on_eqb_eq. split.
  - intros [[Hk [-> ->]] ->]. destruct ka, kb; try discriminate Hk; reflexivity.
  - intros E. injection E as -> -> -> ->. destruct kb; auto.
Qed.

Lemma existsb_compare (j : JoinNode) (seen : list JoinNode) :
  existsb (Plugin.compare j) seen = true <-> In j seen.
Proof.
  rewrite existsb_exists. split.
  - intros (x & Hx & E). apply compare_eq in E. now subst.
  - intros Hj. exists j. split; [assumption | now apply compare_eq].
Qed.

(** The loop keeps the joins that were not seen before, each once. *)
Lemma deduplicateJoinsFrom_In (rest seen : list JoinNode) (j : JoinNode) :
  In j (Plugin.deduplicateJoinsFrom seen rest) <-> In j rest /\ ~ In j seen.
Proof.
  revert seen. induction rest as [|j0 rest IH]; intros seen; simpl.
  - tauto.
  - destruct (existsb (Plugin.compare j0) seen) eqn:E.
    + apply existsb_compare in E. rewrite IH, in_app_iff. simpl.
      split.
      * intros [Hr Hn]. split; [now right | tauto].
      * intros [[<-|Hr] Hn]; [contradiction|]. split; [assumption|].
        intros [Hs|[<-|[]]]; contradiction.
    + assert (Hn0 : ~ In j0 seen)
        by (intros H; apply existsb_compare in H; congruence).
      simpl. rewrite IH, in_app_iff. simpl. split.
      * intros [<-|[Hr Hn]]; [tauto|]. split; [now right | tauto].
      * intros [[<-|Hr] Hn]; [now left|].
        destruct (Plugin.compare j0 j) eqn:Ej.
        -- apply compare_eq in Ej. now left.
        -- right. split; [assumption|].
           intros [Hs|[<-|[]]]; [contradiction|].
           assert (Plugin.compare j0 j0 = true) by now apply compare_eq.
           congruence.
Qed.

Lemma deduplicateJoinsFrom_NoDup (rest seen : list JoinNode) :
  NoDup (Plugin.deduplicateJoinsFrom seen rest).
Proof.
  revert seen. induction rest as [|j0 rest IH]; intros seen; simpl.
  - constructor.
  - destruct (existsb (Plugin.compare j0) seen); [apply IH|].
    constructor; [|apply IH].
    rewrite deduplicateJoinsFrom_In, in_app_iff. simpl. tauto.
Qed.

Lemma deduplicateJoins_In (l : list JoinNode) (j : JoinNode) :
  In j (Plugin.deduplicateJoins l) <-> In j l.
Proof.
  unfold Plugin.deduplicateJoins. rewrite deduplicateJoinsFrom_In. simpl. tauto.
Qed.

Lemma deduplicateJoins_iter_In (m : nat) (l : list JoinNode) (j : JoinNode) :
  In j (Nat.iter m Plugin.deduplicateJoins l) <-> In j l.
Proof.
  induction m as [|m IH]; simpl; [tauto | now rewrite deduplicateJoins_In].
Qed.

(** A duplicate-free list in which every join to a table is one and the
    same join has exactly one join to that table. *)
Lemma countJoinsTo_one (table : string) (J : JoinNode) (l : list JoinNode) :
  NoDup l -> In J l -> tableName (joinTable J) = table ->
  (forall j, In j l -> tableName (joinTable j) = table -> j = J) ->
  countJoinsTo table l = 1.
Proof.
  intros Hnd HJ Ht Hall. unfold countJoinsTo.
  set (p := fun j => String.eqb (tableName (joinTable j)) table).
  assert (Hin : In J (filter p l))
    by (apply filter_In; split; [assumption | unfold p; now apply String.eqb_eq]).
  assert (Heq : forall j, In j (filter p l) -> j = J).
  { intros j Hj. apply filter_In in Hj. destruct Hj as [Hj Hp].
    apply Hall; [assumption | now apply String.eqb_eq]. }
  assert (Hnd' : NoDup (filter p l)) by now apply NoDup_filter.
  destruct (filter p l) as [|x [|y r]]; simpl in *.
  - contradiction.
  - reflexivity.
  - exfalso. inversion Hnd' as [|? ? Hx _]; subst. apply Hx. left.
    transitivity J; [apply Heq; auto | symmetry; apply Heq; auto].
Qed.

Lemma hasPeople_joins (db : Kysely) (ids : option (list string)) (j : JoinNode) :
  In j (joins (node (hasPeople db ids))) -> tableName (joinTable j) = "valid".
Proof.
  unfold hasPeople. destruct ids as [l|]; [destruct (Nat.ltb 0 (length l))|]; simpl;
    try tauto.
  intros [<-|[]]. reflexivity.
Qed.

(** The joins of the chain: the join of the people filter, then one EXIF
    join for every EXIF filter that is given and one for [withExif]. *)
Lemma searchAssetChain_joins (kysely : Kysely) (options : AssetSearchBuilderOptions) :
  joins (node (searchAssetChain kysely options))
  = joins (node (hasPeople (kysely |> withPlugin joinDeduplicationPlugin) (personIds options)))
    ++ concat (map (fun f => if !! (strings options f) then [exifJoin] else []) exifFields)
    ++ (if !! (booleans options Options.withExif) then [exifJoin] else []).
Proof.
  unfold searchAssetChain.
  repeat first
    [ erewrite joins_if'_keep by (intros ?; reflexivity)
    | erewrite joins_if'_add by (intros ?; reflexivity) ].
  cbn [exifFields map concat]. rewrite app_nil_r, <- !app_assoc. reflexivity.
Qed.

Lemma searchAssetChain_plugins (kysely : Kysely) (options : AssetSearchBuilderOptions) :
  plugins (searchAssetChain kysely options) = dbPlugins kysely ++ [DeduplicateJoinsPlugin].
Proof.
  unfold searchAssetChain.
  repeat (rewrite plugins_if' by (intros ?; reflexivity)).
  cbn. now rewrite hasPeople_plugins.
Qed.

Lemma filter_nonempty_In {A : Type} (p : A -> bool) (l : list A) :
  1 <= length (filter p l) -> exists a, In a l /\ p a = true.
Proof.
  destruct (filter p l) as [|a r] eqn:E; simpl; [lia|]. intros _.
  exists a. apply filter_In. rewrite E. now left.
Qed.

(** As soon as one EXIF filter is given or [withExif] is requested, the
    compiled query joins the EXIF relation exactly once. *)
Lemma compile_one_exif_join (kysely : Kysely) (options : AssetSearchBuilderOptions) :
  In exifJoin (joins (node (searchAssetChain kysely options))) ->
  countJoinsTo "exif" (joinsOf (compile (searchAssetChain kysely options))) = 1.
Proof.
  intros HJ. unfold compile.
  rewrite joinsOf_plugins, searchAssetChain_plugins, length_app.
  cbn [length joinsOf toOperationNode]. rewrite Nat.add_1_r, Nat.iter_succ.
  apply countJoinsTo_one with (J := exifJoin).
  - apply deduplicateJoinsFrom_NoDup.
  - now rewrite deduplicateJoins_In, deduplicateJoins_iter_In.
  - reflexivity.
  - intros j Hj Ht. rewrite deduplicateJoins_In, deduplicateJoins_iter_In in Hj.
    rewrite searchAssetChain_joins in Hj.
    rewrite !in_app_iff in Hj. destruct Hj as [Hj|[Hj|Hj]].
    + apply hasPeople_joins in Hj. rewrite Hj in Ht. discriminate Ht.
    + apply in_concat in Hj. destruct Hj as (piece & Hp & Hj).
      apply in_map_iff in Hp. destruct Hp as (f & <- & _).
      destruct (!! (strings options f)); simpl in Hj; [|contradiction].
      destruct Hj as [<-|[]]. reflexivity.
    + destruct (!! (booleans options Options.withExif)); simpl in Hj; [|contradiction].
      destruct Hj as [<-|[]]. reflexivity.
Qed.

(** C6.  An options bag that gives two or more EXIF filters compiles to a
    query with exactly one join to the EXIF relation. *)
Theorem searchAssetBuilder_joins_exif_once
    (kysely : Kysely) (options : AssetSearchBuilderOptions) :
  2 <= exifFilters options ->
  countJoinsTo "exif" (joinsOf (compile (snd (searchAssetBuilder kysely options)))) = 1.
Proof.
  intros Hn. cbn [snd searchAssetBuilder].
  apply compile_one_exif_join. rewrite searchAssetChain_joins, !in_app_iff.
  right; left.
  destruct (applyDefaults_spec options) as (_ & -> & _).
  destruct (filter_nonempty_In (fun f => !! (strings options f)) exifFields) as (f & Hf & Ht).
  { unfold exifFilters in Hn. lia. }
  apply in_concat. exists [exifJoin]. split; [|now left].
  apply in_map_iff. exists f. now rewrite Ht.
Qed.

(** The options [{ city: 'Oslo', country: 'Norway' }] give two EXIF
    filters and one join. *)
Lemma searchAssetBuilder_joins_exif_once_witness :
  2 <= exifFilters Sample.cityAndCountry
  /\ countJoinsTo "exif"
       (joinsOf (compile (snd (searchAssetBuilder Sample.kysely Sample.cityAndCountry)))) = 1.
Proof.
  split.
  - vm_compute. lia.
  - apply (searchAssetBuilder_joins_exif_once Sample.kysely Sample.cityAndCountry).
    vm_compute. lia.
Defined.

(** Without the plugin there would be one join per filter: the node the
    builder holds before compilation has two. *)
Lemma searchAssetBuilder_joins_before_compile :
  countJoinsTo "exif"
    (joins (node (snd (searchAssetBuilder Sample.kysely Sample.cityAndCountry)))) = 2.
Proof. vm_compute. reflexivity. Qed.

(* ===================================================================== *)
(** ** The migration, there and back *)
(* ===================================================================== *)

Module MigrationFacts.
Import Store Migration.

Lemma assoc_dropCol_ne (c c' : string) (r : Row) :
  String.eqb c c' = false -> assoc c (dropCol c' r) = assoc c r.
Proof.
  intros Hc. induction r as [|[k v] r IH]; simpl; [reflexivity|].
  destruct (String.eqb k c') eqn:Ek; simpl.
  - apply String.eqb_eq in Ek. subst k. now rewrite Hc.
  - now rewrite IH.
Qed.




Lemma hasPath_text (column : string) (a : Row) :
  textOrNull (valueOf column a) = true ->
  hasPath column a = Some (hasPathB column a).
Proof.
  unfold hasPath, hasPathB. destruct (valueOf column a) as [| | s | | | | |]; simpl;
    try discriminate; try reflexivity.
  intros _. now destruct (String.eqb s "").
Qed.

Lemma filterM_hasPath (column : string) (l : list Row) :
  forallb (fun a => textOrNull (valueOf column a)) l = true ->
  filterM (hasPath column) l = Some (filter (hasPathB column) l).
Proof.
  induction l as [|a l IH]; simpl; [reflexivity|].
  rewrite andb_true_iff. intros [Ha Hl].
  rewrite (hasPath_text _ _ Ha), (IH Hl). reflexivity.
Qed.

Lemma valueOf_dropCol_ne (c c' : string) (r : Row) :
  String.eqb c c' = false -> valueOf c (dropCol c' r) = valueOf c r.
Proof. intros Hc. unfold valueOf. now rewrite assoc_dropCol_ne. Qed.

Section Files.

Variable uuid_generate_v4 : nat -> string.
Variable now : Z.
Variable unquoted : string -> string.
Hypothesis unquoted_id : unquoted "id" = "id".
Hypothesis unquoted_assetId : unquoted "assetId" = "assetId".
Hypothesis unquoted_type : unquoted "type" = "type".

Lemma fileKey_fileRows (type column : string) (l : list Row) (n : nat) :
  map fileKey (fileRows uuid_generate_v4 now type column n l)
  = map (fun a => (valueOf "id" a, VText type)) l.
Proof.
  revert n. induction l as [|a l IH]; intros n; simpl; [reflexivity|].
  now rewrite IH.
Qed.

Lemma assetId_fileRows (type column : string) (l : list Row) (n : nat) :
  forallb (fun a => isText (valueOf "id" a)) l = true ->
  forallb (fun f => negb (isNull (valueOf "assetId" f)))
    (fileRows uuid_generate_v4 now type column n l) = true.
Proof.
  revert n. induction l as [|a l IH]; intros n; simpl; [reflexivity|].
  rewrite andb_true_iff. intros [Ha Hl]. rewrite (IH _ Hl), andb_true_r.
  unfold valueOf at 1. simpl. now destruct (valueOf "id" a).
Qed.

(** Whether a file made from asset [b] belongs to asset [a]. *)
Lemma fileOf_fileRow (type type' column : string) (n : nat) (a b : Row) (i j : string) :
  valueOf "id" a = VText i -> valueOf "id" b = VText j ->
  fileOf unquoted type' a (fileRow uuid_generate_v4 now type column n b)
  = (String.eqb i j && String.eqb type type')%bool.
Proof.
  intros Ha Hb. unfold fileOf.
  rewrite unquoted_id, unquoted_assetId, unquoted_type.
  change (valueOf "assetId" (fileRow uuid_generate_v4 now type column n b))
    with (valueOf "id" b).
  change (valueOf "type" (fileRow uuid_generate_v4 now type column n b))
    with (VText type).
  rewrite Ha, Hb. cbn.
  destruct (String.eqb i j), (String.eqb type type'); reflexivity.
Qed.


End Files.

Lemma existsb_sameKey (type : string) (a : Row) (l : list Row) :
  existsb (sameKey (valueOf "id" a, VText type))
    (map (fun b => (valueOf "id" b, VText type)) l)
  = existsb (fun b => scalar_eqb (valueOf "id" a) (valueOf "id" b)) l.
Proof.
  induction l as [|b l IH]; simpl; [reflexivity|].
  rewrite IH. f_equal. unfold sameKey. simpl.
  now rewrite String.eqb_refl, andb_true_r.
Qed.

Lemma uniqueKeys_ids (type : string) (l : list Row) :
  distinctIds l = true ->
  uniqueKeys (map (fun a => (valueOf "id" a, VText type)) l) = true.
Proof.
  induction l as [|a l IH]; simpl; [reflexivity|].
  rewrite !andb_true_iff. intros [Hn Hd].
  split; [|now apply IH].
  now rewrite existsb_sameKey.
Qed.

Lemma distinctIds_filter (p : Row -> bool) (l : list Row) :
  distinctIds l = true -> distinctIds (filter p l) = true.
Proof.
  induction l as [|a l IH]; simpl; [reflexivity|].
  rewrite andb_true_iff, negb_true_iff. intros [Hn Hd].
  destruct (p a); simpl; [|now apply IH].
  rewrite (IH Hd), andb_true_r, negb_true_iff.
  clear IH Hd. induction l as [|b l IH]; simpl; [reflexivity|].
  simpl in Hn. apply orb_false_iff in Hn. destruct Hn as [Hab Hn].
  destruct (p b); simpl; [rewrite Hab; simpl|]; now apply IH.
Qed.

Lemma forallb_filter {A : Type} (q p : A -> bool) (l : list A) :
  forallb q l = true -> forallb q (filter p l) = true.
Proof.
  induction l as [|a l IH]; simpl; [reflexivity|].
  rewrite andb_true_iff. intros [Ha Hl].
  destruct (p a); simpl; [rewrite Ha; simpl|]; now apply IH.
Qed.

Lemma uniqueKeys_app (ks1 ks2 : list (Value * Value)) :
  uniqueKeys ks1 = true -> uniqueKeys ks2 = true ->
  (forall k1 k2, In k1 ks1 -> In k2 ks2 -> sameKey k1 k2 = false) ->
  uniqueKeys (ks1 ++ ks2) = true.
Proof.
  induction ks1 as [|k ks1 IH]; simpl; [trivial|].
  rewrite !andb_true_iff, !negb_true_iff. intros [Hk H1] H2 Hx.
  split.
  - rewrite existsb_app, Hk. simpl.
    apply not_true_is_false. intros E. apply existsb_exists in E.
    destruct E as (k2 & Hin & E). rewrite (Hx k k2) in E; auto; discriminate.
  - apply IH; auto.
Qed.


Lemma hasCol_filter_ne (c c' : string) (cols : list string) (r r' : list Row) :
  String.eqb c c' = false ->
  hasCol c (mkRows (filter (fun x => negb (String.eqb x c')) cols) r)
  = hasCol c (mkRows cols r').
Proof.
  intros Hc. unfold hasCol. cbn [columns].
  induction cols as [|x cols IH]; simpl; [reflexivity|].
  destruct (String.eqb x c') eqn:Ex; simpl.
  - apply String.eqb_eq in Ex. subst x. now rewrite Hc.
  - now rewrite IH.
Qed.



Lemma forallb_valueOf_dropCol (q : Value -> bool) (c c' : string) (l : list Row) :
  String.eqb c c' = false ->
  forallb (fun a => q (valueOf c a)) (map (dropCol c') l)
  = forallb (fun a => q (valueOf c a)) l.
Proof.
  intros Hc. induction l as [|a l IH]; simpl; [reflexivity|].
  now rewrite IH, valueOf_dropCol_ne.
Qed.

Lemma distinctIds_dropCol (c' : string) (l : list Row) :
  String.eqb "id" c' = false ->
  distinctIds (map (dropCol c') l) = distinctIds l.
Proof.
  intros Hc. induction l as [|a l IH]; simpl; [reflexivity|].
  rewrite IH. f_equal. f_equal. rewrite valueOf_dropCol_ne by assumption.
  clear IH. induction l as [|b l IH]; simpl; [reflexivity|].
  now rewrite IH, valueOf_dropCol_ne.
Qed.

Section UpDown.

Variable uuid_generate_v4 : nat -> string.
Variable now : Z.

Lemma legacy_inv (db : Db) :
  legacy db = true ->
  hasCol "id" (assets db) = true
  /\ hasCol "previewPath" (assets db) = true
  /\ hasCol "thumbnailPath" (assets db) = true
  /\ forallb legacyRow (rows (assets db)) = true
  /\ distinctIds (rows (assets db)) = true
  /\ asset_files db = None
  /\ existsb (String.eqb "UQ_assetId_type") (indexes db) = false
  /\ existsb (String.eqb "FK_e3e103a5f1d8bc8402999286040") (constraints db) = false.
Proof.
  unfold legacy. rewrite !andb_true_iff, !negb_true_iff.
  intros [[[[[[[H1 H2] H3] H4] H5] H6] H7] H8].
  repeat split; try assumption.
  destruct (asset_files db); [discriminate H6 | reflexivity].
Qed.

Lemma legacyRow_inv (l : list Row) :
  forallb legacyRow l = true ->
  forallb (fun a => isText (valueOf "id" a)) l = true
  /\ forallb (fun a => textOrNull (valueOf "previewPath" a)) l = true
  /\ forallb (fun a => textOrNull (valueOf "thumbnailPath" a)) l = true.
Proof.
  induction l as [|a l IH]; simpl; [auto|].
  unfold legacyRow at 1. rewrite !andb_true_iff. intros [[[H1 H2] H3] Hl].
  destruct (IH Hl) as (I1 & I2 & I3). rewrite H1, H2, H3, I1, I2, I3. auto.
Qed.

Lemma up_legacy (db : Db) :
  legacy db = true ->
  let R := rows (assets db) in
  let selP := filter (hasPathB "previewPath") R in
  let selT := filter (hasPathB "thumbnailPath") (map (dropCol "previewPath") R) in
  up uuid_generate_v4 now db
  = Some (mkDb
            (mkRows
               (filter (fun c => negb (String.eqb c "thumbnailPath"))
                  (filter (fun c => negb (String.eqb c "previewPath")) (columns (assets db))))
               (map (dropCol "thumbnailPath") (map (dropCol "previewPath") R)))
            (Some (mkRows assetFilesColumns
                     (fileRows uuid_generate_v4 now "preview" "previewPath" (uuidsDrawn db) selP
                      ++ fileRows uuid_generate_v4 now "thumbnail" "thumbnailPath"
                           (uuidsDrawn db + length selP) selT)))
            ("UQ_assetId_type" :: indexes db)
            ("FK_e3e103a5f1d8bc8402999286040" :: constraints db)
            (uuidsDrawn db + length selP + length selT)).
Proof.
  intros Hl. destruct (legacy_inv _ Hl) as (Hid & Hp & Ht & Hrows & Hdist & Hfiles & Hidx & Hfk).
  destruct (legacyRow_inv _ Hrows) as (Hids & Hps & Hts).
  destruct db as [[cols R] files idx cons n]. cbn [assets asset_files indexes constraints uuidsDrawn rows columns] in *.
  subst files.
  unfold up, createAssetFiles. cbn [asset_files bind].
  unfold createUniqueIndex. cbn [asset_files bind indexes rows map uniqueKeys assets constraints uuidsDrawn].
  rewrite Hidx.
  unfold addForeignKey. cbn [asset_files bind indexes rows map forallb assets constraints uuidsDrawn].
  rewrite Hfk.
  cbn [bind]. unfold insertPaths.
  cbn [asset_files bind assets rows columns uuidsDrawn indexes constraints].
  rewrite Hp, Hid. cbn [andb].
  rewrite (filterM_hasPath _ _ Hps). cbn [bind app].
  rewrite assetId_fileRows by (now apply forallb_filter).
  rewrite fileKey_fileRows, uniqueKeys_ids by (now apply distinctIds_filter).
  cbn [andb]. unfold dropColumn at 1.
  cbn [asset_files bind assets rows columns uuidsDrawn indexes constraints].
  rewrite Hp.
  cbn [asset_files bind assets rows columns uuidsDrawn indexes constraints].
  rewrite hasCol_filter_ne with (r' := R) by reflexivity. rewrite Ht.
  rewrite hasCol_filter_ne with (r' := R) by reflexivity. rewrite Hid. cbn [andb].
  rewrite filterM_hasPath
    by (now rewrite forallb_valueOf_dropCol by reflexivity).
  cbn [bind].
  rewrite assetId_fileRows
    by (apply forallb_filter; now rewrite forallb_valueOf_dropCol by reflexivity).
  rewrite map_app, !fileKey_fileRows.
  rewrite uniqueKeys_app.
  - cbn [andb]. unfold dropColumn.
    cbn [asset_files bind assets rows columns uuidsDrawn indexes constraints].
    rewrite hasCol_filter_ne with (r' := R) by reflexivity. rewrite Ht.
    reflexivity.
  - apply uniqueKeys_ids. now apply distinctIds_filter.
  - apply uniqueKeys_ids. apply distinctIds_filter.
    now rewrite distinctIds_dropCol by reflexivity.
  - intros k1 k2 H1 H2. apply in_map_iff in H1. apply in_map_iff in H2.
    destruct H1 as (a & <- & _). destruct H2 as (b & <- & _).
    unfold sameKey. cbn. apply andb_false_r.
Qed.




Lemma scalar_eqb_text (v : Value) (s : string) :
  scalar_eqb v (VText s) = true -> v = VText s.
Proof.
  destruct v; simpl; try discriminate. intros E. apply String.eqb_eq in E. now subst.
Qed.

Variable unquoted : string -> string.
Hypothesis unquoted_id : unquoted "id" = "id".
Hypothesis unquoted_assetId : unquoted "assetId" = "assetId".
Hypothesis unquoted_type : unquoted "type" = "type".
Hypothesis unquoted_path : unquoted "path" = "path".


End UpDown.

End MigrationFacts.




(** X28.  A store that folds unquoted identifiers to lower case reads
    ["asset_files".assetId] as the column [assetid], which the table does
    not have: it rejects the first UPDATE of [down]. *)
Lemma down_rejected_with_folded_identifiers
    (uuid_generate_v4 : nat -> string) (now : Z) (db : Migration.Db) :
  Migration.legacy db = true ->
  Migration.upThenDown uuid_generate_v4 now Migration.lowerCase db = None.
Proof.
  intros Hl. unfold Migration.upThenDown.
  rewrite (MigrationFacts.up_legacy _ _ _ Hl). cbn [Store.bind].
  unfold Migration.down, Migration.addColumn at 1.
  cbn [Migration.asset_files Migration.assets Store.bind].
  destruct (Migration.hasCol _ _); [reflexivity|]. cbn [Store.bind].
  unfold Migration.restorePaths at 1.
  cbn [Migration.asset_files Migration.assets Store.bind Store.columns].
  change (existsb (String.eqb (Migration.lowerCase "assetId")) Migration.assetFilesColumns)
    with false.
  rewrite andb_false_r. reflexivity.
Qed.

(* ===================================================================== *)
(** ** The rows a query returns *)
(* ===================================================================== *)

Import Store.

Module StoreFacts.
Import Store.

Lemma bind_Some {A B : Type} (x : option A) (k : A -> option B) (b : B) :
  bind x k = Some b -> exists a, x = Some a /\ k a = Some b.
Proof. destruct x as [a|]; simpl; [eauto | discriminate]. Qed.

Lemma mapM_In {A B : Type} (f : A -> option B) (l : list A) (ys : list B) :
  mapM f l = Some ys -> forall y, In y ys -> exists x, In x l /\ f x = Some y.
Proof.
  revert ys. induction l as [|a l IH]; simpl; intros ys H y Hy.
  - injection H as <-. contradiction.
  - destruct (f a) as [b|] eqn:Ea; [|discriminate].
    destruct (mapM f l) as [bs|]; [|discriminate]. injection H as <-.
    destruct Hy as [<-|Hy]; [eauto|].
    destruct (IH _ eq_refl y Hy) as (x & Hx & E). eauto.
Qed.

Lemma mapM_all {A B : Type} (f : A -> option B) (l : list A) (ys : list B) :
  mapM f l = Some ys -> forall x, In x l -> exists y, In y ys /\ f x = Some y.
Proof.
  revert ys. induction l as [|a l IH]; simpl; intros ys H x Hx; [contradiction|].
  destruct (f a) as [b|] eqn:Ea; [|discriminate].
  destruct (mapM f l) as [bs|]; [|discriminate]. injection H as <-.
  destruct Hx as [<-|Hx]; [exists b; simpl; auto|].
  destruct (IH _ eq_refl x Hx) as (y & Hy & E). exists y. simpl. auto.
Qed.

Lemma filterM_In {A : Type} (f : A -> option bool) (l kept : list A) :
  filterM f l = Some kept -> forall x, In x kept -> In x l /\ f x = Some true.
Proof.
  revert kept. induction l as [|a l IH]; simpl; intros kept H x Hx.
  - injection H as <-. contradiction.
  - destruct (f a) as [keep|] eqn:Ea; [|discriminate].
    destruct (filterM f l) as [r|]; [|discriminate]. injection H as <-.
    destruct keep.
    + destruct Hx as [<-|Hx]; [auto|]. destruct (IH _ eq_refl x Hx). auto.
    + destruct (IH _ eq_refl x Hx). auto.
Qed.

(** A join step extends every row built so far at its end. *)
Lemma joinStep_extends (db : Database) (outer : Scope) (j : JoinNode)
    (locals next : list Scope) :
  joinStep db outer j locals = Some next ->
  forall s, In s next -> exists loc b, In loc locals /\ s = loc ++ [b].
Proof.
  unfold joinStep. intros H s Hs.
  apply bind_Some in H. destruct H as (tbl & _ & H).
  apply bind_Some in H. destruct H as (expanded & He & H). injection H as <-.
  apply in_concat in Hs. destruct Hs as (piece & Hp & Hs).
  destruct (mapM_In _ _ He _ Hp) as (loc & Hloc & E).
  apply bind_Some in E. destruct E as (matching & _ & E). injection E as <-.
  exists loc.
  destruct matching as [|m ms]; [destruct (joinType j)|]; simpl in Hs.
  - contradiction.
  - destruct Hs as [<-|[]]. eauto.
  - destruct Hs as [<-|Hs]; [eauto|].
    apply in_map_iff in Hs. destruct Hs as (r & <- & _). eauto.
Qed.

Lemma joinAll_extends (db : Database) (outer : Scope) (js : list JoinNode)
    (locals joined : list Scope) :
  joinAll db outer js locals = Some joined ->
  forall s, In s joined ->
  exists loc ext, In loc locals /\ s = loc ++ ext /\ length ext = length js.
Proof.
  revert locals. induction js as [|j js IH]; simpl; intros locals H s Hs.
  - injection H as <-. exists s, []. now rewrite app_nil_r.
  - apply bind_Some in H. destruct H as (next & Hn & H).
    destruct (IH _ H s Hs) as (loc' & ext & Hl' & -> & Hlen).
    destruct (joinStep_extends _ _ _ _ Hn _ Hl') as (loc & b & Hl & ->).
    exists loc, ([b] ++ ext). rewrite <- app_assoc. simpl. auto.
Qed.

(** What a join step appends: a row of the joined table for which the
    conditions of the join are true or, for a left join without a match,
    the null-extended side. *)
Lemma joinStep_binding (db : Database) (outer : Scope) (j : JoinNode)
    (locals next : list Scope) :
  joinStep db outer j locals = Some next ->
  forall s, In s next ->
  exists loc tbl,
    In loc locals
    /\ assoc (tableName (joinTable j)) db = Some tbl
    /\ ((exists r,
           In r (rows tbl)
           /\ s = loc ++ [bindingOf (joinTable j) tbl (Some r)]
           /\ forall on, In on (joinOn j) ->
                exists a b v,
                  resolve (loc ++ [bindingOf (joinTable j) tbl (Some r)] ++ outer) (fst on)
                  = Some a
                  /\ resolve (loc ++ [bindingOf (joinTable j) tbl (Some r)] ++ outer) (snd on)
                     = Some b
                  /\ applyOperator Eq a b = Some v
                  /\ isTrue v = true)
        \/ (joinType j = LeftJoin /\ s = loc ++ [bindingOf (joinTable j) tbl None])).
Proof.
  unfold joinStep. intros H s Hs.
  apply bind_Some in H. destruct H as (tbl & Ht & H).
  apply bind_Some in H. destruct H as (expanded & He & H). injection H as <-.
  apply in_concat in Hs. destruct Hs as (piece & Hp & Hs).
  destruct (mapM_In _ _ He _ Hp) as (loc & Hloc & E).
  apply bind_Some in E. destruct E as (matching & Hm & E). injection E as <-.
  exists loc, tbl. split; [assumption|]. split; [assumption|].
  assert (Hmatch : forall r, In r matching ->
            In r (rows tbl)
            /\ forall on, In on (joinOn j) ->
                 exists a b v,
                   resolve (loc ++ [bindingOf (joinTable j) tbl (Some r)] ++ outer) (fst on)
                   = Some a
                   /\ resolve (loc ++ [bindingOf (joinTable j) tbl (Some r)] ++ outer) (snd on)
                      = Some b
                   /\ applyOperator Eq a b = Some v
                   /\ isTrue v = true).
  { intros r Hr. destruct (filterM_In _ _ Hm _ Hr) as (Hin & Hc).
    split; [assumption|]. intros on Hon.
    apply bind_Some in Hc. destruct Hc as (conds & Hcs & Hc). injection Hc as Hc.
    destruct (mapM_all _ _ Hcs _ Hon) as (v & Hv & E).
    apply bind_Some in E. destruct E as (a & Ha & E).
    apply bind_Some in E. destruct E as (b & Hb & E).
    exists a, b, v. repeat (split; [assumption|]).
    rewrite forallb_forall in Hc. now apply Hc. }
  destruct matching as [|m ms].
  - destruct (joinType j); simpl in Hs; [contradiction|].
    destruct Hs as [<-|[]]. right. auto.
  - assert (Hs' : In s (map (fun r => loc ++ [bindingOf (joinTable j) tbl (Some r)]) (m :: ms)))
      by (destruct (joinType j); exact Hs).
    apply in_map_iff in Hs'. destruct Hs' as (r & <- & Hr).
    left. exists r. destruct (Hmatch r Hr). auto.
Qed.

(** The same for the first of several joins. *)
Lemma joinAll_first (db : Database) (outer : Scope) (j : JoinNode) (js : list JoinNode)
    (locals joined : list Scope) :
  joinAll db outer (j :: js) locals = Some joined ->
  forall s, In s joined ->
  exists loc tbl bj ext,
    In loc locals
    /\ assoc (tableName (joinTable j)) db = Some tbl
    /\ s = (loc ++ [bj]) ++ ext
    /\ length ext = length js
    /\ ((exists r,
           In r (rows tbl)
           /\ bj = bindingOf (joinTable j) tbl (Some r)
           /\ forall on, In on (joinOn j) ->
                exists a b v,
                  resolve (loc ++ [bj] ++ outer) (fst on) = Some a
                  /\ resolve (loc ++ [bj] ++ outer) (snd on) = Some b
                  /\ applyOperator Eq a b = Some v
                  /\ isTrue v = true)
        \/ (joinType j = LeftJoin /\ bj = bindingOf (joinTable j) tbl None)).
Proof.
  cbn [joinAll]. intros H s Hs.
  apply bind_Some in H. destruct H as (next & Hn & H).
  destruct (joinAll_extends _ _ _ _ H _ Hs) as (s1 & ext & Hs1 & -> & Hlen).
  destruct (joinStep_binding _ _ _ _ Hn _ Hs1) as (loc & tbl & Hloc & Ht & Hcase).
  destruct Hcase as [(r & Hr & -> & Hon) | (Hl & ->)].
  - exists loc, tbl, (bindingOf (joinTable j) tbl (Some r)), ext.
    repeat (split; [assumption || reflexivity|]). left. exists r. auto.
  - exists loc, tbl, (bindingOf (joinTable j) tbl None), ext.
    repeat (split; [assumption || reflexivity|]). right. auto.
Qed.

(** The rows of a select query without grouping and aggregates: every
    output row comes from one row of the FROM table, extended by the joins,
    for which every condition is true. *)
Lemma execSelect_rows
    (evalIn : Database -> Scope -> list Scope -> OperationNode -> option Value)
    (runIn : Database -> Scope -> OperationNode -> option Table)
    (db : Database) (outer : Scope) (q : SelectQueryNode OperationNode) (t : Table) :
  execSelect evalIn runIn db outer q = Some t ->
  groupBy q = [] -> having q = [] ->
  existsb selectionAggregates (selections q) = false ->
  exists db' base,
    declare runIn db (with_ q) = Some db'
    /\ assoc (tableName (from q)) db' = Some base
    /\ forall row, In row (rows t) ->
       exists r ext joined,
         In r (rows base)
         /\ length ext = length (joins q)
         /\ joinAll db' outer (joins q)
              (map (fun r => [bindingOf (from q) base (Some r)]) (rows base)) = Some joined
         /\ In (bindingOf (from q) base (Some r) :: ext) joined
         /\ (forall e, In e (where_ q) ->
               exists v, evalIn db' ((bindingOf (from q) base (Some r) :: ext) ++ outer)
                           [(bindingOf (from q) base (Some r) :: ext) ++ outer] e = Some v
                         /\ isTrue v = true)
         /\ outputRow evalIn db' outer (bindingOf (from q) base (Some r) :: ext)
              [(bindingOf (from q) base (Some r) :: ext) ++ outer] q = Some row.
Proof.
  unfold execSelect. intros H Hg Hh Ha. rewrite Hg, Hh, Ha in H. cbn [orb] in H.
  apply bind_Some in H. destruct H as (db' & Hdb & H).
  apply bind_Some in H. destruct H as (base & Hbase & H).
  apply bind_Some in H. destruct H as (shape & _ & H).
  apply bind_Some in H. destruct H as (names & _ & H).
  apply bind_Some in H. destruct H as (joined & Hj & H).
  apply bind_Some in H. destruct H as (kept & Hk & H).
  apply bind_Some in H. destruct H as (out & Ho & H). injection H as <-.
  exists db', base. split; [assumption|]. split; [assumption|].
  cbn [rows]. intros row Hrow.
  destruct (mapM_In _ _ Ho _ Hrow) as (local & Hl & Hout).
  destruct (filterM_In _ _ Hk _ Hl) as (Hlj & Hc).
  destruct (joinAll_extends _ _ _ _ Hj _ Hlj) as (loc & ext & Hloc & -> & Hlen).
  apply in_map_iff in Hloc. destruct Hloc as (r & <- & Hr).
  exists r, ext, joined. split; [assumption|]. split; [assumption|].
  split; [assumption|]. split; [assumption|]. split; [|exact Hout].
  intros e He. apply bind_Some in Hc. destruct Hc as (conds & Hm & Hc).
  injection Hc as Hc. destruct (mapM_all _ _ Hm _ He) as (v & Hv & E).
  exists v. split; [exact E|].
  rewrite forallb_forall in Hc. now apply Hc.
Qed.

(** A select query without grouping and aggregates one of whose conditions
    is true of no row returns no row. *)
Lemma execSelect_no_rows
    (evalIn : Database -> Scope -> list Scope -> OperationNode -> option Value)
    (runIn : Database -> Scope -> OperationNode -> option Table)
    (db : Database) (outer : Scope) (q : SelectQueryNode OperationNode) (t : Table)
    (e : OperationNode) :
  execSelect evalIn runIn db outer q = Some t ->
  groupBy q = [] -> having q = [] ->
  existsb selectionAggregates (selections q) = false ->
  In e (where_ q) ->
  (forall db' sc grp v, evalIn db' sc grp e = Some v -> isTrue v = false) ->
  rows t = [].
Proof.
  intros H Hg Hh Ha He Hnever.
  destruct (execSelect_rows _ _ _ _ _ H Hg Hh Ha) as (db' & base & _ & _ & Hrows).
  destruct (rows t) as [|row rest]; [reflexivity|]. exfalso.
  destruct (Hrows row (or_introl eq_refl)) as (r & ext & joined & _ & _ & _ & _ & Hc & _).
  destruct (Hc e He) as (v & Hv & Ht). rewrite (Hnever _ _ _ _ Hv) in Ht. discriminate.
Qed.

Lemma assoc_app_In {A : Type} (k : string) (l1 l2 : list (string * A)) (v : A) :
  assoc k l1 = Some v -> assoc k (l1 ++ l2) = Some v.
Proof.
  induction l1 as [|[k' w] l1 IH]; simpl; [discriminate|].
  destruct (String.eqb k k'); auto.
Qed.

(** The fields of a binding hold, for each of its columns, the value of
    that column. *)
Lemma bindingFields_assoc (b : Binding) (fields : Row) (c : string) (v : Value) :
  bindingFields b = Some fields -> field b c = Some v -> assoc c fields = Some v.
Proof.
  unfold bindingFields, field at 2. intros Hf Hv.
  destruct (hasColumn c b) eqn:Hc; [|discriminate]. unfold hasColumn in Hc.
  revert fields Hf. induction (bindColumns b) as [|c' cols IH]; simpl in *; [discriminate|].
  intros fields Hf.
  destruct (bind (field b c') (fun v0 => Some (c', v0))) as [p|] eqn:Ep; [|discriminate].
  destruct (mapM _ cols) as [rest|] eqn:Er; [|discriminate]. injection Hf as <-.
  apply bind_Some in Ep. destruct Ep as (w & Ew & Ep). injection Ep as <-.
  simpl. destruct (String.eqb c c') eqn:Ecc.
  - apply String.eqb_eq in Ecc. subst c'. unfold field in Ew.
    assert (Hh : hasColumn c b = true).
    { destruct (hasColumn c b); [reflexivity | discriminate Ew]. }
    rewrite Hh in Ew. congruence.
  - simpl in Hc. apply IH; [assumption | reflexivity].
Qed.

Lemma scalar_eqb_eq (a b : Value) : scalar_eqb a b = true -> a = b.
Proof.
  destruct a, b; cbn; try discriminate; intros H.
  - reflexivity.
  - f_equal. now apply Bool.eqb_prop.
  - f_equal. now apply String.eqb_eq.
  - f_equal. now apply Z.eqb_eq.
  - f_equal. now apply Z.eqb_eq.
  - destruct (list_eq_dec Byte.byte_eq_dec b0 b); [now subst | discriminate].
Qed.

(** [a = b] is true only of two equal values that are not null. *)
Lemma applyOperator_Eq_true (a b v : Value) :
  applyOperator Eq a b = Some v -> isTrue v = true ->
  a = b /\ a <> VNull /\ scalar_eqb a a = true.
Proof.
  unfold applyOperator. destruct (isNull a || isNull b) eqn:En.
  - intros E. injection E as <-. discriminate.
  - destruct (sameKind a b); [|discriminate]. intros E. injection E as <-. cbn.
    intros H. assert (Hab : scalar_eqb a b = true) by now destruct (scalar_eqb a b).
    pose proof (scalar_eqb_eq _ _ Hab) as <-. split; [reflexivity|]. split.
    + intros ->. discriminate En.
    + exact Hab.
Qed.

Lemma field_bindingOf (t : TableRef) (tbl : Table) (r : Row) (c : string) (v : Value) :
  field (bindingOf t tbl (Some r)) c = Some v -> v <> VNull -> assoc c r = Some v.
Proof.
  unfold field, bindingOf. cbn [bindRow]. destruct (hasColumn c _); [|discriminate].
  destruct (assoc c r) as [x|]; intros E; injection E as <-; [reflexivity | congruence].
Qed.

Lemma filterM_filter {A : Type} (f : A -> option bool) (l kept : list A) :
  filterM f l = Some kept ->
  kept = filter (fun x => match f x with Some true => true | _ => false end) l.
Proof.
  revert kept. induction l as [|a l IH]; simpl; intros kept H.
  - now injection H as <-.
  - destruct (f a) as [keep|]; [|discriminate].
    destruct (filterM f l) as [r|]; [|discriminate]. injection H as <-.
    rewrite (IH _ eq_refl). now destruct keep.
Qed.









(** The same for a query or subquery the evaluator runs. *)
Lemma run_rows (db : Database) (outer : Scope)
    (q : SelectQueryNode OperationNode) (t : Table) :
  run db outer (SelectQuery q) = Some t ->
  groupBy q = [] -> having q = [] ->
  existsb selectionAggregates (selections q) = false ->
  exists db' base,
    declare run db (with_ q) = Some db'
    /\ assoc (tableName (from q)) db' = Some base
    /\ forall row, In row (rows t) ->
       exists r ext joined,
         In r (rows base)
         /\ length ext = length (joins q)
         /\ joinAll db' outer (joins q)
              (map (fun r => [bindingOf (from q) base (Some r)]) (rows base)) = Some joined
         /\ In (bindingOf (from q) base (Some r) :: ext) joined
         /\ (forall e, In e (where_ q) ->
               exists v, eval db' ((bindingOf (from q) base (Some r) :: ext) ++ outer)
                           [(bindingOf (from q) base (Some r) :: ext) ++ outer] e = Some v
                         /\ isTrue v = true)
         /\ outputRow eval db' outer (bindingOf (from q) base (Some r) :: ext)
              [(bindingOf (from q) base (Some r) :: ext) ++ outer] q = Some row.
Proof.
  change (run db outer (SelectQuery q)) with (execSelect eval run db outer q).
  apply execSelect_rows.
Qed.

(** A query without grouping and aggregates whose first selection is
    "all columns of the FROM table": every row it returns carries the
    columns of one row of that table, for which every condition is
    true. *)
Lemma run_select_rows (db : Database) (outer : Scope)
    (q : SelectQueryNode OperationNode) (t : Table)
    (rest : list (Selection OperationNode)) :
  run db outer (SelectQuery q) = Some t ->
  groupBy q = [] -> having q = [] ->
  selections q = SelectAll (Some (tableAlias (from q))) :: rest ->
  existsb selectionAggregates rest = false ->
  exists db' base,
    declare run db (with_ q) = Some db'
    /\ assoc (tableName (from q)) db' = Some base
    /\ forall row, In row (rows t) ->
       exists r ext joined,
         In r (rows base)
         /\ length ext = length (joins q)
         /\ joinAll db' outer (joins q)
              (map (fun r => [bindingOf (from q) base (Some r)]) (rows base)) = Some joined
         /\ In (bindingOf (from q) base (Some r) :: ext) joined
         /\ (forall e, In e (where_ q) ->
               exists v, eval db' ((bindingOf (from q) base (Some r) :: ext) ++ outer)
                           [(bindingOf (from q) base (Some r) :: ext) ++ outer] e = Some v
                         /\ isTrue v = true)
         /\ (forall c v, field (bindingOf (from q) base (Some r)) c = Some v ->
               assoc c row = Some v).
Proof.
  intros H Hg Hh Hs Ha.
  destruct (@run_rows db outer q t H Hg Hh) as (db' & base & Hd & Hb & Hrows).
  { rewrite Hs. exact Ha. }
  exists db', base. split; [assumption|]. split; [assumption|].
  intros row Hrow.
  destruct (Hrows row Hrow) as (r & ext & joined & Hr & Hlen & Hj & Hin & Hc & Hout).
  exists r, ext, joined. repeat (split; [assumption|]).
  intros c v Hv. unfold outputRow in Hout. rewrite Hs in Hout.
  cbn [mapM selectionFields findBinding bindingOf bindAlias] in Hout.
  rewrite String.eqb_refl in Hout. cbn [bind] in Hout.
  destruct (bindingFields _) as [fields|] eqn:Ef; [|discriminate Hout].
  destruct (mapM _ _) as [more|]; [|discriminate Hout].
  cbn [bind] in Hout. injection Hout as <-. cbn [concat].
  apply assoc_app_In. exact (bindingFields_assoc _ _ Ef Hv).
Qed.

End StoreFacts.

(* ===================================================================== *)
(** ** The shape of the search query *)
(* ===================================================================== *)

Lemma node_if'_keep {X : Type} (p : SelectQueryNode OperationNode -> X)
    (c : bool) (f : SelectQueryBuilder -> SelectQueryBuilder) (qb : SelectQueryBuilder) :
  (forall q, p (node (f q)) = p (node q)) ->
  p (node (if' c f qb)) = p (node qb).
Proof.
  intros Hf. unfold if'. destruct c; [apply Hf | reflexivity].
Qed.

Lemma selections_if'_add (c : bool) (f : SelectQueryBuilder -> SelectQueryBuilder)
    (qb : SelectQueryBuilder) (ss : list (Selection OperationNode)) :
  (forall q, selections (node (f q)) = selections (node q) ++ ss) ->
  selections (node (if' c f qb)) = selections (node qb) ++ (if c then ss else []).
Proof.
  intros Hf. unfold if'. destruct c; [apply Hf | now rewrite app_nil_r].
Qed.

Lemma hasPeople_shape (db : Kysely) (ids : option (list string)) :
  from (node (hasPeople db ids)) = mkTable "assets" "assets"
  /\ groupBy (node (hasPeople db ids)) = []
  /\ having (node (hasPeople db ids)) = []
  /\ selections (node (hasPeople db ids)) = [].
Proof.
  unfold hasPeople. destruct ids as [l|]; [destruct (Nat.ltb 0 (length l))|];
    repeat split; reflexivity.
Qed.

(** The projection of the search query: all columns of [assets], then
    [exifInfo] when [withExif] is truthy, then [faces] when [withFaces],
    [withPeople] or [personIds] is truthy. *)
Lemma searchAssetChain_selections (kysely : Kysely) (options : AssetSearchBuilderOptions) :
  selections (node (searchAssetChain kysely options))
  = SelectAll (Some "assets")
    :: (if !! (booleans options Options.withExif) then [exifInfoSelection] else [])
    ++ (if !! (booleans options Options.withFaces) || !! (booleans options withPeople)
           || !! (personIds options)
        then [facesSelection] else []).
Proof.
  unfold searchAssetChain.
  repeat first
    [ rewrite (node_if'_keep (@selections OperationNode)) by (intros ?; reflexivity)
    | erewrite selections_if'_add by (intros ?; reflexivity) ].
  cbn [selectAllOf addSelection updNode node selections].
  destruct (hasPeople_shape (kysely |> withPlugin joinDeduplicationPlugin) (personIds options))
    as (_ & _ & _ & ->).
  cbn [app]. reflexivity.
Qed.

Lemma searchAssetChain_shape (kysely : Kysely) (options : AssetSearchBuilderOptions) :
  from (node (searchAssetChain kysely options)) = mkTable "assets" "assets"
  /\ groupBy (node (searchAssetChain kysely options)) = []
  /\ having (node (searchAssetChain kysely options)) = [].
Proof.
  unfold searchAssetChain.
  rewrite !(node_if'_keep (@from OperationNode)) by (intros ?; reflexivity).
  rewrite !(node_if'_keep (@groupBy OperationNode)) by (intros ?; reflexivity).
  rewrite !(node_if'_keep (@having OperationNode)) by (intros ?; reflexivity).
  cbn [selectAllOf addSelection updNode node from groupBy having].
  destruct (hasPeople_shape (kysely |> withPlugin joinDeduplicationPlugin) (personIds options))
    as (-> & -> & -> & _).
  auto.
Qed.

Lemma iter_after {A : Type} (f : A -> A) (x : A) (m : nat) :
  Nat.iter (S m) f x = Nat.iter m f (f x).
Proof.
  induction m as [|m IH]; [reflexivity|].
  rewrite Nat.iter_succ, IH. reflexivity.
Qed.

(** Compiling a query whose conditions and selections carry no duplicate
    join: every plugin transforms the common table expressions and
    removes the duplicate joins; nothing else changes. *)
Lemma compile_explicit (qb : SelectQueryBuilder) :
  Forall (fun e => Plugin.transformNode e = e) (where_ (node qb)) ->
  having (node qb) = [] ->
  Forall (fun s => transformSelection s = s) (selections (node qb)) ->
  compile qb
  = SelectQuery
      (mkSelect
         (Nat.iter (length (plugins qb))
            (map (fun c => (fst c, Plugin.transformNode (snd c)))) (with_ (node qb)))
         (from (node qb))
         (Nat.iter (length (plugins qb)) Plugin.deduplicateJoins (joins (node qb)))
         (where_ (node qb)) (groupBy (node qb)) [] (selections (node qb))).
Proof.
  intros Hw Hh Hs. unfold compile, toOperationNode.
  destruct (node qb) as [w f j ws g h ss].
  cbn [where_ having selections from groupBy with_ joins] in *.
  subst h. generalize (plugins qb) as ps. intros ps. revert w j.
  induction ps as [|p ps IH]; intros w j; [reflexivity|].
  cbn [fold_left length]. rewrite !iter_after.
  destruct p. cbn [Plugin.transformQuery Plugin.transformNode
                   with_ from joins where_ groupBy having selections map].
  rewrite (map_fixed _ Hw).
  change (map _ ss) with (map transformSelection ss).
  rewrite (map_fixed _ Hs). apply IH.
Qed.

Lemma iter_names (m : nat) (w : list (string * OperationNode)) :
  map fst (Nat.iter m (map (fun c => (fst c, Plugin.transformNode (snd c)))) w)
  = map fst w.
Proof.
  induction m as [|m IH]; [reflexivity|].
  rewrite Nat.iter_succ, map_map. cbn [fst]. exact IH.
Qed.

(** In particular the names of the common table expressions stay. *)
Lemma compile_keeps (qb : SelectQueryBuilder) :
  Forall (fun e => Plugin.transformNode e = e) (where_ (node qb)) ->
  having (node qb) = [] ->
  Forall (fun s => transformSelection s = s) (selections (node qb)) ->
  exists w j,
    compile qb
    = SelectQuery (mkSelect w (from (node qb)) j (where_ (node qb))
                     (groupBy (node qb)) [] (selections (node qb)))
    /\ map fst w = map fst (with_ (node qb)).
Proof.
  intros Hw Hh Hs. rewrite (compile_explicit qb Hw Hh Hs).
  eexists. eexists. split; [reflexivity | apply iter_names].
Qed.

Lemma searchAssetChain_selections_fixed (kysely : Kysely) (options : AssetSearchBuilderOptions) :
  Forall (fun s => transformSelection s = s)
    (selections (node (searchAssetChain kysely options)))
  /\ existsb Store.selectionAggregates
       (selections (node (searchAssetChain kysely options))) = false.
Proof.
  rewrite searchAssetChain_selections.
  destruct (!! (booleans options Options.withExif));
    destruct (!! (booleans options Options.withFaces) || !! (booleans options withPeople)
              || !! (personIds options));
    split; repeat constructor.
Qed.

Lemma hasPeople_with (ps : list KyselyPlugin) (ids : option (list string)) :
  incl (map fst (with_ (node (hasPeople (mkKysely ps []) ids)))) ["valid"].
Proof.
  unfold hasPeople. destruct ids as [l|]; [destruct (Nat.ltb 0 (length l))|]; cbn;
    auto using incl_refl, incl_nil_l.
Qed.

(** The search query has the shape the store lemmas ask for. *)
Lemma compile_searchAssetChain (kysely : Kysely) (options : AssetSearchBuilderOptions) :
  exists w j,
    compile (searchAssetChain kysely options)
    = SelectQuery (mkSelect w (mkTable "assets" "assets") j
                     (where_ (node (searchAssetChain kysely options))) [] []
                     (selections (node (searchAssetChain kysely options))))
    /\ map fst w = map fst (with_ (node (searchAssetChain kysely options))).
Proof.
  destruct (searchAssetChain_shape kysely options) as (Hf & Hg & Hh).
  destruct (compile_keeps (searchAssetChain kysely options)) as (w & j & E & Hn).
  - apply searchAssetChain_where_fixed.
  - exact Hh.
  - apply searchAssetChain_selections_fixed.
  - exists w, j. now rewrite E, Hf, Hg.
Qed.

Lemma searchAssetChain_with (kysely : Kysely) (options : AssetSearchBuilderOptions) :
  with_ (node (searchAssetChain kysely options))
  = with_ (node (hasPeople (kysely |> withPlugin joinDeduplicationPlugin)
                   (personIds options))).
Proof.
  unfold searchAssetChain.
  rewrite !(node_if'_keep (@with_ OperationNode)) by (intros ?; reflexivity).
  reflexivity.
Qed.

(** Every row the search returns is a row of [assets], with all its
    columns, for which every condition of the query is true. *)
Lemma searchAssetChain_rows (kysely : Kysely) (options : AssetSearchBuilderOptions)
    (db : Database) (t : Table) :
  execute db (searchAssetChain kysely options) = Some t ->
  forall row, In row (rows t) ->
  exists db' b ext,
    bindAlias b = "assets"
    /\ (forall e, In e (where_ (node (searchAssetChain kysely options))) ->
          exists v, eval db' (b :: ext) [b :: ext] e = Some v /\ isTrue v = true)
    /\ (forall c v, field b c = Some v -> assoc c row = Some v).
Proof.
  unfold execute. destruct (compile_searchAssetChain kysely options) as (w & j & -> & _).
  intros H row Hrow.
  destruct (searchAssetChain_selections_fixed kysely options) as (_ & Ha).
  rewrite searchAssetChain_selections in Ha.
  destruct (@StoreFacts.run_select_rows _ _ _ _ _ H eq_refl eq_refl
              (searchAssetChain_selections kysely options) Ha)
    as (db' & base & _ & _ & Hrows).
  destruct (Hrows row Hrow) as (r & ext & joined & _ & _ & _ & _ & Hc & Hf).
  cbn [from where_] in Hc, Hf. rewrite app_nil_r in Hc.
  exists db', (bindingOf (mkTable "assets" "assets") base (Some r)), ext.
  split; [reflexivity|]. split; [exact Hc | exact Hf].
Qed.

(* ===================================================================== *)
(** ** The filters of the search, on the rows it returns *)
(* ===================================================================== *)

Lemma In_where_if'_here (c : bool) (f : SelectQueryBuilder -> SelectQueryBuilder)
    (qb : SelectQueryBuilder) (e : OperationNode) :
  c = true -> (forall q, In e (where_ (node (f q)))) ->
  In e (where_ (node (if' c f qb))).
Proof. intros -> Hf. apply Hf. Qed.

(** Walks down the chain to the step whose test [tac] proves and whose
    condition is the one looked for. *)
Ltac find_where tac :=
  repeat first
    [ apply In_where_if'_here;
        [ tac | intros ?; cbn; rewrite in_app_iff; right; left; reflexivity ]
    | apply In_where_if'; [ intros ? ? ?; cbn; rewrite ?in_app_iff; auto | ] ].

Lemma eval_column_compare (db : Database) (b : Binding) (ext : Scope) (grp : list Scope)
    (c : string) (op : Operator) (v : Value) :
  bindAlias b = "assets" ->
  eval db (b :: ext) grp (BinaryOperation (Reference (mkRef (Some "assets") c)) op (ValueN v))
  = bind (field b c) (fun a => applyOperator op a v).
Proof.
  intros Hb. cbn. rewrite Hb. reflexivity.
Qed.

(** X2.  With the defaults in force the search returns no soft-deleted
    asset. *)
Theorem search_returns_no_deleted_asset
    (kysely : Kysely) (options : AssetSearchBuilderOptions) (db : Database) (t : Table) :
  dates options trashedAfter = None ->
  dates options trashedBefore = None ->
  !! (booleans options withDeleted) = false ->
  execute db (snd (searchAssetBuilder kysely options)) = Some t ->
  forall row, In row (rows t) -> assoc "deletedAt" row = Some VNull.
Proof.
  intros Ha Hb Hd H row Hrow. cbn [snd searchAssetBuilder] in H.
  destruct (searchAssetChain_rows _ _ _ H row Hrow) as (db' & b & ext & Hal & Hc & Hf).
  destruct (searchAssetChain_where kysely (applyDefaults options)) as (before & Hw & _).
  destruct (applyDefaults_spec options) as (_ & _ & _ & _ & _ & Hbs).
  rewrite (Hbs withDeleted), Hd, Ha, Hb in Hw. cbn in Hw.
  destruct (Hc deletedAtIsNull) as (v & Hv & Ht).
  { rewrite Hw. apply in_or_app. right. now left. }
  unfold deletedAtIsNull in Hv. rewrite eval_column_compare in Hv by exact Hal.
  apply StoreFacts.bind_Some in Hv. destruct Hv as (a & Ha' & Hv).
  cbn in Hv. injection Hv as <-. apply Hf. rewrite Ha'.
  destruct a; try discriminate Ht. reflexivity.
Qed.

Lemma search_returns_no_deleted_asset_witness :
  dates noOptions trashedAfter = None
  /\ dates noOptions trashedBefore = None
  /\ !! (booleans noOptions withDeleted) = false
  /\ Store.execute Gallery.db (snd (searchAssetBuilder Sample.kysely noOptions))
     = Some (Gallery.search noOptions)
  /\ Store.rows (Gallery.search noOptions) <> []
  /\ forall row, In row (Store.rows (Gallery.search noOptions)) ->
       Store.assoc "deletedAt" row = Some VNull.
Proof.
  split; [reflexivity|]. split; [reflexivity|]. split; [reflexivity|].
  split; [vm_compute; reflexivity|]. split; [vm_compute; discriminate|].
  apply (@search_returns_no_deleted_asset Sample.kysely noOptions Gallery.db
           (Gallery.search noOptions)).
  - reflexivity.
  - reflexivity.
  - reflexivity.
  - vm_compute. reflexivity.
Defined.

(** X3.  A date bound that is given holds of every asset the search
    returns. *)
Theorem search_respects_date_bounds
    (kysely : Kysely) (options : AssetSearchBuilderOptions) (db : Database) (t : Table)
    (f : DateField) (d : Date) :
  dates options f = Some d ->
  execute db (snd (searchAssetBuilder kysely options)) = Some t ->
  forall row, In row (rows t) ->
  exists ts,
    assoc (dateColumn f) row = Some (VTime ts)
    /\ if isBefore f then (ts <= getTime d)%Z else (getTime d <= ts)%Z.
Proof.
  intros Hd H row Hrow. cbn [snd searchAssetBuilder] in H.
  destruct (searchAssetChain_rows _ _ _ H row Hrow) as (db' & b & ext & Hal & Hc & Hf).
  destruct (applyDefaults_spec options) as (Hdates & _).
  destruct (Hc (BinaryOperation (Reference (mkRef (Some "assets") (dateColumn f)))
                  (if isBefore f then Le else Ge) (ValueN (VTime (getTime d)))))
    as (v & Hv & Ht).
  { unfold searchAssetChain. rewrite Hdates.
    destruct f; rewrite Hd; find_where reflexivity. }
  rewrite eval_column_compare in Hv by exact Hal.
  apply StoreFacts.bind_Some in Hv. destruct Hv as (a & Ha' & Hv).
  destruct a as [| | | ts | | | |];
    try (destruct (isBefore f); cbn in Hv; try discriminate Hv;
         injection Hv as <-; discriminate Ht).
  exists ts. split; [now apply Hf|].
  destruct (isBefore f); cbn in Hv; injection Hv as <-; cbn in Ht.
  - destruct (Z.leb_spec ts (getTime d)); [assumption | discriminate Ht].
  - destruct (Z.leb_spec (getTime d) ts); [assumption | discriminate Ht].
Qed.

Lemma search_respects_date_bounds_witness :
  dates Gallery.recent createdAfter = Some Gallery.since
  /\ Store.execute Gallery.db (snd (searchAssetBuilder Sample.kysely Gallery.recent))
     = Some (Gallery.search Gallery.recent)
  /\ Store.rows (Gallery.search Gallery.recent) <> []
  /\ forall row, In row (Store.rows (Gallery.search Gallery.recent)) ->
       exists ts,
         Store.assoc (dateColumn createdAfter) row = Some (VTime ts)
         /\ if isBefore createdAfter then (ts <= getTime Gallery.since)%Z
            else (getTime Gallery.since <= ts)%Z.
Proof.
  split; [reflexivity|]. split; [vm_compute; reflexivity|].
  split; [vm_compute; discriminate|].
  apply (@search_respects_date_bounds Sample.kysely Gallery.recent Gallery.db
           (Gallery.search Gallery.recent) createdAfter Gallery.since).
  - reflexivity.
  - vm_compute. reflexivity.
Defined.


Lemma applyOperator_Eq_text (a : Value) (s : string) (v : Value) :
  applyOperator Eq a (VText s) = Some v -> isTrue v = true -> a = VText s.
Proof.
  destruct a as [| | x | | | | |]; cbn; try discriminate; intros E; injection E as <-; cbn;
    try discriminate.
  destruct (String.eqb_spec x s); [now subst | discriminate].
Qed.

Lemma applyOperator_Eq_bool (a : Value) (x : bool) (v : Value) :
  applyOperator Eq a (VBool x) = Some v -> isTrue v = true -> a = VBool x.
Proof.
  destruct a as [| y | | | | | |]; cbn; try discriminate; intros E; injection E as <-; cbn;
    try discriminate.
  destruct y, x; try discriminate; reflexivity.
Qed.

(** X5.  A flag filter that is set holds of every asset the search returns. *)
Theorem search_respects_flags
    (kysely : Kysely) (options : AssetSearchBuilderOptions) (db : Database) (t : Table)
    (f : BooleanField) (c : string) :
  flagColumn f = Some c ->
  booleans options f = Some true ->
  execute db (snd (searchAssetBuilder kysely options)) = Some t ->
  forall row, In row (rows t) -> assoc c row = Some (VBool true).
Proof.
  intros Hcol Hb H row Hrow. cbn [snd searchAssetBuilder] in H.
  destruct (searchAssetChain_rows _ _ _ H row Hrow) as (db' & b & ext & Hal & Hc & Hf).
  destruct (applyDefaults_spec options) as (_ & _ & _ & _ & _ & Hbs).
  destruct (Hc (BinaryOperation (Reference (mkRef (Some "assets") c)) Eq (ValueN (VBool true))))
    as (v & Hv & Ht).
  { unfold searchAssetChain.
    destruct f; try discriminate Hcol; injection Hcol as <-;
      match goal with
      | |- context [booleans (applyDefaults options) ?g] =>
          match type of Hb with
          | booleans options g = _ => rewrite (Hbs g)
          end
      end; rewrite Hb; find_where reflexivity. }
  rewrite eval_column_compare in Hv by exact Hal.
  apply StoreFacts.bind_Some in Hv. destruct Hv as (a & Ha' & Hv).
  apply Hf. rewrite Ha'. f_equal. exact (applyOperator_Eq_bool _ _ Hv Ht).
Qed.

Lemma search_respects_flags_witness :
  flagColumn isFavorite = Some "isFavorite"
  /\ booleans Gallery.favorites isFavorite = Some true
  /\ Store.execute Gallery.db (snd (searchAssetBuilder Sample.kysely Gallery.favorites))
     = Some (Gallery.search Gallery.favorites)
  /\ Store.rows (Gallery.search Gallery.favorites) <> []
  /\ forall row, In row (Store.rows (Gallery.search Gallery.favorites)) ->
       Store.assoc "isFavorite" row = Some (VBool true).
Proof.
  split; [reflexivity|]. split; [reflexivity|]. split; [vm_compute; reflexivity|].
  split; [vm_compute; discriminate|].
  apply (@search_respects_flags Sample.kysely Gallery.favorites Gallery.db
           (Gallery.search Gallery.favorites) isFavorite "isFavorite").
  - reflexivity.
  - reflexivity.
  - vm_compute. reflexivity.
Defined.

(** X6.  [isEncoded] and [isMotion] leave only assets whose encoded video path,
    or live photo video, is present. *)
Theorem search_respects_presence_flags
    (kysely : Kysely) (options : AssetSearchBuilderOptions) (db : Database) (t : Table)
    (f : BooleanField) (c : string) :
  presenceColumn f = Some c ->
  booleans options f = Some true ->
  execute db (snd (searchAssetBuilder kysely options)) = Some t ->
  forall row, In row (rows t) -> exists v, assoc c row = Some v /\ v <> VNull.
Proof.
  intros Hcol Hb H row Hrow. cbn [snd searchAssetBuilder] in H.
  destruct (searchAssetChain_rows _ _ _ H row Hrow) as (db' & b & ext & Hal & Hc & Hf).
  destruct (applyDefaults_spec options) as (_ & _ & _ & _ & _ & Hbs).
  destruct (Hc (BinaryOperation (Reference (mkRef (Some "assets") c)) IsNot (ValueN VNull)))
    as (v & Hv & Ht).
  { unfold searchAssetChain.
    destruct f; try discriminate Hcol; injection Hcol as <-;
      match goal with
      | |- context [booleans (applyDefaults options) ?g] =>
          match type of Hb with
          | booleans options g = _ => rewrite (Hbs g)
          end
      end; rewrite Hb; find_where reflexivity. }
  rewrite eval_column_compare in Hv by exact Hal.
  apply StoreFacts.bind_Some in Hv. destruct Hv as (a & Ha' & Hv).
  exists a. split; [now apply Hf|].
  cbn in Hv. injection Hv as <-. intros ->. discriminate Ht.
Qed.

Lemma search_respects_presence_flags_witness :
  presenceColumn isEncoded = Some "encodedVideoPath"
  /\ booleans Gallery.encoded isEncoded = Some true
  /\ Store.execute Gallery.db (snd (searchAssetBuilder Sample.kysely Gallery.encoded))
     = Some (Gallery.search Gallery.encoded)
  /\ Store.rows (Gallery.search Gallery.encoded) <> []
  /\ forall row, In row (Store.rows (Gallery.search Gallery.encoded)) ->
       exists v, Store.assoc "encodedVideoPath" row = Some v /\ v <> VNull.
Proof.
  split; [reflexivity|]. split; [reflexivity|]. split; [vm_compute; reflexivity|].
  split; [vm_compute; discriminate|].
  apply (@search_respects_presence_flags Sample.kysely Gallery.encoded Gallery.db
           (Gallery.search Gallery.encoded) isEncoded "encodedVideoPath").
  - reflexivity.
  - reflexivity.
  - vm_compute. reflexivity.
Defined.



Lemma splitAt_app (sep : ascii) (s rest : string) :
  splitAt sep s = None ->
  splitAt sep (s ++ String sep rest) = Some (s, rest).
Proof.
  induction s as [|c s IH]; cbn.
  - intros _. now rewrite Ascii.eqb_refl.
  - destruct (Ascii.eqb c sep); [discriminate|].
    destruct (splitAt sep s) as [[a b]|]; [discriminate|].
    intros _. now rewrite IH.
Qed.

Lemma splitCommas_concat (ids : list string) (x : string) (fuel : nat) :
  forallb plainId (x :: ids) = true ->
  length ids <= fuel ->
  splitCommas fuel (String.concat "," (x :: ids)) = x :: ids.
Proof.
  revert x fuel. induction ids as [|y ids IH]; intros x fuel Hp Hf.
  - cbn in Hp. rewrite andb_true_r in Hp. apply andb_true_iff in Hp.
    destruct Hp as [_ Hx]. cbn [String.concat].
    destruct (splitAt "," x) eqn:Ex; [discriminate|].
    destruct fuel; cbn; [reflexivity | now rewrite Ex].
  - cbn [forallb] in Hp. apply andb_true_iff in Hp. destruct Hp as [Hx Hp].
    unfold plainId in Hx. apply andb_true_iff in Hx. destruct Hx as [_ Hx].
    destruct (splitAt "," x) eqn:Ex; [discriminate|].
    destruct fuel as [|fuel]; [cbn in Hf; lia|].
    change (String.concat "," (x :: y :: ids))
      with (x ++ String ","%char (String.concat "," (y :: ids)))%string.
    cbn [splitCommas]. rewrite splitAt_app by exact Ex.
    rewrite IH; [reflexivity | exact Hp | cbn in Hf; lia].
Qed.

Lemma dropLast_app (s : string) (c : ascii) : dropLast (s ++ String c "")%string = s.
Proof.
  induction s as [|a s IH]; [reflexivity|].
  cbn. rewrite IH. destruct (s ++ String c "")%string eqn:E; [|reflexivity].
  destruct s; discriminate E.
Qed.

Lemma length_append (s1 s2 : string) :
  String.length (s1 ++ s2)%string = String.length s1 + String.length s2.
Proof. induction s1 as [|c s1 IH]; cbn; [reflexivity | now rewrite IH]. Qed.

Lemma length_concat_plain (ids : list string) (x : string) :
  forallb plainId (x :: ids) = true ->
  length ids < String.length (String.concat "," (x :: ids)).
Proof.
  revert x. induction ids as [|y ids IH]; intros x Hp.
  - cbn in Hp. rewrite andb_true_r in Hp. apply andb_true_iff in Hp.
    destruct Hp as [Hx _]. destruct x; [discriminate Hx | cbn; lia].
  - cbn [forallb] in Hp. apply andb_true_iff in Hp. destruct Hp as [_ Hp].
    change (String.concat "," (x :: y :: ids))
      with (x ++ String ","%char (String.concat "," (y :: ids)))%string.
    rewrite length_append. cbn [String.length length].
    specialize (IH y Hp). lia.
Qed.

(** The store reads the literal of [anyUuid] back as the ids it was made
    from. *)
Lemma parseArrayLiteral_anyUuid (ids : list string) :
  forallb plainId ids = true ->
  parseArrayLiteral ("{" ++ String.concat "," ids ++ "}") = Some (map VText ids).
Proof.
  intros Hp. unfold parseArrayLiteral. cbn [append].
  rewrite dropLast_app, String.eqb_refl.
  destruct ids as [|x ids]; [reflexivity|].
  pose proof (@length_concat_plain ids x Hp) as Hl.
  destruct (String.eqb_spec (String.concat "," (x :: ids)) "") as [E|_].
  - rewrite E in Hl. cbn in Hl. lia.
  - rewrite splitCommas_concat; [reflexivity | exact Hp | lia].
Qed.

Lemma eval_column_anyUuid (db : Database) (b : Binding) (ext : Scope) (grp : list Scope)
    (c : string) (ids : list string) :
  bindAlias b = "assets" ->
  forallb plainId ids = true ->
  eval db (b :: ext) grp (BinaryOperation (Reference (mkRef (Some "assets") c)) Eq (anyUuid ids))
  = bind (field b c) (fun a => applyAny Eq a (map VText ids)).
Proof.
  intros Hb Hp. cbn -[parseArrayLiteral append String.concat]. rewrite Hb.
  cbn -[parseArrayLiteral append String.concat].
  destruct (field b c) as [a|]; [|reflexivity].
  cbn -[parseArrayLiteral append String.concat].
  rewrite parseArrayLiteral_anyUuid by exact Hp. reflexivity.
Qed.

Lemma applyAny_Eq_text (a : Value) (ids : list string) (v : Value) :
  applyAny Eq a (map VText ids) = Some v -> isTrue v = true ->
  exists x, a = VText x /\ In x ids.
Proof.
  unfold applyAny. destruct (isNull a) eqn:Hn.
  - intros E. injection E as <-. discriminate.
  - destruct (mapM _ _) as [rs|] eqn:Em; [|discriminate].
    intros E. injection E as <-. cbn. intros Ht.
    destruct (existsb isTrue rs) eqn:Hex; [clear Ht | discriminate Ht].
    rename Hex into Ht. apply existsb_exists in Ht. destruct Ht as (r & Hr & Ht).
    destruct (StoreFacts.mapM_In _ _ Em _ Hr) as (y & Hy & Ey).
    apply in_map_iff in Hy. destruct Hy as (x & <- & Hx).
    exists x. split; [|exact Hx]. exact (applyOperator_Eq_text _ _ Ey Ht).
Qed.

(** The owner filter: every asset the search returns belongs to one of the
    given users. *)
Lemma search_owner_rows
    (kysely : Kysely) (options : AssetSearchBuilderOptions) (db : Database) (t : Table)
    (ids : list string) :
  userIds options = Some ids ->
  forallb plainId ids = true ->
  execute db (snd (searchAssetBuilder kysely options)) = Some t ->
  forall row, In row (rows t) ->
  exists x, assoc "ownerId" row = Some (VText x) /\ In x ids.
Proof.
  intros Hu Hp H row Hrow. cbn [snd searchAssetBuilder] in H.
  destruct (searchAssetChain_rows _ _ _ H row Hrow) as (db' & b & ext & Hal & Hc & Hf).
  destruct (applyDefaults_spec options) as (_ & _ & _ & Husers & _).
  destruct (Hc (BinaryOperation (Reference (mkRef (Some "assets") "ownerId")) Eq (anyUuid ids)))
    as (v & Hv & Ht).
  { unfold searchAssetChain. rewrite Husers, Hu. find_where reflexivity. }
  rewrite eval_column_anyUuid in Hv by assumption.
  apply StoreFacts.bind_Some in Hv. destruct Hv as (a & Ha' & Hv).
  destruct (applyAny_Eq_text _ _ Hv Ht) as (x & -> & Hx).
  exists x. split; [now apply Hf | exact Hx].
Qed.



(** X8.  An empty list of user ids is not "no filter": the search returns
    nothing. *)
Theorem search_with_no_userIds_is_empty
    (kysely : Kysely) (options : AssetSearchBuilderOptions) (db : Database) (t : Table) :
  userIds options = Some [] ->
  execute db (snd (searchAssetBuilder kysely options)) = Some t ->
  rows t = [].
Proof.
  intros Hu H. destruct (rows t) as [|row rest] eqn:E; [reflexivity|]. exfalso.
  destruct (@search_owner_rows kysely options db t [] Hu eq_refl H row) as (x & _ & []).
  rewrite E. now left.
Qed.

Lemma search_with_no_userIds_is_empty_witness :
  userIds Gallery.ofNobody = Some []
  /\ Store.execute Gallery.db (snd (searchAssetBuilder Sample.kysely Gallery.ofNobody))
     = Some (Gallery.search Gallery.ofNobody)
  /\ Store.rows (Gallery.search Gallery.ofNobody) = [].
Proof.
  split; [reflexivity|]. split; [vm_compute; reflexivity|].
  apply (@search_with_no_userIds_is_empty Sample.kysely Gallery.ofNobody Gallery.db
           (Gallery.search Gallery.ofNobody)).
  - reflexivity.
  - vm_compute. reflexivity.
Defined.

Module ResultFacts.
Import Store.

(** A common table expression shadows the table of its own name only. *)
Lemma declare_other
    (runIn : Database -> Scope -> OperationNode -> option Table)
    (ctes : list (string * OperationNode)) (db db' : Database) (name : string) :
  declare runIn db ctes = Some db' ->
  ~ In name (map fst ctes) ->
  assoc name db' = assoc name db.
Proof.
  revert db. induction ctes as [|[n e] ctes IH]; intros db; cbn [declare map fst In].
  - intros E _. now injection E as <-.
  - intros H Hn. apply StoreFacts.bind_Some in H. destruct H as (tbl & _ & H).
    rewrite (IH _ H) by tauto. cbn [assoc].
    destruct (String.eqb_spec name n); [subst; tauto | reflexivity].
Qed.

End ResultFacts.

(** X1 (the rows of a search).  On a handle without common table
    expressions, every row the search returns is a row of the table
    [assets], with the value of each of its columns; the filters and the
    relations that are asked for remove rows and add columns, they do
    not change an asset. *)
Theorem search_returns_rows_of_assets
    (plugins : list KyselyPlugin) (options : AssetSearchBuilderOptions)
    (db : Store.Database) (t : Store.Table) :
  Store.execute db (snd (searchAssetBuilder (mkKysely plugins []) options)) = Some t ->
  exists assets,
    Store.assoc "assets" db = Some assets
    /\ forall row, In row (Store.rows t) ->
       exists asset,
         In asset (Store.rows assets)
         /\ forall c, In c (Store.columns assets) ->
              Store.assoc c row = Some (Migration.valueOf c asset).
Proof.
  cbn [snd searchAssetBuilder]. generalize (applyDefaults options). clear options.
  intros options.
  unfold execute.
  destruct (compile_searchAssetChain (mkKysely plugins []) options) as (w & j & -> & Hn).
  intros H.
  destruct (searchAssetChain_selections_fixed (mkKysely plugins []) options) as (_ & Ha).
  rewrite searchAssetChain_selections in Ha.
  destruct (@StoreFacts.run_select_rows _ _ _ _ _ H eq_refl eq_refl
              (searchAssetChain_selections (mkKysely plugins []) options) Ha)
    as (db' & base & Hd & Hb & Hrows).
  cbn [with_ from tableName] in Hd, Hb.
  rewrite (ResultFacts.declare_other _ _ _ "assets" Hd) in Hb.
  - exists base. split; [exact Hb|]. intros row Hrow.
    destruct (Hrows row Hrow) as (r & ext & joined & Hr & _ & _ & _ & _ & Hf).
    exists r. split; [exact Hr|]. intros c Hc. apply Hf.
    cbn [from]. unfold field, bindingOf, hasColumn. cbn [bindColumns bindRow].
    assert (E : existsb (String.eqb c) (columns base) = true).
    { apply existsb_exists. exists c. split; [exact Hc | apply String.eqb_refl]. }
    rewrite E. unfold Migration.valueOf. now destruct (assoc c r).
  - rewrite Hn, searchAssetChain_with. intros Hin.
    apply (hasPeople_with (plugins ++ [DeduplicateJoinsPlugin]) (personIds options)) in Hin.
    destruct Hin as [Hin|[]]. discriminate Hin.
Qed.

Lemma search_returns_rows_of_assets_witness :
  Store.execute Gallery.db (snd (searchAssetBuilder (mkKysely [] []) Gallery.favorites))
  = Some (Gallery.search Gallery.favorites)
  /\ Store.rows (Gallery.search Gallery.favorites) <> []
  /\ exists assets,
       Store.assoc "assets" Gallery.db = Some assets
       /\ forall row, In row (Store.rows (Gallery.search Gallery.favorites)) ->
          exists asset,
            In asset (Store.rows assets)
            /\ forall c, In c (Store.columns assets) ->
                 Store.assoc c row = Some (Migration.valueOf c asset).
Proof.
  split; [vm_compute; reflexivity|]. split; [vm_compute; discriminate|].
  apply (@search_returns_rows_of_assets [] Gallery.favorites Gallery.db
           (Gallery.search Gallery.favorites)).
  vm_compute. reflexivity.
Defined.

(* ===================================================================== *)
(** ** The joins and the projection of the search query *)
(* ===================================================================== *)

Lemma iter_fixed {A : Type} (f : A -> A) (x : A) (m : nat) :
  f x = x -> Nat.iter m f x = x.
Proof.
  intros H. induction m as [|m IH]; simpl; [reflexivity | now rewrite IH].
Qed.

Lemma hasPeople_joins_eq (db : Kysely) (options : AssetSearchBuilderOptions) :
  joins (node (hasPeople db (personIds options)))
  = if filtersPeople options then [validJoin] else [].
Proof.
  unfold hasPeople, filtersPeople.
  destruct (personIds options) as [ids|]; [destruct (Nat.ltb 0 (length ids))|]; reflexivity.
Qed.

(** The joins of the compiled chain. *)
Lemma compile_searchAssetChain_joins (kysely : Kysely) (options : AssetSearchBuilderOptions) :
  joinsOf (compile (searchAssetChain kysely options))
  = (if filtersPeople options then [validJoin] else [])
    ++ (if needsExif options then [exifJoin] else []).
Proof.
  unfold compile.
  rewrite joinsOf_plugins, searchAssetChain_plugins, length_app.
  cbn [length joinsOf toOperationNode]. rewrite Nat.add_1_r, iter_after.
  rewrite searchAssetChain_joins, hasPeople_joins_eq.
  unfold needsExif, exifFields. cbn [map concat existsb].
  destruct (filtersPeople options);
    destruct (!! (strings options city)); destruct (!! (strings options country));
    destruct (!! (strings options lensModel)); destruct (!! (strings options make));
    destruct (!! (strings options model)); destruct (!! (strings options state));
    destruct (!! (booleans options Options.withExif));
    apply iter_fixed; reflexivity.
Qed.

(** X10 (joins of the search query).  The query [searchAssetBuilder]
    returns compiles to one with at most two joins: the join of the
    people filter when [personIds] is a non-empty array, then one left
    join of [exif] when an EXIF filter is given or [withExif] is
    requested; it has no other join, however many EXIF filters are given
    and whatever plugins the handle already carries. *)
Theorem searchAssetBuilder_compiled_joins
    (kysely : Kysely) (options : AssetSearchBuilderOptions) :
  joinsOf (compile (snd (searchAssetBuilder kysely options)))
  = (if filtersPeople options then [validJoin] else [])
    ++ (if needsExif options then [exifJoin] else []).
Proof.
  cbn [snd searchAssetBuilder]. rewrite compile_searchAssetChain_joins.
  destruct (applyDefaults_spec options) as (_ & Hs & _ & _ & Hp & Hb).
  unfold filtersPeople, needsExif. now rewrite Hs, Hp, (Hb Options.withExif).
Qed.

(** X11 (projection of the search query).  The compiled query selects all
    columns of [assets] first, then [exifInfo] when [withExif] is truthy,
    then [faces] when [withFaces] or [withPeople] is truthy or
    [personIds] is given, be it the empty array; it selects nothing
    else. *)
Theorem searchAssetBuilder_projection
    (kysely : Kysely) (options : AssetSearchBuilderOptions) :
  selectionsOf (compile (snd (searchAssetBuilder kysely options)))
  = SelectAll (Some "assets")
    :: (if !! (booleans options Options.withExif) then [exifInfoSelection] else [])
    ++ (if !! (booleans options Options.withFaces) || !! (booleans options withPeople)
           || match personIds options with Some _ => true | None => false end
        then [facesSelection] else []).
Proof.
  cbn [snd searchAssetBuilder].
  destruct (compile_searchAssetChain kysely (applyDefaults options)) as (w & j & -> & _).
  cbn [selectionsOf selections]. rewrite searchAssetChain_selections.
  destruct (applyDefaults_spec options) as (_ & _ & _ & _ & Hp & Hb).
  rewrite Hp, (Hb Options.withExif), (Hb Options.withFaces), (Hb withPeople).
  now destruct (personIds options).
Qed.

(* ===================================================================== *)
(** ** The album filter *)
(* ===================================================================== *)

Module AlbumFacts.
Import Store.

Lemma compile_fixed (qb : SelectQueryBuilder) :
  Plugin.transformNode (toOperationNode qb) = toOperationNode qb ->
  compile qb = toOperationNode qb.
Proof.
  intros H. unfold compile. induction (plugins qb) as [|p ps IH]; cbn [fold_left];
    [reflexivity|].
  destruct p. cbn [Plugin.transformQuery]. now rewrite H.
Qed.


End AlbumFacts.





(* ===================================================================== *)
(** ** The people filter, on the rows of a search *)
(* ===================================================================== *)

Module PeopleFacts.








End PeopleFacts.



(* ===================================================================== *)
(** ** The relations attached to an asset *)
(* ===================================================================== *)

Module RelationFacts.

Lemma filterM_defined {A : Type} (f : A -> option bool) (l kept : list A) :
  filterM f l = Some kept -> forall x, In x l -> exists b, f x = Some b.
Proof.
  revert kept. induction l as [|a l IH]; simpl; intros kept H x Hx; [contradiction|].
  destruct (f a) as [keep|] eqn:Ea; [|discriminate].
  destruct (filterM f l) as [r|]; [|discriminate].
  destruct Hx as [<-|Hx]; [eauto | exact (IH _ eq_refl x Hx)].
Qed.

Lemma filter_map_swap {A B : Type} (q : B -> bool) (f : A -> B) (l : list A) :
  filter q (map f l) = map f (filter (fun x => q (f x)) l).
Proof.
  induction l as [|a l IH]; simpl; [reflexivity|].
  destruct (q (f a)); simpl; now rewrite IH.
Qed.

Lemma mapM_map_total {A B : Type} (f : A -> option B) (g : A -> B) (l : list A) :
  (forall x, In x l -> f x = Some (g x)) -> mapM f l = Some (map g l).
Proof.
  induction l as [|a l IH]; simpl; intros H; [reflexivity|].
  rewrite (H a (or_introl eq_refl)), IH by auto. reflexivity.
Qed.

Lemma mapM_map {A B C : Type} (f : B -> option C) (g : A -> B) (l : list A) :
  mapM f (map g l) = mapM (fun x => f (g x)) l.
Proof.
  induction l as [|a l IH]; simpl; [reflexivity | now rewrite IH].
Qed.

Lemma field_of_column (t : TableRef) (tbl : Table) (r : Row) (c : string) :
  In c (columns tbl) ->
  field (bindingOf t tbl (Some r)) c = Some (Migration.valueOf c r).
Proof.
  intros Hc. unfold field, bindingOf, hasColumn. cbn [bindColumns bindRow].
  assert (E : existsb (String.eqb c) (columns tbl) = true).
  { apply existsb_exists. exists c. split; [exact Hc | apply String.eqb_refl]. }
  rewrite E. unfold Migration.valueOf. now destruct (assoc c r).
Qed.

Lemma field_valueOf (t : TableRef) (tbl : Table) (r : Row) (c : string) (v : Value) :
  field (bindingOf t tbl (Some r)) c = Some v -> v = Migration.valueOf c r.
Proof.
  unfold field, bindingOf, Migration.valueOf. cbn [bindRow].
  destruct (hasColumn c _); [|discriminate].
  destruct (assoc c r); intros E; now injection E as <-.
Qed.

Lemma bindingFields_bindingOf (t : TableRef) (tbl : Table) (r : Row) :
  bindingFields (bindingOf t tbl (Some r)) = Some (fieldsOf tbl r).
Proof.
  unfold bindingFields, fieldsOf. cbn [bindColumns bindingOf].
  apply mapM_map_total. intros c Hc.
  change (mkBinding (tableAlias t) (columns tbl) (Some r)) with (bindingOf t tbl (Some r)).
  now rewrite field_of_column.
Qed.

(** The subquery of a relation attacher,
    [selectFrom(T).selectAll().whereRef(T.k, '=', assets.c)], run for one
    asset: the rows of [T] whose [k] is the asset's [c]. *)
Lemma related_rows (db : Database) (b : Binding) (T k c : string) (t : Table) :
  bindAlias b = "assets" ->
  String.eqb "assets" T = false ->
  run db [b]
    (SelectQuery
       (mkSelect [] (mkTable T T) []
          [BinaryOperation (Reference (mkRef (Some T) k)) Eq
             (Reference (mkRef (Some "assets") c))]
          [] [] [SelectAll None])) = Some t ->
  exists tbl,
    assoc T db = Some tbl
    /\ forall x, (forall y, field b c = Some y -> y = x) ->
         rows t = map (fieldsOf tbl) (related k x tbl).
Proof.
  intros Hb HT H.
  match type of H with
  | run ?db ?o (SelectQuery ?q) = _ =>
      change (run db o (SelectQuery q)) with (execSelect eval run db o q) in H
  end.
  unfold execSelect in H. cbn [with_ from joins where_ groupBy having selections
                              declare tableName joinAll existsb selectionAggregates orb] in H.
  cbn [bind] in H.
  apply StoreFacts.bind_Some in H. destruct H as (tbl & Htbl & H).
  apply StoreFacts.bind_Some in H. destruct H as (shape & _ & H).
  apply StoreFacts.bind_Some in H. destruct H as (names & _ & H).
  apply StoreFacts.bind_Some in H. destruct H as (kept & Hk & H).
  apply StoreFacts.bind_Some in H. destruct H as (out & Ho & H). injection H as <-.
  exists tbl. split; [exact Htbl|]. intros x Hx. cbn [rows].
  pose proof (filterM_defined _ _ Hk) as Hdef.
  rewrite (StoreFacts.filterM_filter _ _ Hk) in Ho. rewrite filter_map_swap in Ho.
  assert (Hpred : forall u, In u (rows tbl) ->
            match (conds <- mapM (eval db ([bindingOf (mkTable T T) tbl (Some u)] ++ [b])
                                    [[bindingOf (mkTable T T) tbl (Some u)] ++ [b]])
                             [BinaryOperation (Reference (mkRef (Some T) k)) Eq
                                (Reference (mkRef (Some "assets") c))] ;;
                   Some (forallb isTrue conds))
            with Some true => true | _ => false end
            = Migration.sqlTrue (applyOperator Eq (Migration.valueOf k u) x)).
  { intros u Hu.
    destruct (Hdef [bindingOf (mkTable T T) tbl (Some u)]) as (keep & Hkeep).
    { apply in_map_iff. exists u. auto. }
    revert Hkeep. cbn -[field bindingOf String.eqb].
    cbn [bindAlias bindingOf tableAlias]. rewrite Hb, HT, !String.eqb_refl.
    destruct (field (bindingOf (mkTable T T) tbl (Some u)) k) as [a|] eqn:Ea;
      [|discriminate].
    apply field_valueOf in Ea. subst a. cbn [bind].
    destruct (field b c) as [y|] eqn:Ey; [|discriminate].
    rewrite (Hx y eq_refl). cbn [bind].
    unfold applyOperator.
    destruct (isNull (Migration.valueOf k u) || isNull x); [intros _; reflexivity|].
    destruct (sameKind _ _); [|discriminate].
    intros _. cbn. now destruct (scalar_eqb _ _). }
  rewrite (filter_ext_in _ _ _ Hpred) in Ho. fold (related k x tbl) in Ho.
  rewrite mapM_map in Ho.
  rewrite (@mapM_map_total _ _ _ (fieldsOf tbl)) in Ho; [now injection Ho as <-|].
  intros u _. unfold outputRow. cbn [selections mapM selectionFields].
  rewrite bindingFields_bindingOf. cbn. now rewrite !app_nil_r.
Qed.

Lemma assoc_fieldsOf (tbl : Table) (r : Row) (c : string) :
  In c (columns tbl) -> assoc c (fieldsOf tbl r) = Some (Migration.valueOf c r).
Proof.
  unfold fieldsOf. induction (columns tbl) as [|c0 cs IH]; cbn [In map assoc]; [contradiction|].
  destruct (String.eqb_spec c c0) as [->|Hne]; [reflexivity|].
  intros [E|Hc]; [congruence | now apply IH].
Qed.

Lemma field_hasColumn (t : TableRef) (tbl : Table) (r : option Row) (c : string) (v : Value) :
  field (bindingOf t tbl r) c = Some v -> In c (columns tbl).
Proof.
  unfold field, hasColumn. cbn [bindColumns bindingOf].
  destruct (existsb _ _) eqn:E; [|discriminate]. intros _.
  apply existsb_exists in E. destruct E as (c' & Hc & E).
  apply String.eqb_eq in E. now subst.
Qed.

(** A relation attached to [select assets.* from assets] as a JSON
    value: each row carries, under the alias, the JSON of the rows of
    [T] whose [k] is the asset's [c]. *)
Lemma attached_rows (T k c alias fname : string)
    (db : Database) (t : Table) :
  String.eqb "assets" T = false ->
  fname = "jsonObjectFrom" \/ fname = "jsonArrayFrom" ->
  run db []
    (SelectQuery
       (mkSelect [] (mkTable "assets" "assets") [] [] [] []
          [SelectAll (Some "assets");
           SelectAs
             (FunctionCall fname
                [SelectQuery
                   (mkSelect [] (mkTable T T) []
                      [BinaryOperation (Reference (mkRef (Some T) k)) Eq
                         (Reference (mkRef (Some "assets") c))]
                      [] [] [SelectAll None])])
             alias])) = Some t ->
  forall row, In row (rows t) ->
  exists tbl,
    assoc T db = Some tbl
    /\ In (alias,
           let found := map (fieldsOf tbl) (related k (Migration.valueOf c row) tbl) in
           if String.eqb fname "jsonArrayFrom" then VArray (map VObject found)
           else match found with
                | [] => VNull
                | r :: _ => VObject r
                end) row.
Proof.
  intros HT Hname H row Hrow.
  destruct (@StoreFacts.run_rows db [] _ t H eq_refl eq_refl)
    as (db' & base & Hd & Hb & Hrows).
  { cbn. destruct Hname as [-> | ->]; reflexivity. }
  cbn in Hd. injection Hd as <-.
  destruct (Hrows row Hrow) as (r & ext & joined & Hr & Hlen & _ & _ & _ & Hout).
  clear Hrows. destruct ext; [|discriminate Hlen].
  unfold outputRow in Hout. cbn [selections mapM selectionFields from] in Hout.
  cbn [findBinding bindingOf tableAlias bindAlias] in Hout.
  change (String.eqb "assets" "assets") with true in Hout. cbv iota in Hout.
  change (mkBinding "assets" (columns base) (Some r))
    with (bindingOf (mkTable "assets" "assets") base (Some r)) in Hout.
  cbn [bind] in Hout. rewrite bindingFields_bindingOf in Hout.
  destruct (eval _ _ _ _) as [v|] eqn:Ev; [|discriminate Hout].
  cbn in Hout. injection Hout as <-.
  assert (Hrun : exists t',
             run db [bindingOf (mkTable "assets" "assets") base (Some r)]
               (SelectQuery
                  (mkSelect [] (mkTable T T) []
                     [BinaryOperation (Reference (mkRef (Some T) k)) Eq
                        (Reference (mkRef (Some "assets") c))]
                     [] [] [SelectAll None])) = Some t'
             /\ v = if String.eqb fname "jsonArrayFrom" then VArray (map VObject (rows t'))
                    else match rows t' with [] => VNull | r :: _ => VObject r end).
  { destruct Hname as [-> | ->]; cbn [eval app] in Ev;
      match type of Ev with
      | context [String.eqb ?a ?b] =>
          repeat match type of Ev with
                 | context [String.eqb ?a ?b] =>
                     let x := eval vm_compute in (String.eqb a b) in
                     change (String.eqb a b) with x in Ev
                 end
      end; cbv iota in Ev; cbn [orb] in Ev; cbv iota in Ev;
      apply StoreFacts.bind_Some in Ev; destruct Ev as (t' & Ht' & Ev);
      injection Ev as <-; exists t'; (split; [exact Ht' | reflexivity]). }
  destruct Hrun as (t' & Hrun & ->).
  destruct (@related_rows db (bindingOf (mkTable "assets" "assets") base (Some r)) T k c t'
              eq_refl HT Hrun) as (tbl & Htbl & Hrel).
  exists tbl. split; [exact Htbl|].
  apply in_or_app. right. left. f_equal.
  assert (Hx : forall y, field (bindingOf (mkTable "assets" "assets") base (Some r)) c = Some y ->
               y = Migration.valueOf c
                     (fieldsOf base r
                      ++ [(alias,
                           if String.eqb fname "jsonArrayFrom"
                           then VArray (map VObject (rows t'))
                           else match rows t' with [] => VNull | r0 :: _ => VObject r0 end)])).
  { intros y Hy. unfold Migration.valueOf at 1.
    rewrite (StoreFacts.assoc_app_In _ _ _
               (assoc_fieldsOf base r c (field_hasColumn _ _ _ _ Hy))).
    exact (field_valueOf _ _ _ _ Hy). }
  cbv zeta. rewrite <- (Hrel _ Hx). reflexivity.
Qed.


End RelationFacts.

Import RelationFacts.

(** X17 (withOwner).  Selected on [select assets.* from assets],
    [withOwner] adds to every row the field [owner]: the first row of
    [users] whose id is the asset's [ownerId], as a JSON object with
    every column of [users], or null when there is none. *)
Theorem withOwner_selects_owner
    (plugins : list KyselyPlugin) (db : Database) (t : Table) :
  execute db
    (mkKysely plugins [] |> selectFrom "assets" |> selectAllOf "assets"
     |> selectExpr (withOwner eb)) = Some t ->
  forall row, In row (rows t) ->
  exists users,
    assoc "users" db = Some users
    /\ In ("owner",
           match map (fieldsOf users) (related "id" (Migration.valueOf "ownerId" row) users) with
           | [] => VNull
           | user :: _ => VObject user
           end) row.
Proof.
  unfold execute. rewrite AlbumFacts.compile_fixed by reflexivity.
  intros H row Hrow.
  exact (@RelationFacts.attached_rows "users" "id" "ownerId" "owner" "jsonObjectFrom"
           db t eq_refl (or_introl eq_refl) H row Hrow).
Qed.

Lemma withOwner_selects_owner_witness :
  Store.execute Gallery.relationsDb (Gallery.allAssets |> selectExpr (withOwner eb))
  = Some (Gallery.relation (Gallery.allAssets |> selectExpr (withOwner eb)))
  /\ Store.rows (Gallery.relation (Gallery.allAssets |> selectExpr (withOwner eb))) <> []
  /\ forall row,
       In row (Store.rows (Gallery.relation (Gallery.allAssets |> selectExpr (withOwner eb)))) ->
       exists users,
         Store.assoc "users" Gallery.relationsDb = Some users
         /\ In ("owner",
                match map (fieldsOf users)
                        (related "id" (Migration.valueOf "ownerId" row) users) with
                | [] => VNull
                | user :: _ => VObject user
                end) row.
Proof.
  split; [vm_compute; reflexivity|]. split; [vm_compute; discriminate|].
  apply (@withOwner_selects_owner [] Gallery.relationsDb
           (Gallery.relation (Gallery.allAssets |> selectExpr (withOwner eb)))).
  vm_compute. reflexivity.
Defined.

(** X18 (withLibrary).  [withLibrary] adds the field [library]: the first
    row of [libraries] whose id is the asset's [libraryId], as a JSON
    object, or null when there is none. *)
Theorem withLibrary_selects_library
    (plugins : list KyselyPlugin) (db : Database) (t : Table) :
  execute db
    (mkKysely plugins [] |> selectFrom "assets" |> selectAllOf "assets"
     |> selectExpr (withLibrary eb)) = Some t ->
  forall row, In row (rows t) ->
  exists libraries,
    assoc "libraries" db = Some libraries
    /\ In ("library",
           match map (fieldsOf libraries)
                   (related "id" (Migration.valueOf "libraryId" row) libraries) with
           | [] => VNull
           | library :: _ => VObject library
           end) row.
Proof.
  unfold execute. rewrite AlbumFacts.compile_fixed by reflexivity.
  intros H row Hrow.
  exact (@RelationFacts.attached_rows "libraries" "id" "libraryId" "library" "jsonObjectFrom"
           db t eq_refl (or_introl eq_refl) H row Hrow).
Qed.

Lemma withLibrary_selects_library_witness :
  Store.execute Gallery.relationsDb (Gallery.allAssets |> selectExpr (withLibrary eb))
  = Some (Gallery.relation (Gallery.allAssets |> selectExpr (withLibrary eb)))
  /\ Store.rows (Gallery.relation (Gallery.allAssets |> selectExpr (withLibrary eb))) <> []
  /\ forall row,
       In row (Store.rows (Gallery.relation (Gallery.allAssets |> selectExpr (withLibrary eb)))) ->
       exists libraries,
         Store.assoc "libraries" Gallery.relationsDb = Some libraries
         /\ In ("library",
                match map (fieldsOf libraries)
                        (related "id" (Migration.valueOf "libraryId" row) libraries) with
                | [] => VNull
                | library :: _ => VObject library
                end) row.
Proof.
  split; [vm_compute; reflexivity|]. split; [vm_compute; discriminate|].
  apply (@withLibrary_selects_library [] Gallery.relationsDb
           (Gallery.relation (Gallery.allAssets |> selectExpr (withLibrary eb)))).
  vm_compute. reflexivity.
Defined.

(** X16 (withFaces).  [withFaces] adds the field [faces]: the JSON array
    of all rows of [asset_faces] whose [assetId] is the id of the asset,
    in the order of the table; the empty array when there is none. *)
Theorem withFaces_selects_all_faces
    (plugins : list KyselyPlugin) (db : Database) (t : Table) :
  execute db
    (mkKysely plugins [] |> selectFrom "assets" |> selectAllOf "assets"
     |> selectExpr (withFaces eb)) = Some t ->
  forall row, In row (rows t) ->
  exists faces,
    assoc "asset_faces" db = Some faces
    /\ In ("faces",
           VArray (map VObject
                     (map (fieldsOf faces)
                        (related "assetId" (Migration.valueOf "id" row) faces)))) row.
Proof.
  unfold execute. rewrite AlbumFacts.compile_fixed by reflexivity.
  intros H row Hrow.
  exact (@RelationFacts.attached_rows "asset_faces" "assetId" "id" "faces" "jsonArrayFrom"
           db t eq_refl (or_intror eq_refl) H row Hrow).
Qed.

Lemma withFaces_selects_all_faces_witness :
  Store.execute Gallery.relationsDb (Gallery.allAssets |> selectExpr (withFaces eb))
  = Some (Gallery.relation (Gallery.allAssets |> selectExpr (withFaces eb)))
  /\ Store.rows (Gallery.relation (Gallery.allAssets |> selectExpr (withFaces eb))) <> []
  /\ forall row,
       In row (Store.rows (Gallery.relation (Gallery.allAssets |> selectExpr (withFaces eb)))) ->
       exists faces,
         Store.assoc "asset_faces" Gallery.relationsDb = Some faces
         /\ In ("faces",
                VArray (map VObject
                          (map (fieldsOf faces)
                             (related "assetId" (Migration.valueOf "id" row) faces)))) row.
Proof.
  split; [vm_compute; reflexivity|]. split; [vm_compute; discriminate|].
  apply (@withFaces_selects_all_faces [] Gallery.relationsDb
           (Gallery.relation (Gallery.allAssets |> selectExpr (withFaces eb)))).
  vm_compute. reflexivity.
Defined.



(** X14 (withStack).  [withStack] over [select assets.* from assets]
    returns only assets without a stack and primary assets of a stack:
    every row has a null [stackId], or its id is the [primaryAssetId] of
    a row of [asset_stack]; whether the stacked assets are asked for or
    not. *)
Theorem withStack_returns_primary_or_unstacked
    (ps : list KyselyPlugin) (assets : bool) (withDeleted : option bool)
    (db : Database) (t : Table) :
  execute db
    (withStack (mkKysely ps [] |> selectFrom "assets" |> selectAllOf "assets")
       assets withDeleted) = Some t ->
  forall row, In row (rows t) ->
  assoc "stackId" row = Some VNull
  \/ exists stacks s a,
       assoc "asset_stack" db = Some stacks
       /\ In s (rows stacks)
       /\ assoc "primaryAssetId" s = Some a
       /\ a <> VNull
       /\ assoc "id" row = Some a.
Proof.
  unfold execute. intros H row Hrow.
  rewrite compile_explicit in H;
    [ | destruct assets, withDeleted as [[|]|]; cbn; repeat constructor
      | destruct assets; reflexivity
      | destruct assets, withDeleted as [[|]|]; cbn; repeat constructor ].
  assert (Hq : exists rest,
             selections (node (withStack (mkKysely ps [] |> selectFrom "assets"
                                          |> selectAllOf "assets") assets withDeleted))
             = SelectAll (Some "assets") :: rest
             /\ existsb selectionAggregates rest = false).
  { destruct assets, withDeleted as [[|]|]; eexists; split; reflexivity. }
  destruct Hq as (rest & Hsel & Hagg).
  replace (plugins (withStack (mkKysely ps [] |> selectFrom "assets" |> selectAllOf "assets")
                      assets withDeleted)) with ps in H
    by (destruct assets; reflexivity).
  replace (with_ (node (withStack (mkKysely ps [] |> selectFrom "assets"
                                   |> selectAllOf "assets") assets withDeleted)))
    with (@nil (string * OperationNode)) in H by (destruct assets; reflexivity).
  replace (joins (node (withStack (mkKysely ps [] |> selectFrom "assets"
                                   |> selectAllOf "assets") assets withDeleted)))
    with [mkJoin LeftJoin (mkTable "asset_stack" "asset_stack")
            [(mkRef (Some "asset_stack") "primaryAssetId", mkRef (Some "assets") "id")]] in H
    by (destruct assets; reflexivity).
  rewrite !iter_fixed in H by reflexivity.
  replace (from (node (withStack (mkKysely ps [] |> selectFrom "assets"
                                  |> selectAllOf "assets") assets withDeleted)))
    with (mkTable "assets" "assets") in H by (destruct assets; reflexivity).
  replace (groupBy (node (withStack (mkKysely ps [] |> selectFrom "assets"
                                     |> selectAllOf "assets") assets withDeleted)))
    with (@nil ColumnRef) in H by (destruct assets; reflexivity).
  replace (where_ (node (withStack (mkKysely ps [] |> selectFrom "assets"
                                    |> selectAllOf "assets") assets withDeleted)))
    with [OrN [eb_cmp "asset_stack.primaryAssetId" Eq (eb_ref "assets.id");
               eb_cmp "assets.stackId" Is (ValueN VNull)]] in H
    by (destruct assets; reflexivity).
  destruct (@StoreFacts.run_select_rows _ _ _ _ _ H eq_refl eq_refl Hsel Hagg)
    as (db' & base & Hd & Hb & Hrows).
  cbn in Hd. injection Hd as <-.
  destruct (Hrows row Hrow) as (r & ext & joined & Hr & Hlen & Hj & Hin & Hc & Hf).
  clear Hrows. cbn [joins from where_] in Hj, Hin, Hc, Hf, Hlen.
  destruct (@StoreFacts.joinAll_first _ _ _ _ _ _ Hj _ Hin)
    as (loc & stacks & bj & ext' & Hloc & Hstacks & Hs & Hlen' & Hcase).
  apply in_map_iff in Hloc. destruct Hloc as (r0 & <- & _).
  destruct ext' as [|? ?]; [|discriminate Hlen'].
  cbn [app] in Hs. injection Hs as Hb0 ->. cbn in Hstacks.
  destruct (Hc _ (or_introl eq_refl)) as (v & Hv & Ht). clear Hc.
  cbn [eval app] in Hv.
  apply StoreFacts.bind_Some in Hv. destruct Hv as (vs & Hvs & Hv). injection Hv as <-.
  unfold or3 in Ht. destruct (existsb isTrue vs) eqn:Hex;
    [|destruct (existsb isNull vs); discriminate Ht].
  apply existsb_exists in Hex. destruct Hex as (dv & Hdv & Hdt).
  destruct (StoreFacts.mapM_In _ _ Hvs _ Hdv) as (d & Hd & Ed).
  destruct Hd as [<-|[<-|[]]].
  - right. cbn -[field] in Ed. rewrite Hb0 in Ed.
    apply StoreFacts.bind_Some in Ed. destruct Ed as (a & Ha & Ed).
    apply StoreFacts.bind_Some in Ed. destruct Ed as (x & Hx & Ed).
    destruct (StoreFacts.applyOperator_Eq_true _ _ Ed Hdt) as (<- & Hnn & _).
    destruct Hcase as [(s & Hsin & -> & _) | (_ & ->)].
    + exists stacks, s, a. split; [exact Hstacks|]. split; [exact Hsin|].
      split; [now apply (StoreFacts.field_bindingOf _ _ _ _ Ha)|].
      split; [exact Hnn|]. apply Hf. rewrite Hb0. exact Hx.
    + exfalso. unfold field in Ha. cbn [bindRow bindingOf] in Ha.
      destruct (hasColumn _ _); [injection Ha as <-; now apply Hnn | discriminate Ha].
  - left. cbn -[field] in Ed.
    apply StoreFacts.bind_Some in Ed. destruct Ed as (a & Ha & Ed).
    cbn in Ed. injection Ed as <-. apply Hf. rewrite Ha. f_equal.
    destruct a; try discriminate Hdt. reflexivity.
Qed.

Lemma withStack_returns_primary_or_unstacked_witness :
  Store.execute Gallery.relationsDb (withStack Gallery.allAssets true None)
  = Some (Gallery.relation (withStack Gallery.allAssets true None))
  /\ Store.rows (Gallery.relation (withStack Gallery.allAssets true None)) <> []
  /\ forall row,
       In row (Store.rows (Gallery.relation (withStack Gallery.allAssets true None))) ->
       Store.assoc "stackId" row = Some VNull
       \/ exists stacks s a,
            Store.assoc "asset_stack" Gallery.relationsDb = Some stacks
            /\ In s (Store.rows stacks)
            /\ Store.assoc "primaryAssetId" s = Some a
            /\ a <> VNull
            /\ Store.assoc "id" row = Some a.
Proof.
  split; [vm_compute; reflexivity|]. split; [vm_compute; discriminate|].
  apply (@withStack_returns_primary_or_unstacked [] true None Gallery.relationsDb
           (Gallery.relation (withStack Gallery.allAssets true None))).
  vm_compute. reflexivity.
Defined.

(* ===================================================================== *)
(** ** The migration, both ways *)
(* ===================================================================== *)

Module RoundTripFacts.
Import Store Migration MigrationFacts RoundTrip.






Lemma distinctIds_same (l : list Row) (a b : Row) :
  distinctIds l = true ->
  In a l -> In b l ->
  scalar_eqb (valueOf "id" a) (valueOf "id" a) = true ->
  scalar_eqb (valueOf "id" a) (valueOf "id" b) = true ->
  scalar_eqb (valueOf "id" b) (valueOf "id" a) = true ->
  a = b.
Proof.
  induction l as [|x l IH]; simpl; [contradiction|].
  rewrite andb_true_iff, negb_true_iff. intros [Hn Hd] [->|Ha] [->|Hb] Haa Hab Hba.
  - reflexivity.
  - exfalso. rewrite <- not_true_iff_false in Hn. apply Hn.
    apply existsb_exists. now exists b.
  - exfalso. rewrite <- not_true_iff_false in Hn. apply Hn.
    apply existsb_exists. now exists a.
  - now apply IH.
Qed.

Section Files.

Variable uuid_generate_v4 : nat -> string.
Variable now : Z.
Variable unquoted : string -> string.
Hypothesis unquoted_id : unquoted "id" = "id".
Hypothesis unquoted_assetId : unquoted "assetId" = "assetId".
Hypothesis unquoted_type : unquoted "type" = "type".

(** Files of another type are not joined. *)
Lemma find_fileRows_other (type type' column : string) (l more : list Row) (n : nat)
    (a' : Row) :
  String.eqb type type' = false ->
  find (fileOf unquoted type' a') (fileRows uuid_generate_v4 now type column n l ++ more)
  = find (fileOf unquoted type' a') more.
Proof.
  intros Ht. revert n. induction l as [|b l IH]; intros n; cbn [fileRows app find];
    [reflexivity|].
  unfold fileOf at 1. rewrite unquoted_type.
  change (valueOf "type" (fileRow uuid_generate_v4 now type column n b)) with (VText type).
  cbn [applyOperator sameKind isNull scalar_eqb sqlTrue isTrue orb andb].
  rewrite Ht, andb_false_r. apply IH.
Qed.

(** Files of assets with another id are not joined. *)
Lemma find_fileRows_skip (type type' column : string) (i : string)
    (l more : list Row) (n : nat) (a' : Row) :
  valueOf "id" a' = VText i ->
  forallb (fun a => isText (valueOf "id" a)) l = true ->
  (forall b, In b l -> scalar_eqb (valueOf "id" b) (VText i) = false) ->
  find (fileOf unquoted type' a') (fileRows uuid_generate_v4 now type column n l ++ more)
  = find (fileOf unquoted type' a') more.
Proof.
  intros Ha'. revert n. induction l as [|b l IH]; intros n; cbn [fileRows app find forallb];
    [reflexivity|].
  rewrite andb_true_iff. intros [Hb Hl] Hne.
  destruct (valueOf "id" b) as [| | j | | | | |] eqn:Ej; try discriminate Hb.
  erewrite (@fileOf_fileRow uuid_generate_v4 now unquoted unquoted_id unquoted_assetId
              unquoted_type); [ | exact Ha' | exact Ej ].
  pose proof (Hne b (or_introl eq_refl)) as Hbi. rewrite Ej in Hbi. cbn in Hbi.
  rewrite String.eqb_sym, Hbi. cbn [andb].
  apply IH; [assumption|]. intros b' Hb'. apply Hne. now right.
Qed.

(** The file joined to an asset of a table with distinct ids is the one
    made from it, if one was made. *)
Lemma find_fileRows_own (type column i : string) (l more : list Row) (n : nat)
    (a a' : Row) :
  distinctIds l = true ->
  forallb (fun a => isText (valueOf "id" a)) l = true ->
  In a l ->
  valueOf "id" a = VText i ->
  valueOf "id" a' = VText i ->
  exists k,
    find (fileOf unquoted type a')
      (fileRows uuid_generate_v4 now type column n (filter (hasPathB column) l) ++ more)
    = if hasPathB column a
      then Some (fileRow uuid_generate_v4 now type column k a)
      else find (fileOf unquoted type a') more.
Proof.
  intros Hd Hl Ha Hi Hi'.
  destruct (hasPathB column a) eqn:Hp.
  - revert n Hd Hl Ha. induction l as [|b l IH]; intros n; cbn [In]; [contradiction|].
    cbn [distinctIds forallb filter]. rewrite !andb_true_iff, negb_true_iff.
    intros [Hn Hd] [Hb Hl] [->|Ha].
    + rewrite Hp. cbn [fileRows app find].
      erewrite (@fileOf_fileRow uuid_generate_v4 now unquoted unquoted_id unquoted_assetId
                  unquoted_type); [ | exact Hi' | exact Hi ].
      rewrite !String.eqb_refl. now exists n.
    + destruct (hasPathB column b); [|now apply IH].
      cbn [fileRows app find].
      destruct (valueOf "id" b) as [| | j | | | | |] eqn:Ej; try discriminate Hb.
      erewrite (@fileOf_fileRow uuid_generate_v4 now unquoted unquoted_id unquoted_assetId
                  unquoted_type); [ | exact Hi' | exact Ej ].
      assert (Hji : String.eqb j i = false).
      { rewrite <- not_true_iff_false in Hn. apply not_true_is_false. intros E.
        apply Hn. apply existsb_exists. exists a. split; [assumption|].
        rewrite Hi. exact E. }
      rewrite String.eqb_sym, Hji. cbn [andb]. now apply IH.
  - exists n. apply find_fileRows_skip with (i := i); [assumption | now apply forallb_filter |].
    intros b Hb. apply filter_In in Hb. destruct Hb as [Hb Hpb].
    apply not_true_is_false. intros E.
    assert (a = b); [|subst b; congruence].
    assert (Hbi : valueOf "id" b = VText i) by now apply scalar_eqb_text.
    apply (distinctIds_same l); try assumption;
      rewrite ?Hi, ?Hbi; cbn; apply String.eqb_refl.
Qed.

End Files.

Section UpDown.

Variable uuid_generate_v4 : nat -> string.
Variable now : Z.
Variable unquoted : string -> string.
Hypothesis unquoted_id : unquoted "id" = "id".
Hypothesis unquoted_assetId : unquoted "assetId" = "assetId".
Hypothesis unquoted_type : unquoted "type" = "type".
Hypothesis unquoted_path : unquoted "path" = "path".



End UpDown.

Lemma find_pointwise {A : Type} (p q : A -> bool) (l : list A) :
  (forall a, p a = q a) -> find p l = find q l.
Proof.
  intros H. induction l as [|a l IH]; simpl; [reflexivity|]. now rewrite H, IH.
Qed.

Lemma moved_hasPathB (c : string) (a : Row) :
  moved (valueOf c a) = if hasPathB c a then Some (valueOf c a) else None.
Proof.
  unfold moved, hasPathB. destruct (valueOf c a); try reflexivity.
  now destruct (String.eqb _ "").
Qed.

Lemma In_fileRows (uuid_generate_v4 : nat -> string) (now : Z)
    (type column : string) (l : list Row) (n : nat) (f : Row) :
  In f (fileRows uuid_generate_v4 now type column n l) ->
  exists k a, In a l /\ f = fileRow uuid_generate_v4 now type column k a.
Proof.
  revert n. induction l as [|b l IH]; intros n; cbn [fileRows In]; [contradiction|].
  intros [<-|H].
  - exists n, b. auto.
  - destruct (IH _ H) as (k & a & Ha & ->). exists k, a. auto.
Qed.

(** The join condition of [down], for a store that takes identifiers as
    written, is the lookup by asset id and type. *)
Lemma fileOf_isFileOf (type id : string) (f : Row) :
  fileOf (fun s => s) type [("id", VText id)] f = isFileOf type id f.
Proof.
  unfold fileOf, isFileOf.
  change (valueOf "id" [("id", VText id)]) with (VText id).
  destruct (valueOf "assetId" f), (valueOf "type" f); cbn;
    rewrite ?andb_false_r, ?(String.eqb_sym id); try reflexivity;
    repeat match goal with |- context [String.eqb ?a ?b] => destruct (String.eqb a b) end;
    reflexivity.
Qed.

End RoundTripFacts.







Import Store Migration MigrationFacts RoundTrip RoundTripFacts.

(** X25 (what [up] moves).  On a library from before the migration [up]
    runs to the end; afterwards [asset_files] holds, for an asset and a
    type, the asset's legacy path of that type when that path was neither
    null nor empty, and no file otherwise; it holds no file for an id
    that is no asset. *)
Theorem up_moves_paths
    (uuid_generate_v4 : nat -> string) (now : Z) (db : Migration.Db) :
  Migration.legacy db = true ->
  exists db1,
    Migration.up uuid_generate_v4 now db = Some db1
    /\ forall id,
         RoundTrip.filePath "preview" id db1
         = match Migration.findAsset id db with
           | Some a => RoundTrip.moved (Migration.valueOf "previewPath" a)
           | None => None
           end
         /\ RoundTrip.filePath "thumbnail" id db1
            = match Migration.findAsset id db with
              | Some a => RoundTrip.moved (Migration.valueOf "thumbnailPath" a)
              | None => None
              end.
Proof.
  intros Hl. rewrite (up_legacy _ _ _ Hl). eexists. split; [reflexivity|].
  destruct (legacy_inv _ Hl) as (Hid & Hpc & Htc & Hrows & Hdist & Hfiles & Hidx & Hfk).
  destruct (legacyRow_inv _ Hrows) as (Hids & Hps & Hts).
  intros id. unfold filePath, findAsset. cbn [asset_files rows].
  rewrite !(fun ty l => @find_pointwise _ _ _ l (fun f => eq_sym (fileOf_isFileOf ty id f))).
  rewrite (@find_fileRows_other uuid_generate_v4 now (fun s => s) eq_refl
             "preview" "thumbnail") by reflexivity.
  rewrite <- (app_nil_r (fileRows _ _ "thumbnail" _ _ _)).
  destruct (find _ (rows (assets db))) as [a|] eqn:Hfind.
  - pose proof (find_some _ _ Hfind) as [Ha Hi]. apply scalar_eqb_text in Hi.
    destruct (@find_fileRows_own uuid_generate_v4 now (fun s => s) eq_refl eq_refl eq_refl
                "preview" "previewPath" id (rows (assets db))
                (fileRows uuid_generate_v4 now "thumbnail" "thumbnailPath"
                   (uuidsDrawn db + length (filter (hasPathB "previewPath") (rows (assets db))))
                   (filter (hasPathB "thumbnailPath")
                      (map (dropCol "previewPath") (rows (assets db)))) ++ [])
                (uuidsDrawn db) a [("id", VText id)] Hdist Hids Ha Hi eq_refl) as (k & ->).
    destruct (@find_fileRows_own uuid_generate_v4 now (fun s => s) eq_refl eq_refl eq_refl
                "thumbnail" "thumbnailPath" id (map (dropCol "previewPath") (rows (assets db)))
                [] (uuidsDrawn db + length (filter (hasPathB "previewPath") (rows (assets db))))
                (dropCol "previewPath" a) [("id", VText id)]) as (k' & ->).
    { now rewrite distinctIds_dropCol by reflexivity. }
    { now rewrite forallb_valueOf_dropCol by reflexivity. }
    { now apply in_map. }
    { now rewrite valueOf_dropCol_ne by reflexivity. }
    { reflexivity. }
    rewrite (@find_fileRows_other uuid_generate_v4 now (fun s => s) eq_refl
               "thumbnail" "preview") by reflexivity.
    rewrite !moved_hasPathB.
    assert (Hh : hasPathB "thumbnailPath" (dropCol "previewPath" a)
                 = hasPathB "thumbnailPath" a).
    { unfold hasPathB. now rewrite valueOf_dropCol_ne by reflexivity. }
    rewrite Hh. split.
    + now destruct (hasPathB "previewPath" a).
    + destruct (hasPathB "thumbnailPath" a); [|reflexivity]. cbn [option_map].
      change (valueOf "path" (fileRow uuid_generate_v4 now "thumbnail" "thumbnailPath" k'
                                (dropCol "previewPath" a)))
        with (valueOf "thumbnailPath" (dropCol "previewPath" a)).
      now rewrite valueOf_dropCol_ne by reflexivity.
  - assert (Hne : forall b, In b (rows (assets db)) ->
                    scalar_eqb (valueOf "id" b) (VText id) = false).
    { intros b Hb. exact (find_none _ _ Hfind b Hb). }
    assert (HP : forallb (fun a => isText (valueOf "id" a))
                   (filter (hasPathB "previewPath") (rows (assets db))) = true)
      by now apply forallb_filter.
    assert (HPn : forall b, In b (filter (hasPathB "previewPath") (rows (assets db))) ->
                    scalar_eqb (valueOf "id" b) (VText id) = false).
    { intros b Hb. apply filter_In in Hb. destruct Hb as [Hb _]. now apply Hne. }
    assert (HT : forallb (fun a => isText (valueOf "id" a))
                   (filter (hasPathB "thumbnailPath")
                      (map (dropCol "previewPath") (rows (assets db)))) = true).
    { apply forallb_filter. now rewrite forallb_valueOf_dropCol by reflexivity. }
    assert (HTn : forall b, In b (filter (hasPathB "thumbnailPath")
                                    (map (dropCol "previewPath") (rows (assets db)))) ->
                    scalar_eqb (valueOf "id" b) (VText id) = false).
    { intros b Hb. apply filter_In in Hb. destruct Hb as [Hb _].
      apply in_map_iff in Hb. destruct Hb as (b0 & <- & Hb0).
      rewrite valueOf_dropCol_ne by reflexivity. now apply Hne. }
    rewrite (@find_fileRows_skip uuid_generate_v4 now (fun s => s) eq_refl eq_refl eq_refl
               "preview" "preview" "previewPath" id _ _ _ [("id", VText id)] eq_refl HP HPn).
    rewrite !(@find_fileRows_skip uuid_generate_v4 now (fun s => s) eq_refl eq_refl eq_refl
               "thumbnail" _ "thumbnailPath" id _ _ _ [("id", VText id)] eq_refl HT HTn).
    split; reflexivity.
Qed.

Lemma up_moves_paths_witness :
  Migration.legacy Sample.legacyDb = true
  /\ exists db1,
       Migration.up Sample.uuids Sample.clock Sample.legacyDb = Some db1
       /\ forall id,
            RoundTrip.filePath "preview" id db1
            = match Migration.findAsset id Sample.legacyDb with
              | Some a => RoundTrip.moved (Migration.valueOf "previewPath" a)
              | None => None
              end
            /\ RoundTrip.filePath "thumbnail" id db1
               = match Migration.findAsset id Sample.legacyDb with
                 | Some a => RoundTrip.moved (Migration.valueOf "thumbnailPath" a)
                 | None => None
                 end.
Proof.
  split; [vm_compute; reflexivity|].
  apply (@up_moves_paths Sample.uuids Sample.clock Sample.legacyDb).
  vm_compute. reflexivity.
Defined.

(** X26 (the table [up] leaves).  After [up] on a library from before the
    migration, no two rows of [asset_files] have the same asset id and
    type, every row belongs to an asset of [assets], its path is neither
    null nor empty, and it is not deleted. *)
Theorem up_files_are_keyed_by_asset_and_type
    (uuid_generate_v4 : nat -> string) (now : Z) (db : Migration.Db) :
  Migration.legacy db = true ->
  exists db1 files,
    Migration.up uuid_generate_v4 now db = Some db1
    /\ Migration.asset_files db1 = Some files
    /\ Migration.uniqueKeys (map Migration.fileKey (Store.rows files)) = true
    /\ forall f, In f (Store.rows files) ->
         existsb (fun a => Store.scalar_eqb (Migration.valueOf "id" a)
                             (Migration.valueOf "assetId" f))
           (Store.rows (Migration.assets db1)) = true
         /\ Migration.hasPathB "path" f = true
         /\ Migration.valueOf "deletedAt" f = VNull.
Proof.
  intros Hl. rewrite (up_legacy _ _ _ Hl). eexists. eexists.
  split; [reflexivity|]. split; [reflexivity|].
  destruct (legacy_inv _ Hl) as (Hid & Hpc & Htc & Hrows & Hdist & Hfiles & Hidx & Hfk).
  destruct (legacyRow_inv _ Hrows) as (Hids & Hps & Hts).
  cbn [rows assets]. split.
  - rewrite map_app, !fileKey_fileRows. apply uniqueKeys_app.
    + apply uniqueKeys_ids. now apply distinctIds_filter.
    + apply uniqueKeys_ids. apply distinctIds_filter.
      now rewrite distinctIds_dropCol by reflexivity.
    + intros k1 k2 H1 H2. apply in_map_iff in H1. apply in_map_iff in H2.
      destruct H1 as (a & <- & _). destruct H2 as (b & <- & _).
      unfold sameKey. cbn. apply andb_false_r.
  - intros f Hf.
    assert (Hsrc : exists k type column a,
               In a (rows (assets db)) /\ hasPathB column a = true
               /\ f = fileRow uuid_generate_v4 now type column k a).
    { apply in_app_or in Hf. destruct Hf as [Hf|Hf];
        apply In_fileRows in Hf; destruct Hf as (k & a & Ha & ->);
        apply filter_In in Ha; destruct Ha as [Ha Hp].
      - exists k, "preview", "previewPath", a. auto.
      - apply in_map_iff in Ha. destruct Ha as (a0 & <- & Ha0).
        exists k, "thumbnail", "thumbnailPath", a0. split; [assumption|]. split.
        + unfold hasPathB in *. now rewrite valueOf_dropCol_ne in Hp by reflexivity.
        + unfold fileRow. now rewrite !valueOf_dropCol_ne by reflexivity. }
    destruct Hsrc as (k & type & column & a & Ha & Hp & ->).
    change (valueOf "assetId" (fileRow uuid_generate_v4 now type column k a))
      with (valueOf "id" a).
    split; [|split; [exact Hp | reflexivity]].
    apply existsb_exists.
    exists (dropCol "thumbnailPath" (dropCol "previewPath" a)). split.
    + apply in_map, in_map. exact Ha.
    + rewrite !valueOf_dropCol_ne by reflexivity.
      rewrite forallb_forall in Hids. specialize (Hids a Ha).
      destruct (valueOf "id" a); try discriminate Hids. cbn. apply String.eqb_refl.
Qed.

Lemma up_files_are_keyed_by_asset_and_type_witness :
  Migration.legacy Sample.legacyDb = true
  /\ exists db1 files,
       Migration.up Sample.uuids Sample.clock Sample.legacyDb = Some db1
       /\ Migration.asset_files db1 = Some files
       /\ Migration.uniqueKeys (map Migration.fileKey (Store.rows files)) = true
       /\ forall f, In f (Store.rows files) ->
            existsb (fun a => Store.scalar_eqb (Migration.valueOf "id" a)
                                (Migration.valueOf "assetId" f))
              (Store.rows (Migration.assets db1)) = true
            /\ Migration.hasPathB "path" f = true
            /\ Migration.valueOf "deletedAt" f = VNull.
Proof.
  split; [vm_compute; reflexivity|].
  apply (@up_files_are_keyed_by_asset_and_type Sample.uuids Sample.clock Sample.legacyDb).
  vm_compute. reflexivity.
Defined.

(** X27 (no second run).  [up] is rejected on a library it has already
    migrated, and [down] is rejected on a library [up] has not migrated:
    the table, respectively the column, already exists. *)
Theorem migration_runs_once
    (uuid_generate_v4 : nat -> string) (now : Z) (unquoted : string -> string)
    (db : Migration.Db) :
  Migration.legacy db = true ->
  Migration.down unquoted db = None
  /\ exists db1,
       Migration.up uuid_generate_v4 now db = Some db1
       /\ Migration.up uuid_generate_v4 now db1 = None.
Proof.
  intros Hl.
  destruct (MigrationFacts.legacy_inv _ Hl) as (_ & Hp & _).
  split.
  - unfold Migration.down, Migration.addColumn at 1. now rewrite Hp.
  - rewrite (MigrationFacts.up_legacy _ _ _ Hl). eexists. split; reflexivity.
Qed.

Lemma migration_runs_once_witness :
  Migration.legacy Sample.legacyDb = true
  /\ Migration.down Sample.asWritten Sample.legacyDb = None
  /\ exists db1,
       Migration.up Sample.uuids Sample.clock Sample.legacyDb = Some db1
       /\ Migration.up Sample.uuids Sample.clock db1 = None.
Proof.
  split; [vm_compute; reflexivity|].
  apply (@migration_runs_once Sample.uuids Sample.clock Sample.asWritten Sample.legacyDb).
  vm_compute. reflexivity.
Defined.

(** The legacy library, on a store that folds unquoted identifiers. *)
Lemma down_rejected_with_folded_identifiers_witness :
  Migration.legacy Sample.legacyDb = true
  /\ Migration.upThenDown Sample.uuids Sample.clock Migration.lowerCase Sample.legacyDb
     = None.
Proof.
  split; [vm_compute; reflexivity|].
  apply (@down_rejected_with_folded_identifiers Sample.uuids Sample.clock Sample.legacyDb).
  vm_compute. reflexivity.
Defined.

(* ===================================================================== *)
(** ** The upsert helpers *)
(* ===================================================================== *)

Module UpsertFacts.
Import Upsert.

Lemma get_set {V : Type} (o : JsObject V) (key key' : string) (v : option V) :
  get (set o key v) key' = if String.eqb key' key then v else get o key'.
Proof.
  unfold get. induction o as [|[k w] o IH]; cbn [set find fst snd].
  - destruct (String.eqb key' key); reflexivity.
  - destruct (String.eqb k key) eqn:Ek; cbn [find fst snd].
    + apply String.eqb_eq in Ek. subst k.
      destruct (String.eqb key' key); reflexivity.
    + destruct (String.eqb key' k) eqn:Ek'; [|exact IH].
      apply String.eqb_eq in Ek'. subst k. now rewrite Ek.
Qed.

Lemma hasOwn_set {V : Type} (o : JsObject V) (key key' : string) (v : option V) :
  hasOwn (set o key v) key' = (String.eqb key' key || hasOwn o key')%bool.
Proof.
  unfold hasOwn, keys. induction o as [|[k w] o IH]; cbn [set map existsb fst].
  - reflexivity.
  - destruct (String.eqb k key) eqn:Ek; cbn [map existsb fst].
    + apply String.eqb_eq in Ek. subst k.
      destruct (String.eqb key' key); reflexivity.
    + rewrite IH. destruct (String.eqb key' k), (String.eqb key' key); reflexivity.
Qed.

(** Assigning [f key] to every key of a list. *)
Lemma get_assignAll {V : Type} (f : string -> option V) (ks : list string)
    (o : JsObject V) (key : string) :
  get (fold_left (fun obj k => set obj k (f k)) ks o) key
  = if existsb (String.eqb key) ks then f key else get o key.
Proof.
  revert o. induction ks as [|k ks IH]; intros o; cbn [fold_left existsb]; [reflexivity|].
  rewrite IH, get_set.
  destruct (String.eqb key k) eqn:Ek; cbn [orb].
  - apply String.eqb_eq in Ek. subst k. now destruct (existsb _ ks).
  - reflexivity.
Qed.

Lemma hasOwn_assignAll {V : Type} (f : string -> option V) (ks : list string)
    (o : JsObject V) (key : string) :
  hasOwn (fold_left (fun obj k => set obj k (f k)) ks o) key
  = (existsb (String.eqb key) ks || hasOwn o key)%bool.
Proof.
  revert o. induction ks as [|k ks IH]; intros o; cbn [fold_left existsb]; [reflexivity|].
  rewrite IH, hasOwn_set.
  destruct (String.eqb key k), (existsb _ ks); reflexivity.
Qed.

Lemma mapUpsertColumns_get {V W : Type} (columns : JsObject V) (entry : JsObject W)
    (key : string) :
  get (mapUpsertColumns columns entry) key
  = if hasOwn entry key then get columns key else None.
Proof. unfold mapUpsertColumns. now rewrite get_assignAll. Qed.

Lemma fromEntries_map {V : Type} (g : string -> V) (cs : list string) :
  fromEntries (map (fun c => (c, g c)) cs)
  = fold_left (fun obj k => set obj k (Some (g k))) cs [].
Proof.
  unfold fromEntries. generalize (@nil (string * option V)).
  induction cs as [|c cs IH]; intros o; cbn [map fold_left fst snd]; [reflexivity|].
  apply IH.
Qed.

Lemma existsb_filter_ne (key pk : string) (cs : list string) :
  existsb (String.eqb key) (filter (fun c => negb (String.eqb c pk)) cs)
  = (existsb (String.eqb key) cs && negb (String.eqb key pk))%bool.
Proof.
  induction cs as [|c cs IH]; cbn [filter existsb]; [reflexivity|].
  destruct (String.eqb c pk) eqn:Ec; cbn [negb existsb]; rewrite IH.
  - apply String.eqb_eq in Ec. subst c.
    destruct (String.eqb key pk); cbn; [now rewrite !andb_false_r | reflexivity].
  - destruct (String.eqb key c) eqn:Ek; [|reflexivity].
    apply String.eqb_eq in Ek. subst c. now rewrite Ec.
Qed.

Lemma getUpsertColumns_get (tableName pk : string) (tables : list TableMetadata)
    (columns : JsObject RawBuilder) :
  getUpsertColumns tableName pk tables = Some columns ->
  exists table,
    find (fun table => String.eqb (table_name table) tableName) tables = Some table
    /\ forall key,
         hasOwn columns key = (hasColumnNamed table key && negb (String.eqb key pk))%bool
         /\ get columns key
            = if (hasColumnNamed table key && negb (String.eqb key pk))%bool
              then Some (sql ["excluded."; ""] [sql_ref key])
              else None.
Proof.
  unfold getUpsertColumns. destruct (find _ tables) as [table|]; [|discriminate].
  intros H. injection H as <-. exists table. split; [reflexivity|]. intros key.
  rewrite fromEntries_map, get_assignAll, hasOwn_assignAll, existsb_filter_ne.
  unfold hasColumnNamed. cbn. now rewrite orb_false_r.
Qed.

End UpsertFacts.



(** X19 (getUpsertColumns).  When the introspection lists the table,
    [getUpsertColumns] returns an object whose keys are the columns of
    the first table of that name other than the primary key, each
    holding [excluded.<column>]; the primary key is not among them. *)
Theorem getUpsertColumns_excludes_primary_key
    (tableName pk : string) (tables : list Upsert.TableMetadata)
    (table : Upsert.TableMetadata) :
  find (fun table => String.eqb (Upsert.table_name table) tableName) tables = Some table ->
  exists columns,
    Upsert.getUpsertColumns tableName pk tables = Some columns
    /\ Upsert.hasOwn columns pk = false
    /\ forall key,
         Upsert.plainKey key = true ->
         Upsert.get columns key
         = if (Upsert.hasColumnNamed table key && negb (String.eqb key pk))%bool
           then Some (Upsert.sql ["excluded."; ""] [Upsert.sql_ref key])
           else None.
Proof.
  intros Hfind.
  destruct (Upsert.getUpsertColumns tableName pk tables) as [columns|] eqn:E.
  - destruct (UpsertFacts.getUpsertColumns_get _ _ _ E) as (table' & Hfind' & H).
    rewrite Hfind in Hfind'. injection Hfind' as <-.
    exists columns. split; [reflexivity|]. split.
    + destruct (H pk) as [-> _]. rewrite String.eqb_refl. apply andb_false_r.
    + intros key _. apply H.
  - unfold Upsert.getUpsertColumns in E. rewrite Hfind in E. discriminate E.
Qed.

Lemma getUpsertColumns_excludes_primary_key_witness :
  find (fun table => String.eqb (Upsert.table_name table) "exif") UpsertSample.tables
  = Some (Upsert.mkTableMetadata "exif"
            [Upsert.mkColumnMetadata "assetId"; Upsert.mkColumnMetadata "city";
             Upsert.mkColumnMetadata "country"])
  /\ exists columns,
       Upsert.getUpsertColumns "exif" "assetId" UpsertSample.tables = Some columns
       /\ Upsert.hasOwn columns "assetId" = false
       /\ forall key,
            Upsert.plainKey key = true ->
            Upsert.get columns key
            = if (Upsert.hasColumnNamed
                    (Upsert.mkTableMetadata "exif"
                       [Upsert.mkColumnMetadata "assetId"; Upsert.mkColumnMetadata "city";
                        Upsert.mkColumnMetadata "country"]) key
                  && negb (String.eqb key "assetId"))%bool
              then Some (Upsert.sql ["excluded."; ""] [Upsert.sql_ref key])
              else None.
Proof.
  split; [reflexivity|].
  apply (@getUpsertColumns_excludes_primary_key "exif" "assetId" UpsertSample.tables).
  reflexivity.
Defined.

(** X21 (the two together).  The update set built from
    [getUpsertColumns] and an entry assigns [excluded.<key>] to the keys
    of the entry that are columns of the table other than the primary
    key, and [undefined] to every other key of the entry: the primary key
    and keys that are no column are not updated. *)
Theorem upsert_updates_columns_of_entry
    (tableName pk : string) (tables : list Upsert.TableMetadata)
    (table : Upsert.TableMetadata) {W : Type} (entry : Upsert.JsObject W) (key : string) :
  find (fun table => String.eqb (Upsert.table_name table) tableName) tables = Some table ->
  forallb Upsert.plainKey (Upsert.keys entry) = true ->
  Upsert.plainKey key = true ->
  exists columns,
    Upsert.getUpsertColumns tableName pk tables = Some columns
    /\ Upsert.get (Upsert.mapUpsertColumns columns entry) key
       = if (Upsert.hasOwn entry key && Upsert.hasColumnNamed table key
             && negb (String.eqb key pk))%bool
         then Some (Upsert.sql ["excluded."; ""] [Upsert.sql_ref key])
         else None.
Proof.
  intros Hfind _ _.
  destruct (Upsert.getUpsertColumns tableName pk tables) as [columns|] eqn:E.
  - destruct (UpsertFacts.getUpsertColumns_get _ _ _ E) as (table' & Hfind' & H).
    rewrite Hfind in Hfind'. injection Hfind' as <-.
    exists columns. split; [reflexivity|].
    rewrite UpsertFacts.mapUpsertColumns_get. destruct (H key) as [_ ->].
    now destruct (Upsert.hasOwn entry key).
  - unfold Upsert.getUpsertColumns in E. rewrite Hfind in E. discriminate E.
Qed.

Lemma upsert_updates_columns_of_entry_witness :
  find (fun table => String.eqb (Upsert.table_name table) "exif") UpsertSample.tables
  = Some (Upsert.mkTableMetadata "exif"
            [Upsert.mkColumnMetadata "assetId"; Upsert.mkColumnMetadata "city";
             Upsert.mkColumnMetadata "country"])
  /\ forallb Upsert.plainKey (Upsert.keys UpsertSample.exifEntry) = true
  /\ Upsert.plainKey "assetId" = true
  /\ exists columns,
       Upsert.getUpsertColumns "exif" "assetId" UpsertSample.tables = Some columns
       /\ Upsert.get (Upsert.mapUpsertColumns columns UpsertSample.exifEntry) "assetId"
          = None.
Proof.
  split; [reflexivity|]. split; [reflexivity|]. split; [reflexivity|].
  apply (@upsert_updates_columns_of_entry "exif" "assetId" UpsertSample.tables
           (Upsert.mkTableMetadata "exif"
              [Upsert.mkColumnMetadata "assetId"; Upsert.mkColumnMetadata "city";
               Upsert.mkColumnMetadata "country"])
           Value UpsertSample.exifEntry "assetId"); reflexivity.
Defined.
